(** * Epos-pharma: the POS cart, checkout and hold/resume flow

    A shallow embedding of the handlers of [App.tsx] (the application state
    and its handlers), [pages/POS.tsx] (the cart of the point of sale),
    [pages/Dashboard.tsx] and [pages/Inventory.tsx] (the low-stock views),
    over the data of [types.ts].

    Conventions of the embedding.
    - A TypeScript [number] that counts things (ids, stock, quantities,
      reorder levels) is a [Z]; a [number] that is an amount of money or a
      value parsed from a settings string is a [Q]: floating point rounding
      and [NaN] are outside the model.
    - React state is explicit: every handler takes the state it closes over
      and returns the state its [set...] calls produce, together with the
      dialogs it opens ([alert], [window.confirm]) in the order they open.
      [setTimeout] callbacks run at once.
    - What a handler reads from the browser ([Math.random], [new Date],
      the answer to [window.confirm]) is an explicit [Env]. *)

From Stdlib Require Import List ZArith QArith String Ascii Bool Lia DecimalString.
From Stdlib Require Import Qround.
Import ListNotations.

Open Scope string_scope.
Open Scope list_scope.
Open Scope Z_scope.

(** ** types.ts *)

Inductive Role := admin | pharmacist | cashier.

Inductive UserStatus := active | inactive.

Module User.
Record t := mk {
  id : string;
  name : string;
  email : string;
  role : Role;
  status : UserStatus
}.
End User.
Abbreviation User := User.t.

Inductive ProductForm :=
  Tablet | Syrup | Injection | Cream | Capsule | Drops | Sachet | Ointment
| Gel | Equipment | Other.

Module Product.
Record t := mk {
  id : Z;
  name : string;
  genericName : string;
  strength : string;
  form : ProductForm;
  category : string;
  price : Q;
  costPrice : Q;
  stock : Z;
  expiryDate : string;
  barcode : string;
  sku : string;
  batchNumber : string;
  supplier : string;
  packSize : string;
  reorderLevel : Z;
  location : string;
  requiresPrescription : bool;
  isNarcotic : bool;
  warningNote : option string
}.

(** [{ ...p, stock: s }] *)
Definition withStock (p : t) (s : Z) : t :=
  mk (id p) (name p) (genericName p) (strength p) (form p) (category p)
     (price p) (costPrice p) s (expiryDate p) (barcode p) (sku p)
     (batchNumber p) (supplier p) (packSize p) (reorderLevel p) (location p)
     (requiresPrescription p) (isNarcotic p) (warningNote p).
End Product.
Abbreviation Product := Product.t.

(** [interface CartItem extends Product { quantity: number }]: the product's
    fields are reached through the coercion. *)
Module CartItem.
Record t := mk {
  product : Product;
  quantity : Z
}.

(** [{ ...item, quantity: q }] *)
Definition withQuantity (item : t) (q : Z) : t := mk (product item) q.
End CartItem.
Abbreviation CartItem := CartItem.t.
Coercion CartItem.product : CartItem.t >-> Product.t.

Inductive PaymentMethod := Cash | Easypaisa | JazzCash.

Module SaleItem.
Record t := mk {
  productId : Z;
  productName : string;
  quantity : Z;
  price : Q;
  costPrice : Q;
  batchNumber : string;
  isNarcotic : bool
}.
End SaleItem.
Abbreviation SaleItem := SaleItem.t.

Module Sale.
Record t := mk {
  id : string;
  date : string;
  totalAmount : Q;
  paymentMethod : PaymentMethod;
  items : list SaleItem;
  userId : string;
  userName : string
}.
End Sale.
Abbreviation Sale := Sale.t.

Module HeldSale.
Record t := mk {
  id : string;
  date : string;
  items : list CartItem;
  total : Q;
  userId : string;
  userName : string;
  referenceNote : option string
}.
End HeldSale.
Abbreviation HeldSale := HeldSale.t.

Module AuditLog.
Record t := mk {
  id : string;
  timestamp : string;
  userId : string;
  userName : string;
  action : string;
  details : string
}.
End AuditLog.
Abbreviation AuditLog := AuditLog.t.

Inductive SettingGroup := general | inventory | billing | system.

Module AppSetting.
Record t := mk {
  id : Z;
  key : string;
  value : string;
  description : string;
  group : SettingGroup
}.
End AppSetting.
Abbreviation AppSetting := AppSetting.t.

(** ** The browser *)

(** The built-in conversions the handlers call. [Number] is applied to
    settings strings; [dateValue s] is the time value of [new Date(s)] in
    milliseconds, [None] for an invalid date; [numberToString] is the
    conversion of a template literal, [toLocaleString] the method. *)
Class Platform := {
  Number : string -> Q;
  dateValue : string -> option Z;
  numberToString : Q -> string;
  toLocaleString : Q -> string
}.

(** What one handler invocation reads from its environment: the [k]-th
    [Math.random().toString(36).substr(2, 9)], the [k]-th
    [new Date().toISOString()], [new Date().toLocaleTimeString()], the time
    value of [new Date()], and the answer given to [window.confirm]. *)
Record Env := {
  random36 : nat -> string;
  isoNow : nat -> string;
  localeTime : string;
  now : Z;
  confirmAnswer : bool
}.

(** A dialog opened by a handler. *)
Inductive UiEvent :=
| Alert (message : string)
| Confirm (message : string).

Definition nl : string := String (ascii_of_nat 10) "".

(** [Number(settings.find(s => s.key === k)?.value || dflt)]: an absent
    setting and an empty value are both falsy and give [Number(dflt)], which
    is [dflt]. *)
Definition settingNumber `{Platform} (settings : list AppSetting) (k : string) (dflt : Q) : Q :=
  match find (fun s => (AppSetting.key s =? k)%string) settings with
  | Some s => if (AppSetting.value s =? "")%string then dflt else Number (AppSetting.value s)
  | None => dflt
  end.

(** [a || b] on numbers: [0] is falsy. *)
Definition orNumber (a : Z) (b : Q) : Q :=
  if a =? 0 then b else inject_Z a.

(** [new Date(product.expiryDate) < today]: false when the date is invalid. *)
Definition expiredAt `{Platform} (today : Z) (product : Product) : bool :=
  match dateValue (Product.expiryDate product) with
  | Some expiry => expiry <? today
  | None => false
  end.

(** ** Strings and dates of the browser *)

(** [s.includes(t)]: [t] occurs in [s]. ([s.startsWith(t)] is [prefix t s].) *)
Fixpoint includes (s t : string) : bool :=
  if prefix t s then true
  else
    match s with
    | EmptyString => false
    | String _ s' => includes s' t
    end.

(** [s.split('T')[0]]: what comes before the first [T]. *)
Fixpoint beforeT (s : string) : string :=
  match s with
  | EmptyString => EmptyString
  | String c s' => if Ascii.eqb c "T"%char then EmptyString else String c (beforeT s')
  end.

(** [String.prototype.toLowerCase]. *)
Class Casing := {
  toLowerCase : string -> string
}.

Definition msPerDay : Z := 1000 * 60 * 60 * 24.

(** [Math.ceil(diffTime / (1000 * 60 * 60 * 24))] for a whole number of
    milliseconds. *)
Definition ceilDays (diffTime : Z) : Z := - ((- diffTime) / msPerDay).

(** [Array.from(new Set(l))]: the first occurrences, in order; [seen] holds
    what the set already has. *)
Fixpoint uniqueStrings (seen l : list string) : list string :=
  match l with
  | [] => []
  | x :: rest =>
      if existsb (String.eqb x) seen then uniqueStrings seen rest
      else x :: uniqueStrings (x :: seen) rest
  end.

(** [===] on roles. *)
Definition roleEqb (a b : Role) : bool :=
  match a, b with
  | admin, admin | pharmacist, pharmacist | cashier, cashier => true
  | _, _ => false
  end.

(** [Partial<Product>], the type of the inventory form. *)
Module PartialProduct.
Record t := mk {
  id : option Z;
  name : option string;
  genericName : option string;
  strength : option string;
  form : option ProductForm;
  category : option string;
  price : option Q;
  costPrice : option Q;
  stock : option Z;
  expiryDate : option string;
  barcode : option string;
  sku : option string;
  batchNumber : option string;
  supplier : option string;
  packSize : option string;
  reorderLevel : option Z;
  location : option string;
  requiresPrescription : option bool;
  isNarcotic : option bool;
  warningNote : option string
}.

(** [{ ...f, barcode: b }] *)
Definition withBarcode (f : t) (b : string) : t :=
  mk (id f) (name f) (genericName f) (strength f) (form f) (category f)
     (price f) (costPrice f) (stock f) (expiryDate f) (Some b) (sku f)
     (batchNumber f) (supplier f) (packSize f) (reorderLevel f) (location f)
     (requiresPrescription f) (isNarcotic f) (warningNote f).

(** [{ ...f, id: i, sku: s }] *)
Definition withIdSku (f : t) (i : Z) (s : string) : t :=
  mk (Some i) (name f) (genericName f) (strength f) (form f) (category f)
     (price f) (costPrice f) (stock f) (expiryDate f) (barcode f) (Some s)
     (batchNumber f) (supplier f) (packSize f) (reorderLevel f) (location f)
     (requiresPrescription f) (isNarcotic f) (warningNote f).
End PartialProduct.
Abbreviation PartialProduct := PartialProduct.t.

(** [!s] on an optional string: absent and empty are falsy. *)
Definition falsy (s : option string) : bool :=
  match s with
  | Some s => (s =? "")%string
  | None => true
  end.

(** [{ ...s, value }] *)
Definition withValue (s : AppSetting) (value : string) : AppSetting :=
  AppSetting.mk (AppSetting.id s) (AppSetting.key s) value (AppSetting.description s)
                (AppSetting.group s).

(** ** App.tsx *)

Module App.

(** The [useState] cells of the component. *)
Record State := mkState {
  user : option User;
  products : list Product;
  users : list User;
  settings : list AppSetting;
  sales : list Sale;
  heldSales : list HeldSale;
  auditLogs : list AuditLog
}.

Definition setProducts (st : State) (v : list Product) : State :=
  mkState (user st) v (users st) (settings st) (sales st) (heldSales st) (auditLogs st).

Definition setSales (st : State) (v : list Sale) : State :=
  mkState (user st) (products st) (users st) (settings st) v (heldSales st) (auditLogs st).

Definition setHeldSales (st : State) (v : list HeldSale) : State :=
  mkState (user st) (products st) (users st) (settings st) (sales st) v (auditLogs st).

Definition setAuditLogs (st : State) (v : list AuditLog) : State :=
  mkState (user st) (products st) (users st) (settings st) (sales st) (heldSales st) v.

(** [logAction]; it is the [k]-th reader of the random source and of the
    clock in the handler that calls it. *)
Definition logAction (env : Env) (k : nat) (st : State) (action details : string) : State :=
  match user st with
  | None => st
  | Some u =>
      let newLog :=
        AuditLog.mk (random36 env k) (isoNow env k) (User.id u) (User.name u) action details in
      setAuditLogs st (newLog :: auditLogs st)
  end.

Definition handleAddProduct (env : Env) (st : State) (newProduct : Product) : State :=
  logAction env 0 (setProducts st (products st ++ [newProduct])) "ADD_PRODUCT"
    ("Added product: " ++ Product.name newProduct ++ " (" ++ Product.sku newProduct ++ ")").

Definition handleDeleteProduct (env : Env) (st : State) (productId : Z) : State * list UiEvent :=
  match find (fun p => Product.id p =? productId) (products st) with
  | None => (st, [])
  | Some product =>
      let isUsedInSales :=
        existsb (fun s => existsb (fun i => SaleItem.productId i =? productId) (Sale.items s))
                (sales st) in
      if isUsedInSales then
        (st, [Alert "Cannot delete product: It has associated sales history. Mark it as inactive instead (future feature)."])
      else
        (logAction env 0
           (setProducts st (filter (fun p => negb (Product.id p =? productId)) (products st)))
           "DELETE_PRODUCT" ("Deleted product: " ++ Product.name product),
         [])
  end.

(** The callback of [products.map] in [handleCheckout]; the flag
    [stockError] it assigns is passed in and returned. *)
Definition deductOne (cart : list CartItem) (stockError : bool) (p : Product) : bool * Product :=
  match find (fun c : CartItem => Product.id c =? Product.id p) cart with
  | Some cartItem =>
      if Product.stock p <? CartItem.quantity cartItem then (true, p)
      else (stockError, Product.withStock p (Product.stock p - CartItem.quantity cartItem))
  | None => (stockError, p)
  end.

(** [products.map(p => ...)], left to right. *)
Fixpoint deductStock (cart : list CartItem) (stockError : bool) (ps : list Product)
  : bool * list Product :=
  match ps with
  | [] => (stockError, [])
  | p :: rest =>
      let '(stockError1, p') := deductOne cart stockError p in
      let '(stockError2, rest') := deductStock cart stockError1 rest in
      (stockError2, p' :: rest')
  end.

(** The callback of [cart.map] that flattens a line into a sale item. *)
Definition toSaleItem (c : CartItem) : SaleItem :=
  SaleItem.mk (Product.id c) (Product.name c) (CartItem.quantity c) (Product.price c)
              (Product.costPrice c) (Product.batchNumber c) (Product.isNarcotic c).

Definition stockErrorMessage : string :=
  "Error: One or more items have insufficient stock.".

Definition handleCheckout `{Platform} (env : Env) (st : State)
    (cart : list CartItem) (total : Q) (method : PaymentMethod) : State * list UiEvent :=
  match user st with
  | None => (st, [])
  | Some u =>
      let '(stockError, updatedProducts) := deductStock cart false (products st) in
      if stockError then (st, [Alert stockErrorMessage])
      else
        let st1 := setProducts st updatedProducts in
        let newSale :=
          Sale.mk (random36 env 0) (isoNow env 0) total method (map toSaleItem cart)
                  (User.id u) (User.name u) in
        let st2 := setSales st1 (newSale :: sales st1) in
        (logAction env 1 st2 "SALE_COMPLETED"
           ("Sale ID: " ++ Sale.id newSale ++ ", Total: " ++ numberToString total),
         [])
  end.

(** [note || `Held at ${...}`]: an absent note and an empty one are falsy. *)
Definition noteOrDefault (env : Env) (note : option string) : string :=
  match note with
  | Some n => if (n =? "")%string then "Held at " ++ localeTime env else n
  | None => "Held at " ++ localeTime env
  end.

Definition handleHoldSale (env : Env) (st : State)
    (cart : list CartItem) (total : Q) (note : option string) : State :=
  match user st with
  | None => st
  | Some u =>
      let newHeld :=
        HeldSale.mk (random36 env 0) (isoNow env 0) cart total (User.id u) (User.name u)
                    (Some (noteOrDefault env note)) in
      setHeldSales st (newHeld :: heldSales st)
  end.

Definition handleResumeSale (st : State) (id : string) : State :=
  setHeldSales st (filter (fun h => negb (HeldSale.id h =? id)%string) (heldSales st)).


Definition setUser (st : State) (v : option User) : State :=
  mkState v (products st) (users st) (settings st) (sales st) (heldSales st) (auditLogs st).

Definition handleLogin (st : State) (loggedInUser : User) : State :=
  setUser st (Some loggedInUser).

Definition handleLogout (st : State) : State := setUser st None.

(** The [onClearData] handed to the settings page. *)
Definition onClearData (st : State) : State := setSales st [].

(** What a route shows. *)
Inductive Page :=
| DashboardPage | POSPage | InventoryPage | ReportsPage | SettingsPage
| NavigateHome.

(** The [<Routes>] table rendered for a logged-in user: pattern and element,
    in order. *)
Definition routes (user : User) : list (string * Page) :=
  [ ("/", DashboardPage);
    ("/pos", POSPage);
    ("/inventory",
      if existsb (roleEqb (User.role user)) [admin; pharmacist] then InventoryPage
      else NavigateHome);
    ("/reports",
      if existsb (roleEqb (User.role user)) [admin; pharmacist] then ReportsPage
      else NavigateHome);
    ("/settings", if roleEqb (User.role user) admin then SettingsPage else NavigateHome);
    ("*", NavigateHome) ].

End App.

(** ** pages/POS.tsx *)

Module POS.

(** The [useState] cells of the component that the handlers below touch;
    the search term and the selected category only filter the product grid. *)
Record State := mkState {
  cart : list CartItem;
  paymentMethod : PaymentMethod;
  isProcessing : bool;
  showHeldModal : bool
}.

(** The state of a freshly mounted component. *)
Definition initial : State := mkState [] Cash false false.

Definition setCart (pos : State) (v : list CartItem) : State :=
  mkState v (paymentMethod pos) (isProcessing pos) (showHeldModal pos).

Definition setPaymentMethod (pos : State) (v : PaymentMethod) : State :=
  mkState (cart pos) v (isProcessing pos) (showHeldModal pos).

Definition setIsProcessing (pos : State) (v : bool) : State :=
  mkState (cart pos) (paymentMethod pos) v (showHeldModal pos).

Definition setShowHeldModal (pos : State) (v : bool) : State :=
  mkState (cart pos) (paymentMethod pos) (isProcessing pos) v.

Definition taxRate `{Platform} (settings : list AppSetting) : Q :=
  settingNumber settings "tax_rate" 0%Q.

Definition expiryAlertDays `{Platform} (settings : list AppSetting) : Q :=
  settingNumber settings "expiry_alert_days" 90%Q.

Definition expiredMessage : string :=
  "CRITICAL ERROR: This batch is EXPIRED and cannot be sold.".

Definition prescriptionMessage (product : Product) : string :=
  "⚠️ WARNING: " ++ Product.name product ++ " requires a prescription." ++ nl ++ nl
  ++ "Have you verified the prescription?".

Definition noteMessage (product : Product) (note : string) : string :=
  "NOTE for " ++ Product.name product ++ ":" ++ nl ++ nl ++ note.

(** The updater that [addToCart] hands to [setCart]. *)
Definition addLine (product : Product) (currentCart : list CartItem)
  : list CartItem * list UiEvent :=
  let existingItem := find (fun item : CartItem => Product.id item =? Product.id product) currentCart in
  let currentQty :=
    match existingItem with Some e => CartItem.quantity e | None => 0 end in
  if currentQty + 1 >? Product.stock product then
    (currentCart, [Alert "Insufficient stock!"])
  else
    match existingItem with
    | Some _ =>
        (map (fun item : CartItem =>
                if Product.id item =? Product.id product
                then CartItem.withQuantity item (CartItem.quantity item + 1)
                else item) currentCart,
         [])
    | None => (currentCart ++ [CartItem.mk product 1], [])
    end.

Definition addToCart `{Platform} (env : Env) (product : Product) (pos : State)
  : State * list UiEvent :=
  if expiredAt (now env) product then (pos, [Alert expiredMessage])
  else
    let asked :=
      if Product.requiresPrescription product then [Confirm (prescriptionMessage product)]
      else [] in
    if Product.requiresPrescription product && negb (confirmAnswer env) then (pos, asked)
    else
      let noted :=
        match Product.warningNote product with
        | Some note => if (note =? "")%string then [] else [Alert (noteMessage product note)]
        | None => []
        end in
      let '(newCart, alerts) := addLine product (cart pos) in
      (setCart pos newCart, asked ++ noted ++ alerts).

(** The callback of [currentCart.map] in [updateQuantity]. *)
Definition adjustLine (products : list Product) (id delta : Z) (item : CartItem)
  : CartItem * list UiEvent :=
  if Product.id item =? id then
    let exceeds :=
      match find (fun p => Product.id p =? id) products with
      | Some product => CartItem.quantity item + delta >? Product.stock product
      | None => false
      end in
    if exceeds then (item, [Alert "Cannot exceed available stock."])
    else
      let newQuantity := Z.max 0 (CartItem.quantity item + delta) in
      (CartItem.withQuantity item newQuantity, [])
  else (item, []).

Definition updateQuantity (products : list Product) (id delta : Z) (pos : State)
  : State * list UiEvent :=
  let adjusted := map (adjustLine products id delta) (cart pos) in
  (setCart pos (filter (fun item => CartItem.quantity item >? 0) (map fst adjusted)),
   List.concat (map snd adjusted)).

Definition removeFromCart (id : Z) (pos : State) : State :=
  setCart pos (filter (fun item : CartItem => negb (Product.id item =? id)) (cart pos)).

Definition subtotal (cart : list CartItem) : Q :=
  fold_left
    (fun (sum : Q) (item : CartItem) =>
       (sum + Product.price item * inject_Z (CartItem.quantity item))%Q)
    cart 0%Q.

Definition taxAmount `{Platform} (settings : list AppSetting) (cart : list CartItem) : Q :=
  ((subtotal cart * taxRate settings) / 100)%Q.

Definition total `{Platform} (settings : list AppSetting) (cart : list CartItem) : Q :=
  (subtotal cart + taxAmount settings cart)%Q.

Definition successMessage `{Platform} (total : Q) : string :=
  "Transaction Successful!" ++ nl ++ "Amount: PKR " ++ toLocaleString total.

(** [handleCheckout]: [app] holds the props ([products], [settings],
    [onCheckout] is [App.handleCheckout]). *)
Definition handleCheckout `{Platform} (env : Env) (app : App.State) (pos : State)
  : App.State * State * list UiEvent :=
  match cart pos with
  | [] => (app, pos, [])
  | _ =>
      let total := total (App.settings app) (cart pos) in
      let pos1 := setIsProcessing pos true in
      let '(app', raised) := App.handleCheckout env app (cart pos1) total (paymentMethod pos1) in
      let pos2 := setCart pos1 [] in
      let pos3 := setPaymentMethod pos2 Cash in
      (app', setIsProcessing pos3 false, raised ++ [Alert (successMessage total)])
  end.

(** [handleHold]: [onHold] is [App.handleHoldSale], called without a note. *)
Definition handleHold `{Platform} (env : Env) (app : App.State) (pos : State)
  : App.State * State * list UiEvent :=
  match cart pos with
  | [] => (app, pos, [])
  | _ =>
      let app' :=
        App.handleHoldSale env app (cart pos) (total (App.settings app) (cart pos)) None in
      (app', setCart pos [], [Alert "Sale put on hold."])
  end.

(** [handleResume]: [onResume] is [App.handleResumeSale]. *)
Definition handleResume (app : App.State) (pos : State) (held : HeldSale)
  : App.State * State :=
  let pos1 := setCart pos (HeldSale.items held) in
  let app' := App.handleResumeSale app (HeldSale.id held) in
  (app', setShowHeldModal pos1 false).


(** [filteredProducts]: the product grid for a search term and a category. *)
Definition filteredProducts `{Casing} (searchTerm selectedCategory : string)
    (products : list Product) : list Product :=
  filter
    (fun product =>
       let term := toLowerCase searchTerm in
       let matchesSearch :=
         includes (toLowerCase (Product.name product)) term
         || includes (toLowerCase (Product.genericName product)) term
         || includes (toLowerCase (Product.barcode product)) term
         || includes (toLowerCase (Product.sku product)) term in
       let matchesCategory :=
         (selectedCategory =? "All")%string
         || (Product.category product =? selectedCategory)%string in
       matchesSearch && matchesCategory)
    products.

Definition categories (products : list Product) : list string :=
  "All" :: uniqueStrings [] (map Product.category products).

(** The tile of a product in the grid: [today] is the clock read for
    [isExpired], [later] the one read for [daysToExpiry]. *)
Definition isExpired `{Platform} (today : Z) (product : Product) : bool :=
  expiredAt today product.

Definition daysToExpiry `{Platform} (later : Z) (product : Product) : option Z :=
  option_map (fun expiry => ceilDays (expiry - later))
             (dateValue (Product.expiryDate product)).

(** A comparison with an invalid date is false. *)
Definition isNearExpiry `{Platform} (settings : list AppSetting) (today later : Z)
    (product : Product) : bool :=
  match daysToExpiry later product with
  | Some days => Qle_bool (inject_Z days) (expiryAlertDays settings)
  | None => false
  end
  && negb (isExpired today product).

(** The [disabled] attribute of the tile's button. *)
Definition tileDisabled `{Platform} (today : Z) (product : Product) : bool :=
  (Product.stock product =? 0) || isExpired today product.

(** The item count of the cart header. *)
Definition itemCount (cart : list CartItem) : Z :=
  fold_left (fun (acc : Z) (item : CartItem) => acc + CartItem.quantity item) cart 0.

End POS.

(** ** pages/Inventory.tsx *)

Module Inventory.

Definition lowStockLimit `{Platform} (settings : list AppSetting) : Q :=
  settingNumber settings "low_stock_limit_default" 5%Q.

(** [matchesFilter] of [filteredProducts] when [activeFilter === 'lowstock']. *)
Definition matchesLowStock `{Platform} (settings : list AppSetting) (p : Product) : bool :=
  Qle_bool (inject_Z (Product.stock p))
           (orNumber (Product.reorderLevel p) (lowStockLimit settings)).


Definition expiryAlertDays `{Platform} (settings : list AppSetting) : Q :=
  settingNumber settings "expiry_alert_days" 90%Q.

(** [matchesFilter] of [filteredProducts] when [activeFilter === 'expiring']. *)
Definition matchesExpiring `{Platform} (settings : list AppSetting) (now : Z) (p : Product)
  : bool :=
  match dateValue (Product.expiryDate p) with
  | Some expiryDate =>
      let daysToExpiry := ceilDays (expiryDate - now) in
      Qle_bool (inject_Z daysToExpiry) (expiryAlertDays settings) && (daysToExpiry >=? 0)
  | None => false
  end.

(** [filteredProducts]: [activeFilter] is the [filter] query parameter. *)
Definition filteredProducts `{Platform} `{Casing} (settings : list AppSetting) (now : Z)
    (searchTerm : string) (activeFilter : option string) (products : list Product)
  : list Product :=
  filter
    (fun p =>
       let matchesSearch :=
         includes (toLowerCase (Product.name p)) (toLowerCase searchTerm)
         || includes (toLowerCase (Product.genericName p)) (toLowerCase searchTerm)
         || includes (toLowerCase (Product.barcode p)) (toLowerCase searchTerm) in
       let matchesFilter :=
         match activeFilter with
         | Some f =>
             if (f =? "lowstock")%string then matchesLowStock settings p
             else if (f =? "expiring")%string then matchesExpiring settings now p
             else true
         | None => true
         end in
       matchesSearch && matchesFilter)
    products.

(** The number put in a generated barcode, [random] being [Math.random()]. *)
Definition barcodeNumber (random : Q) : Z := Qfloor (100000 + random * 900000).

Definition generateBarcode `{Platform} (random : Q) (formData : PartialProduct)
  : PartialProduct :=
  PartialProduct.withBarcode formData
    ("MED" ++ numberToString (inject_Z (barcodeNumber random))).

(** [newErrors[k] = message]: a key keeps its place when assigned again. *)
Definition setError (errors : list (string * string)) (k message : string)
  : list (string * string) :=
  if existsb (fun e => (fst e =? k)%string) errors
  then map (fun e => if (fst e =? k)%string then (k, message) else e) errors
  else errors ++ [(k, message)].

(** [validateForm]: the errors it sets and its answer. *)
Definition validateForm `{Platform} (now : Z) (formData : PartialProduct)
  : list (string * string) * bool :=
  let e0 : list (string * string) := [] in
  let e1 := if falsy (PartialProduct.name formData)
            then setError e0 "name" "Product name is required" else e0 in
  let e2 := if falsy (PartialProduct.genericName formData)
            then setError e1 "genericName" "Generic name/formula is required" else e1 in
  let e3 := if falsy (PartialProduct.barcode formData)
            then setError e2 "barcode" "Barcode is required" else e2 in
  let e4 := if falsy (PartialProduct.batchNumber formData)
            then setError e3 "batchNumber" "Batch number is required" else e3 in
  let e5 :=
    match PartialProduct.expiryDate formData with
    | None => setError e4 "expiryDate" "Expiry date is required"
    | Some d =>
        if (d =? "")%string then setError e4 "expiryDate" "Expiry date is required"
        else
          match dateValue d with
          | Some expiry =>
              if expiry <? now
              then setError e4 "expiryDate" "Expiry date cannot be in the past" else e4
          | None => e4
          end
    end in
  let nonPositive (x : option Q) :=
    match x with
    | Some v => Qle_bool v 0
    | None => true
    end in
  let e6 := if nonPositive (PartialProduct.costPrice formData)
            then setError e5 "costPrice" "Invalid cost price" else e5 in
  let e7 := if nonPositive (PartialProduct.price formData)
            then setError e6 "price" "Invalid sales price" else e6 in
  let e8 :=
    match PartialProduct.costPrice formData, PartialProduct.price formData with
    | Some c, Some p =>
        if negb (Qle_bool c p)
        then setError e7 "price" "Sales price cannot be lower than cost" else e7
    | _, _ => e7
    end in
  (e8, match e8 with [] => true | _ => false end).

(** [formData.sku || formData.barcode || 'N/A'] *)
Definition submittedSku (formData : PartialProduct) : string :=
  if negb (falsy (PartialProduct.sku formData)) then
    match PartialProduct.sku formData with Some s => s | None => "" end
  else if negb (falsy (PartialProduct.barcode formData)) then
    match PartialProduct.barcode formData with Some b => b | None => "" end
  else "N/A".

(** [handleSubmit]: the product handed to [onAddProduct], if any, the errors
    set and the dialogs; [random] is [Math.random()]. *)
Definition handleSubmit `{Platform} (now : Z) (random : Q) (formData : PartialProduct)
  : option PartialProduct * list (string * string) * list UiEvent :=
  let '(errors, ok) := validateForm now formData in
  if ok then
    let newProduct :=
      PartialProduct.withIdSku formData (Qfloor (random * 100000)) (submittedSku formData) in
    (Some newProduct, errors, [Alert "Product Added Successfully!"])
  else (None, errors, []).

Definition quote : string := String (ascii_of_nat 34) EmptyString.

Definition deleteMessage (name : string) : string :=
  "Are you sure you want to delete " ++ quote ++ name ++ quote ++ "?" ++ nl ++ nl
  ++ "Check for existing sales before confirming.".

(** [handleDelete]: [onDeleteProduct] is [App.handleDeleteProduct]. *)
Definition handleDelete (env : Env) (user : User) (app : App.State) (id : Z) (name : string)
  : App.State * list UiEvent :=
  if negb (roleEqb (User.role user) admin) then (app, [])
  else if confirmAnswer env then
    let '(app', raised) := App.handleDeleteProduct env app id in
    (app', Confirm (deleteMessage name) :: raised)
  else (app, [Confirm (deleteMessage name)]).

End Inventory.

(** ** pages/Dashboard.tsx *)

Module Dashboard.

Definition lowStockThreshold `{Platform} (settings : list AppSetting) : Q :=
  settingNumber settings "low_stock_limit_default" 5%Q.

Definition lowStockCount `{Platform} (settings : list AppSetting) (products : list Product) : nat :=
  List.length
    (filter
       (fun p => Qle_bool (inject_Z (Product.stock p))
                          (orNumber (Product.reorderLevel p) (lowStockThreshold settings)))
       products).


(** [today]: [iso] is [new Date().toISOString()]. *)
Definition today (iso : string) : string := beforeT iso.

(** [todaysSales]; the sum [dailyRevenue] of their amounts is a sum of
    floating point numbers and is not modelled. *)
Definition todaysSales (today : string) (sales : list Sale) : list Sale :=
  filter (fun s => prefix today (Sale.date s)) sales.

End Dashboard.

(** ** pages/Reports.tsx *)

Module Reports.

Definition controlledSales (sales : list Sale) : list Sale :=
  filter (fun s => existsb SaleItem.isNarcotic (Sale.items s)) sales.

End Reports.

(** ** The settings page *)

Module Settings.

Definition getVal (settings : list AppSetting) (key : string) : string :=
  match find (fun s => (AppSetting.key s =? key)%string) settings with
  | Some s => if (AppSetting.value s =? "")%string then "" else AppSetting.value s
  | None => ""
  end.

(** The settings that [updateVal] hands to [setSettings]. *)
Definition updateVal (key value : string) (settings : list AppSetting) : list AppSetting :=
  map (fun s => if (AppSetting.key s =? key)%string then withValue s value else s) settings.

Definition clearPrompt : string :=
  "DANGER: This will delete ALL sales history." ++ nl ++ nl ++ "Type 'DELETE' to confirm:".

(** [handleClearData]: [confirmation] is the answer to [prompt], absent when
    it is cancelled; the prompt itself is not among the dialogs returned. *)
Definition handleClearData (env : Env) (app : App.State) (confirmation : option string)
  : App.State * list UiEvent :=
  match confirmation with
  | Some answer =>
      if (answer =? "DELETE")%string then
        (App.logAction env 0 (App.onClearData app) "CLEAR_DATA"
           "All sales history cleared by Admin",
         [Alert "All sales data has been cleared."])
      else (app, [])
  | None => (app, [])
  end.

End Settings.

(** ** components/Layout.tsx *)

Module Layout.

Record MenuItem := mkItem {
  label : string;
  path : string;
  roles : list Role
}.

Definition menuItems : list MenuItem :=
  [ mkItem "Dashboard" "/" [admin; pharmacist; cashier];
    mkItem "Point of Sale" "/pos" [admin; pharmacist; cashier];
    mkItem "Inventory" "/inventory" [admin; pharmacist];
    mkItem "Reports" "/reports" [admin];
    mkItem "Settings" "/settings" [admin] ].

Definition filteredMenuItems (user : option User) : list MenuItem :=
  filter
    (fun item =>
       match user with
       | Some u => existsb (roleEqb (User.role u)) (roles item)
       | None => false
       end)
    menuItems.

End Layout.

(** ** Well-formed carts *)

(** The product ids of the lines of a cart, in order. *)
Definition cartIds (cart : list CartItem) : list Z :=
  map (fun item : CartItem => Product.id item) cart.

(** The carts that [POS] builds hold at most one line per product, each with
    a positive quantity (see [addToCart_wellFormed] and the lemmas after it). *)
Definition wellFormedCart (cart : list CartItem) : Prop :=
  NoDup (cartIds cart) /\ Forall (fun item => 0 < CartItem.quantity item) cart.

(** The cart and every held cart are well formed. *)
Definition cartsWellFormed (app : App.State) (pos : POS.State) : Prop :=
  wellFormedCart (POS.cart pos)
  /\ Forall (fun h => wellFormedCart (HeldSale.items h)) (App.heldSales app).

(** Some line asks for more than the catalog holds of its product. *)
Definition shortOfStock (products : list Product) (cart : list CartItem) : Prop :=
  exists (line : CartItem) (p : Product),
    In line cart /\ In p products /\ Product.id p = Product.id line
    /\ Product.stock p < CartItem.quantity line.

(** Some sale of the ledger has an item for the product. *)
Definition soldBefore (sales : list Sale) (productId : Z) : Prop :=
  exists (s : Sale) (i : SaleItem),
    In s sales /\ In i (Sale.items s) /\ SaleItem.productId i = productId.

(** The conditions under which [validateForm] sets no error. *)
Definition acceptable `{Platform} (now : Z) (formData : PartialProduct) : Prop :=
  falsy (PartialProduct.name formData) = false
  /\ falsy (PartialProduct.genericName formData) = false
  /\ falsy (PartialProduct.barcode formData) = false
  /\ falsy (PartialProduct.batchNumber formData) = false
  /\ (exists d : string,
        PartialProduct.expiryDate formData = Some d /\ d <> ""
        /\ forall expiry, dateValue d = Some expiry -> now <= expiry)
  /\ (exists c p : Q,
        PartialProduct.costPrice formData = Some c
        /\ PartialProduct.price formData = Some p
        /\ (0 < c)%Q /\ (c <= p)%Q).

(** ** A platform and data for the examples *)

Definition showZ (z : Z) : string := NilZero.string_of_int (Z.to_int z).

Definition readZ (s : string) : option Z :=
  option_map Z.of_int (NilZero.int_of_string s).

(** [Number] on decimal integer literals; other strings are outside the
    fragment and read as [0]. *)
Definition decimalNumber (s : string) : Q :=
  match readZ s with
  | Some z => inject_Z z
  | None => 0%Q
  end.

(** Days from 1970-01-01 to a date of the proleptic Gregorian calendar. *)
Definition daysFromCivil (y m d : Z) : Z :=
  let y' := if m <=? 2 then y - 1 else y in
  let era := y' / 400 in
  let yoe := y' - era * 400 in
  let doy := (153 * (if m >? 2 then m - 3 else m + 9) + 2) / 5 + d - 1 in
  let doe := yoe * 365 + yoe / 4 - yoe / 100 + doy in
  era * 146097 + doe - 719468.

(** The time value of [new Date(s)] for a date-only ISO string
    [YYYY-MM-DD] (midnight UTC); other strings are invalid dates. *)
Definition isoDateValue (s : string) : option Z :=
  if ((String.length s =? 10)%nat && (substring 4 1 s =? "-")%string
      && (substring 7 1 s =? "-")%string)%bool
  then
    match readZ (substring 0 4 s), readZ (substring 5 2 s), readZ (substring 8 2 s) with
    | Some y, Some m, Some d =>
        if ((1 <=? m) && (m <=? 12) && (1 <=? d) && (d <=? 31))%bool
        then Some (daysFromCivil y m d * 86400000)
        else None
    | _, _, _ => None
    end
  else None.

(** Integers print in decimal, without grouping; the examples use integer
    amounts below one thousand, where both conversions of the browser agree
    with it. *)
Definition showNumber (q : Q) : string :=
  let r := Qred q in
  if (Qden r =? 1)%positive then showZ (Qnum r)
  else showZ (Qnum r) ++ "/" ++ showZ (Zpos (Qden r)).

Definition examplePlatform : Platform :=
  {| Number := decimalNumber;
     dateValue := isoDateValue;
     numberToString := showNumber;
     toLocaleString := showNumber |}.

Definition amna : User := User.mk "u2" "Amna" "amna@epos.pk" admin active.

Definition exampleProduct (id : Z) (name : string) (price : Q) (stock : Z)
    (expiryDate : string) (reorderLevel : Z) (requiresPrescription isNarcotic : bool) : Product :=
  Product.mk id name name "500mg" Tablet "General" price (price / 2)%Q stock expiryDate
             "MED100001" "SKU-1" "B-01" "Getz" "Box of 10" reorderLevel "Rack A"
             requiresPrescription isNarcotic None.

Definition panadol : Product := exampleProduct 1 "Panadol" 100%Q 1 "2030-01-01" 3 false false.

Definition augmentin : Product := exampleProduct 2 "Augmentin" 250%Q 5 "2030-06-30" 0 true false.

Definition brufen : Product := exampleProduct 3 "Brufen" 100%Q 2 "2031-03-31" 3 false false.

Definition morphine : Product := exampleProduct 4 "Morphine" 400%Q 10 "2020-01-01" 4 true true.

Definition exampleSettings : list AppSetting :=
  [ AppSetting.mk 1 "tax_rate" "17" "Sales tax in percent" billing;
    AppSetting.mk 2 "expiry_alert_days" "90" "Near-expiry window" inventory;
    AppSetting.mk 3 "low_stock_limit_default" "5" "Default reorder level" inventory ].

(** A handler invocation on 2026-01-01 whose confirmation is accepted. *)
Definition exampleEnv : Env :=
  {| random36 := fun k => ("k3j9x2m1" ++ showZ (Z.of_nat k))%string;
     isoNow := fun _ => "2026-01-01T09:00:00.000Z";
     localeTime := "9:00:00 AM";
     now := 1767258000000;
     confirmAnswer := true |}.

(** The same invocation with the confirmation declined. *)
Definition decliningEnv : Env :=
  {| random36 := random36 exampleEnv;
     isoNow := isoNow exampleEnv;
     localeTime := localeTime exampleEnv;
     now := now exampleEnv;
     confirmAnswer := false |}.

(** A later invocation, with other random ids. *)
Definition laterEnv : Env :=
  {| random36 := fun k => ("q7w4e8r2" ++ showZ (Z.of_nat k))%string;
     isoNow := fun _ => "2026-01-01T09:05:00.000Z";
     localeTime := "9:05:00 AM";
     now := 1767258300000;
     confirmAnswer := true |}.

Definition exampleApp (products : list Product) : App.State :=
  App.mkState (Some amna) products [amna] exampleSettings [] [] [].

(** A sale of two Brufen is held while the stock is 2; one Brufen is then
    sold, and the held sale is resumed: the cart asks for 2, the catalog
    holds 1. *)
Definition staleBefore : App.State * POS.State :=
  let app0 := exampleApp [brufen] in
  let pos1 := fst (@POS.addToCart examplePlatform exampleEnv brufen POS.initial) in
  let pos2 := fst (@POS.addToCart examplePlatform exampleEnv brufen pos1) in
  let '(app3, pos3, _) := @POS.handleHold examplePlatform exampleEnv app0 pos2 in
  let pos4 := fst (@POS.addToCart examplePlatform exampleEnv brufen pos3) in
  let '(app5, pos5, _) := @POS.handleCheckout examplePlatform laterEnv app3 pos4 in
  match App.heldSales app5 with
  | held :: _ => POS.handleResume app5 pos5 held
  | [] => (app5, pos5)
  end.

(** Checkout of the resumed sale. *)
Definition staleAfter : App.State * POS.State * list UiEvent :=
  @POS.handleCheckout examplePlatform laterEnv (fst staleBefore) (snd staleBefore).

(** A sale of one Brufen is held; the administrator opens the inventory
    (the point of sale is unmounted) and deletes Brufen, which no sale
    mentions; back at the point of sale the held sale is resumed. *)
Definition orphanBefore : App.State * POS.State :=
  let app0 := exampleApp [panadol; brufen] in
  let pos1 := fst (@POS.addToCart examplePlatform exampleEnv brufen POS.initial) in
  let '(app2, _, _) := @POS.handleHold examplePlatform exampleEnv app0 pos1 in
  let app3 := fst (App.handleDeleteProduct exampleEnv app2 3) in
  match App.heldSales app3 with
  | held :: _ => POS.handleResume app3 POS.initial held
  | [] => (app3, POS.initial)
  end.

(** Checkout of the resumed sale. *)
Definition orphanAfter : App.State * POS.State * list UiEvent :=
  @POS.handleCheckout examplePlatform laterEnv (fst orphanBefore) (snd orphanBefore).

(** Lower case for the letters A to Z; other characters are left alone. *)
Definition asciiLower (c : ascii) : ascii :=
  let n := nat_of_ascii c in
  if ((65 <=? n) && (n <=? 90))%nat then ascii_of_nat (n + 32) else c.

Fixpoint lowerString (s : string) : string :=
  match s with
  | EmptyString => EmptyString
  | String c s' => String (asciiLower c) (lowerString s')
  end.

Definition exampleCasing : Casing := {| toLowerCase := lowerString |}.

(** A filled inventory form. *)
Definition exampleForm : PartialProduct :=
  PartialProduct.mk None (Some "Calpol") (Some "Paracetamol") (Some "250mg") (Some Syrup)
                    (Some "Pain Relief") (Some 120%Q) (Some 90%Q) (Some 30)
                    (Some "2027-05-31") (Some "MED123456") None (Some "B-77") (Some "GSK")
                    (Some "Bottle") (Some 5) (Some "Rack C") (Some false) (Some false)
                    (Some "").

Definition sara : User := User.mk "u3" "Sara" "sara@epos.pk" pharmacist active.

(** A product that expired at midnight of the day of [exampleEnv]. *)
Definition lapsed : Product := exampleProduct 5 "Disprin" 50%Q 20 "2026-01-01" 5 false false.

(** The sale that the checkout of [cart] by [amna] records under
    [exampleSettings]. *)
Definition exampleSaleOf (env : Env) (cart : list CartItem) : Sale :=
  Sale.mk (random36 env 0) (isoNow env 0) (@POS.total examplePlatform exampleSettings cart)
          Cash (map App.toSaleItem cart) (User.id amna) (User.name amna).

(** Panadol and Brufen are put in the cart and the sale is held; the
    administrator opens the inventory and deletes Brufen, which no sale
    mentions; back at the point of sale the held sale is resumed. *)
Definition mixedBefore : App.State * POS.State :=
  let app0 := exampleApp [panadol; brufen] in
  let pos1 := fst (@POS.addToCart examplePlatform exampleEnv panadol POS.initial) in
  let pos2 := fst (@POS.addToCart examplePlatform exampleEnv brufen pos1) in
  let '(app3, _, _) := @POS.handleHold examplePlatform exampleEnv app0 pos2 in
  let app4 := fst (App.handleDeleteProduct exampleEnv app3 3) in
  match App.heldSales app4 with
  | held :: _ => POS.handleResume app4 POS.initial held
  | [] => (app4, POS.initial)
  end.

(** Checkout of that resumed sale. *)
Definition mixedAfter : App.State * POS.State * list UiEvent :=
  @POS.handleCheckout examplePlatform laterEnv (fst mixedBefore) (snd mixedBefore).

(** A sale of two Brufen is held. *)
Definition heldBrufen : App.State * POS.State :=
  let app0 := exampleApp [panadol; brufen] in
  let pos0 := POS.setCart POS.initial [CartItem.mk brufen 2] in
  let '(app1, pos1, _) := @POS.handleHold examplePlatform exampleEnv app0 pos0 in
  (app1, pos1).

(** Settings whose default reorder level is not the built-in 5. *)
Definition wideSettings : list AppSetting :=
  [ AppSetting.mk 1 "tax_rate" "17" "Sales tax in percent" billing;
    AppSetting.mk 3 "low_stock_limit_default" "10" "Default reorder level" inventory ].

(** A product without a reorder level of its own. *)
Definition zinc : Product := exampleProduct 6 "Zinc" 30%Q 8 "2030-01-01" 0 false false.

(** * Properties *)

Lemma isoDateValue_epoch : isoDateValue "1970-01-01" = Some 0.
Proof. reflexivity. Qed.

Lemma isoDateValue_2026 : isoDateValue "2026-01-01" = Some 1767225600000.
Proof. reflexivity. Qed.

Lemma decimalNumber_17 : decimalNumber "17" = 17%Q.
Proof. reflexivity. Qed.

Section Properties.

Context `{Platform}.

(** ** Lines of a well-formed cart *)

Lemma in_cartIds (cart : list CartItem) (line : CartItem) :
  In line cart -> In (Product.id line) (cartIds cart).
Proof. intros Hin. unfold cartIds. now apply (in_map (fun item : CartItem => Product.id item)). Qed.

Lemma find_line_none (cart : list CartItem) (k : Z) :
  ~ In k (cartIds cart) ->
  find (fun c : CartItem => Product.id c =? k) cart = None.
Proof.
  induction cart as [|c cart IH]; simpl; intros Hk; [reflexivity|].
  destruct (Z.eqb_spec (Product.id c) k) as [Heq|_].
  - exfalso. apply Hk. now left.
  - apply IH. intros Hin. apply Hk. now right.
Qed.

Lemma find_line (cart : list CartItem) (line : CartItem) :
  NoDup (cartIds cart) -> In line cart ->
  find (fun c : CartItem => Product.id c =? Product.id line) cart = Some line.
Proof.
  induction cart as [|c cart IH]; simpl; intros Hnd Hin; [contradiction|].
  inversion Hnd as [|? ? Hc Hnd']; subst.
  destruct Hin as [->|Hin].
  - now rewrite Z.eqb_refl.
  - destruct (Z.eqb_spec (Product.id c) (Product.id line)) as [Heq|_].
    + exfalso. apply Hc. rewrite Heq. now apply in_cartIds.
    + now apply IH.
Qed.

Lemma find_line_in (cart : list CartItem) (k : Z) (line : CartItem) :
  find (fun c : CartItem => Product.id c =? k) cart = Some line ->
  In line cart /\ Product.id line = k.
Proof.
  intros Hf. apply find_some in Hf. destruct Hf as [Hin Hk].
  split; [assumption|]. now apply Z.eqb_eq.
Qed.

(** ** The stock pass of checkout *)

Lemma deductOne_product (cart : list CartItem) (e : bool) (p : Product) :
  snd (App.deductOne cart e p) = snd (App.deductOne cart false p).
Proof.
  unfold App.deductOne.
  destruct (find _ cart) as [c|]; [|reflexivity].
  now destruct (Product.stock p <? CartItem.quantity c).
Qed.

Lemma deductOne_flag (cart : list CartItem) (e : bool) (p : Product) :
  fst (App.deductOne cart e p) = e || fst (App.deductOne cart false p).
Proof.
  unfold App.deductOne.
  destruct (find _ cart) as [c|]; simpl; [|now rewrite orb_false_r].
  destruct (Product.stock p <? CartItem.quantity c); simpl.
  - now rewrite orb_true_r.
  - now rewrite orb_false_r.
Qed.

Lemma deductStock_products (cart : list CartItem) (ps : list Product) (e : bool) :
  snd (App.deductStock cart e ps) = map (fun p => snd (App.deductOne cart false p)) ps.
Proof.
  revert e. induction ps as [|p ps IH]; intros e; simpl; [reflexivity|].
  destruct (App.deductOne cart e p) as [e1 p'] eqn:E1.
  specialize (IH e1).
  destruct (App.deductStock cart e1 ps) as [e2 rest]. simpl in *.
  rewrite <- IH, <- (deductOne_product cart e p), E1. reflexivity.
Qed.

Lemma deductStock_flag (cart : list CartItem) (ps : list Product) (e : bool) :
  fst (App.deductStock cart e ps)
  = e || existsb (fun p => fst (App.deductOne cart false p)) ps.
Proof.
  revert e. induction ps as [|p ps IH]; intros e; simpl; [now rewrite orb_false_r|].
  destruct (App.deductOne cart e p) as [e1 p'] eqn:E1.
  specialize (IH e1).
  destruct (App.deductStock cart e1 ps) as [e2 rest]. simpl in *.
  rewrite IH. replace e1 with (fst (App.deductOne cart e p)) by now rewrite E1.
  rewrite deductOne_flag. now rewrite orb_assoc.
Qed.

Lemma stock_pass_short (products : list Product) (cart : list CartItem) :
  NoDup (cartIds cart) -> shortOfStock products cart ->
  existsb (fun p => fst (App.deductOne cart false p)) products = true.
Proof.
  intros Hnd (line & p & Hl & Hp & Hid & Hlt).
  apply existsb_exists. exists p. split; [assumption|].
  unfold App.deductOne. rewrite Hid, (find_line cart line Hnd Hl).
  apply Z.ltb_lt in Hlt. now rewrite Hlt.
Qed.

Lemma stock_pass_enough (products : list Product) (cart : list CartItem) :
  ~ shortOfStock products cart ->
  existsb (fun p => fst (App.deductOne cart false p)) products = false.
Proof.
  intros Hns.
  destruct (existsb _ products) eqn:E; [|reflexivity].
  exfalso. apply Hns.
  apply existsb_exists in E. destruct E as (p & Hp & Hf).
  unfold App.deductOne in Hf.
  destruct (find _ cart) as [c|] eqn:Ef; [|discriminate].
  apply find_line_in in Ef. destruct Ef as [Hc Hid].
  destruct (Product.stock p <? CartItem.quantity c) eqn:El; [|discriminate].
  exists c, p. repeat split; auto. now apply Z.ltb_lt.
Qed.

Lemma deductOne_line (products : list Product) (cart : list CartItem)
    (p : Product) (line : CartItem) :
  NoDup (cartIds cart) -> ~ shortOfStock products cart ->
  In p products -> In line cart -> Product.id line = Product.id p ->
  snd (App.deductOne cart false p)
  = Product.withStock p (Product.stock p - CartItem.quantity line).
Proof.
  intros Hnd Hns Hp Hl Hid.
  unfold App.deductOne. rewrite <- Hid, (find_line cart line Hnd Hl).
  destruct (Z.ltb_spec (Product.stock p) (CartItem.quantity line)) as [Hlt|_];
    [|reflexivity].
  exfalso. apply Hns. exists line, p. auto.
Qed.

Lemma deductOne_other (cart : list CartItem) (p : Product) :
  ~ In (Product.id p) (cartIds cart) -> snd (App.deductOne cart false p) = p.
Proof.
  intros Hp. unfold App.deductOne. now rewrite (find_line_none cart _ Hp).
Qed.

Lemma handleCheckout_abort (env : Env) (st : App.State) (cart : list CartItem)
    (total : Q) (method : PaymentMethod) (u : User) :
  App.user st = Some u ->
  fst (App.deductStock cart false (App.products st)) = true ->
  App.handleCheckout env st cart total method = (st, [Alert App.stockErrorMessage]).
Proof.
  intros Hu He. unfold App.handleCheckout. rewrite Hu.
  destruct (App.deductStock cart false (App.products st)) as [e ps].
  simpl in He. now rewrite He.
Qed.

Lemma handleCheckout_commit (env : Env) (st : App.State) (cart : list CartItem)
    (total : Q) (method : PaymentMethod) (u : User) :
  App.user st = Some u ->
  fst (App.deductStock cart false (App.products st)) = false ->
  let newSale :=
    Sale.mk (random36 env 0) (isoNow env 0) total method (map App.toSaleItem cart)
            (User.id u) (User.name u) in
  let st' := fst (App.handleCheckout env st cart total method) in
  snd (App.handleCheckout env st cart total method) = []
  /\ App.products st' = map (fun p => snd (App.deductOne cart false p)) (App.products st)
  /\ App.sales st' = newSale :: App.sales st
  /\ App.heldSales st' = App.heldSales st
  /\ App.settings st' = App.settings st
  /\ App.user st' = App.user st.
Proof.
  intros Hu He. destruct st as [us ps urs se sa he au]. simpl in Hu, He. subst us.
  pose proof (deductStock_products cart ps false) as Hps.
  unfold App.handleCheckout. simpl.
  destruct (App.deductStock cart false ps) as [e ps'].
  simpl in He, Hps. subst e ps'. repeat split; reflexivity.
Qed.

(** Checkout is all or nothing on the lines whose product the catalog has.
    For a logged-in user and a cart with one line per product: when some
    line asks for more than the catalog stock of its product,
    [App.handleCheckout] returns the state as it was (no stock changed, no
    sale appended) and raises the stock-insufficiency alert;
    otherwise the stock of every product that has a line is decremented by
    the quantity of that line, every other product is untouched, and exactly
    one sale, the flattened cart, is put on the ledger. *)
Theorem checkout_atomic (env : Env) (st : App.State) (cart : list CartItem)
    (total : Q) (method : PaymentMethod) (u : User) :
  App.user st = Some u ->
  NoDup (cartIds cart) ->
  let st' := fst (App.handleCheckout env st cart total method) in
  let raised := snd (App.handleCheckout env st cart total method) in
  (shortOfStock (App.products st) cart ->
     st' = st /\ raised = [Alert App.stockErrorMessage])
  /\ (~ shortOfStock (App.products st) cart ->
       raised = []
       /\ List.length (App.products st') = List.length (App.products st)
       /\ (forall (i : nat) (p : Product) (line : CartItem),
             nth_error (App.products st) i = Some p ->
             In line cart -> Product.id line = Product.id p ->
             nth_error (App.products st') i
             = Some (Product.withStock p (Product.stock p - CartItem.quantity line)))
       /\ (forall (i : nat) (p : Product),
             nth_error (App.products st) i = Some p ->
             ~ In (Product.id p) (cartIds cart) ->
             nth_error (App.products st') i = Some p)
       /\ exists sale : Sale,
            App.sales st' = sale :: App.sales st
            /\ Sale.items sale = map App.toSaleItem cart
            /\ Sale.totalAmount sale = total
            /\ Sale.paymentMethod sale = method).
Proof.
  intros Hu Hnd st' raised. split.
  - intros Hshort.
    assert (He : fst (App.deductStock cart false (App.products st)) = true).
    { rewrite deductStock_flag. simpl. now apply stock_pass_short. }
    unfold st', raised. rewrite (handleCheckout_abort env st cart total method u Hu He).
    split; reflexivity.
  - intros Hns.
    assert (He : fst (App.deductStock cart false (App.products st)) = false).
    { rewrite deductStock_flag. simpl. now apply stock_pass_enough. }
    destruct (handleCheckout_commit env st cart total method u Hu He)
      as (Hr & Hps & Hs & _).
    fold st' in Hps, Hs. fold raised in Hr.
    split; [assumption|]. split; [now rewrite Hps, length_map|].
    split; [|split].
    + intros i p line Hi Hl Hid. rewrite Hps.
      rewrite nth_error_map, Hi. simpl. f_equal.
      apply (deductOne_line (App.products st)); auto.
      now apply nth_error_In with i.
    + intros i p Hi Hout. rewrite Hps.
      rewrite nth_error_map, Hi. simpl. f_equal.
      now apply deductOne_other.
    + eexists. split; [exact Hs|]. repeat split; reflexivity.
Qed.

(** ** Checkout from the point of sale *)

Lemma pos_handleCheckout_eq (env : Env) (app : App.State) (pos : POS.State) :
  POS.cart pos <> [] ->
  POS.handleCheckout env app pos
  = (let total := POS.total (App.settings app) (POS.cart pos) in
     let r := App.handleCheckout env app (POS.cart pos) total (POS.paymentMethod pos) in
     (fst r, POS.mkState [] Cash false (POS.showHeldModal pos),
      snd r ++ [Alert (POS.successMessage total)])).
Proof.
  intros Hne. unfold POS.handleCheckout.
  destruct (POS.cart pos) as [|c cart] eqn:Ec; [contradiction|].
  simpl. rewrite Ec.
  now destruct (App.handleCheckout env app (c :: cart) _ _).
Qed.

(** C10. Checkout looks at stock only. For a logged-in user and a non-empty
    cart with one line per product whose lines are all covered by the catalog
    stock, [POS.handleCheckout] opens no dialog but the success notice (no
    block, no confirmation) and puts one sale on the ledger; every line that
    is expired at the time of checkout, needs a prescription or is a narcotic
    has an item in that sale with its product id, name, quantity, price and
    narcotic flag, and the catalog product with its id keeps its place and
    its id and has its stock lowered by the quantity of the line. *)
Theorem checkout_ignores_gating (env : Env) (app : App.State) (pos : POS.State) (u : User) :
  App.user app = Some u ->
  POS.cart pos <> [] ->
  NoDup (cartIds (POS.cart pos)) ->
  ~ shortOfStock (App.products app) (POS.cart pos) ->
  let '(app', _, raised) := POS.handleCheckout env app pos in
  raised = [Alert (POS.successMessage (POS.total (App.settings app) (POS.cart pos)))]
  /\ exists sale : Sale,
       App.sales app' = sale :: App.sales app
       /\ forall line : CartItem,
            In line (POS.cart pos) ->
            expiredAt (now env) line = true
            \/ Product.requiresPrescription line = true
            \/ Product.isNarcotic line = true ->
            (exists item : SaleItem,
               In item (Sale.items sale)
               /\ SaleItem.productId item = Product.id line
               /\ SaleItem.productName item = Product.name line
               /\ SaleItem.quantity item = CartItem.quantity line
               /\ SaleItem.price item = Product.price line
               /\ SaleItem.isNarcotic item = Product.isNarcotic line)
            /\ forall (i : nat) (p : Product),
                 nth_error (App.products app) i = Some p ->
                 Product.id p = Product.id line ->
                 exists p' : Product,
                   nth_error (App.products app') i = Some p'
                   /\ Product.stock p' = Product.stock p - CartItem.quantity line
                   /\ Product.id p' = Product.id p
                   /\ Product.name p' = Product.name p
                   /\ Product.price p' = Product.price p.
Proof.
  intros Hu Hne Hnd Hns.
  rewrite (pos_handleCheckout_eq env app pos Hne). cbv zeta.
  assert (He : fst (App.deductStock (POS.cart pos) false (App.products app)) = false).
  { rewrite deductStock_flag. simpl. now apply stock_pass_enough. }
  destruct (handleCheckout_commit env app (POS.cart pos)
              (POS.total (App.settings app) (POS.cart pos)) (POS.paymentMethod pos) u Hu He)
    as (Hr & Hps & Hs & _).
  rewrite Hr. split; [reflexivity|].
  eexists. split; [exact Hs|].
  intros line Hl _. split.
  - exists (App.toSaleItem line). split; [simpl; now apply in_map|].
    repeat split; reflexivity.
  - intros i p Hi Hid. eexists. split.
    + rewrite Hps, nth_error_map, Hi. simpl. reflexivity.
    + assert (Hp : In p (App.products app)) by now apply nth_error_In with i.
      rewrite (deductOne_line (App.products app) (POS.cart pos) p line Hnd Hns Hp Hl
                 (eq_sym Hid)).
      repeat split; reflexivity.
Qed.

(** ** Adding to the cart *)

Lemma cartIds_app (a b : list CartItem) : cartIds (a ++ b) = cartIds a ++ cartIds b.
Proof. unfold cartIds. apply map_app. Qed.

Lemma not_in_cartIds (cart : list CartItem) (k : Z) (x : CartItem) :
  ~ In k (cartIds cart) -> In x cart -> Product.id x <> k.
Proof. intros Hk Hx Heq. apply Hk. rewrite <- Heq. now apply in_cartIds. Qed.

Lemma find_line_split (pre post : list CartItem) (e : CartItem) (k : Z) :
  Product.id e = k -> ~ In k (cartIds pre) ->
  find (fun c : CartItem => Product.id c =? k) (pre ++ e :: post) = Some e.
Proof.
  intros He Hpre. induction pre as [|c pre IH]; simpl.
  - rewrite He. now rewrite Z.eqb_refl.
  - destruct (Z.eqb_spec (Product.id c) k) as [Heq|_].
    + exfalso. apply Hpre. now left.
    + apply IH. intros Hin. apply Hpre. now right.
Qed.

Lemma map_other_lines (f : CartItem -> CartItem) (k : Z) (l : list CartItem) :
  ~ In k (cartIds l) ->
  map (fun item : CartItem => if Product.id item =? k then f item else item) l = l.
Proof.
  intros Hk. induction l as [|c l IH]; simpl; [reflexivity|].
  destruct (Z.eqb_spec (Product.id c) k) as [Heq|_].
  - exfalso. apply Hk. now left.
  - f_equal. apply IH. intros Hin. apply Hk. now right.
Qed.

Lemma addLine_new (product : Product) (cart : list CartItem) :
  ~ In (Product.id product) (cartIds cart) ->
  POS.addLine product cart
  = if 1 >? Product.stock product then (cart, [Alert "Insufficient stock!"])
    else (cart ++ [CartItem.mk product 1], []).
Proof.
  intros Hk. unfold POS.addLine. now rewrite (find_line_none cart _ Hk).
Qed.

Lemma addLine_existing (product : Product) (pre post : list CartItem) (e : CartItem) :
  Product.id e = Product.id product ->
  ~ In (Product.id product) (cartIds (pre ++ post)) ->
  POS.addLine product (pre ++ e :: post)
  = if CartItem.quantity e + 1 >? Product.stock product
    then (pre ++ e :: post, [Alert "Insufficient stock!"])
    else (pre ++ CartItem.withQuantity e (CartItem.quantity e + 1) :: post, []).
Proof.
  intros He Hk. rewrite cartIds_app in Hk.
  assert (Hpre : ~ In (Product.id product) (cartIds pre)).
  { intros Hin. apply Hk, in_or_app. now left. }
  assert (Hpost : ~ In (Product.id product) (cartIds post)).
  { intros Hin. apply Hk, in_or_app. now right. }
  unfold POS.addLine. rewrite (find_line_split pre post e _ He Hpre).
  destruct (CartItem.quantity e + 1 >? Product.stock product); [reflexivity|].
  rewrite map_app. simpl. rewrite He, Z.eqb_refl.
  now rewrite (map_other_lines _ _ pre Hpre), (map_other_lines _ _ post Hpost).
Qed.

Lemma setCart_same (pos : POS.State) : POS.setCart pos (POS.cart pos) = pos.
Proof. now destruct pos. Qed.

Lemma addToCart_expired (env : Env) (product : Product) (pos : POS.State) :
  expiredAt (now env) product = true ->
  POS.addToCart env product pos = (pos, [Alert POS.expiredMessage]).
Proof. intros He. unfold POS.addToCart. now rewrite He. Qed.

Lemma addToCart_declined (env : Env) (product : Product) (pos : POS.State) :
  Product.requiresPrescription product = true -> confirmAnswer env = false ->
  fst (POS.addToCart env product pos) = pos.
Proof.
  intros Hrx Hno. unfold POS.addToCart.
  destruct (expiredAt (now env) product); [reflexivity|].
  now rewrite Hrx, Hno.
Qed.

Lemma addToCart_passed (env : Env) (product : Product) (pos : POS.State) :
  expiredAt (now env) product = false ->
  Product.requiresPrescription product = false \/ confirmAnswer env = true ->
  fst (POS.addToCart env product pos)
  = POS.setCart pos (fst (POS.addLine product (POS.cart pos))).
Proof.
  intros He Hok. unfold POS.addToCart. rewrite He.
  assert (Hgo : Product.requiresPrescription product && negb (confirmAnswer env) = false).
  { destruct Hok as [-> | ->]; [reflexivity|apply andb_false_r]. }
  rewrite Hgo. now destruct (POS.addLine product (POS.cart pos)).
Qed.

Lemma addToCart_unchanged (env : Env) (product : Product) (pos : POS.State) :
  fst (POS.addLine product (POS.cart pos)) = POS.cart pos ->
  fst (POS.addToCart env product pos) = pos.
Proof.
  intros Hsame. unfold POS.addToCart.
  destruct (expiredAt (now env) product); [reflexivity|].
  destruct (Product.requiresPrescription product && negb (confirmAnswer env));
    [reflexivity|].
  destruct (POS.addLine product (POS.cart pos)) as [newCart alerts].
  simpl in *. subst newCart. apply setCart_same.
Qed.

(** C4, as the code has it. [addToCart] leaves the cart as it was when the
    product is expired (with the blocking alert), when it needs a
    prescription and the confirmation is declined, and when one more unit
    would exceed the stock of the product. When none of these holds it
    appends a line of quantity 1 for a product that has no line, and puts
    in the place of the line of a product that has one a line with the same
    product fields and the quantity plus 1, the other lines as they were.
    For a product
    with stock 1 and an empty cart, a first add that passes the gates gives
    quantity 1 and any second add leaves quantity 1. *)
Theorem addToCart_spec (env : Env) (product : Product) (pos : POS.State) :
  let pos' := fst (POS.addToCart env product pos) in
  let passes :=
    expiredAt (now env) product = false
    /\ (Product.requiresPrescription product = false \/ confirmAnswer env = true) in
  (expiredAt (now env) product = true ->
     pos' = pos /\ snd (POS.addToCart env product pos) = [Alert POS.expiredMessage])
  /\ (Product.requiresPrescription product = true -> confirmAnswer env = false ->
       pos' = pos)
  /\ (~ In (Product.id product) (cartIds (POS.cart pos)) ->
       1 > Product.stock product -> pos' = pos)
  /\ (forall (pre post : list CartItem) (e : CartItem),
        POS.cart pos = pre ++ e :: post ->
        Product.id e = Product.id product ->
        ~ In (Product.id product) (cartIds (pre ++ post)) ->
        CartItem.quantity e + 1 > Product.stock product -> pos' = pos)
  /\ (passes -> ~ In (Product.id product) (cartIds (POS.cart pos)) ->
       1 <= Product.stock product ->
       POS.cart pos' = POS.cart pos ++ [CartItem.mk product 1])
  /\ (passes ->
       forall (pre post : list CartItem) (e : CartItem),
         POS.cart pos = pre ++ e :: post ->
         Product.id e = Product.id product ->
         ~ In (Product.id product) (cartIds (pre ++ post)) ->
         CartItem.quantity e + 1 <= Product.stock product ->
         POS.cart pos'
         = pre ++ CartItem.mk (CartItem.product e) (CartItem.quantity e + 1) :: post)
  /\ (passes -> POS.cart pos = [] -> Product.stock product = 1 ->
       POS.cart pos' = [CartItem.mk product 1]
       /\ forall env2 : Env,
            POS.cart (fst (POS.addToCart env2 product pos')) = [CartItem.mk product 1]).
Proof.
  intros pos' passes. unfold pos', passes. clear pos' passes.
  split; [|split; [|split; [|split; [|split; [|split]]]]].
  - intros He. now rewrite (addToCart_expired env product pos He).
  - intros Hrx Hno. now apply addToCart_declined.
  - intros Hnew Hst. apply addToCart_unchanged.
    rewrite (addLine_new product _ Hnew).
    destruct (Z.gtb_spec 1 (Product.stock product)); [reflexivity|lia].
  - intros pre post e Hc He Hk Hst. apply addToCart_unchanged.
    rewrite Hc, (addLine_existing product pre post e He Hk).
    destruct (Z.gtb_spec (CartItem.quantity e + 1) (Product.stock product));
      [reflexivity|lia].
  - intros [Hne Hok] Hnew Hst.
    rewrite (addToCart_passed env product pos Hne Hok), (addLine_new product _ Hnew).
    destruct (Z.gtb_spec 1 (Product.stock product)); [lia|reflexivity].
  - intros [Hne Hok] pre post e Hc He Hk Hst.
    rewrite (addToCart_passed env product pos Hne Hok).
    rewrite Hc, (addLine_existing product pre post e He Hk).
    destruct (Z.gtb_spec (CartItem.quantity e + 1) (Product.stock product));
      [lia|reflexivity].
  - intros [Hne Hok] Hc Hst.
    assert (H1 : POS.cart (fst (POS.addToCart env product pos)) = [CartItem.mk product 1]).
    { rewrite (addToCart_passed env product pos Hne Hok), Hc.
      rewrite (addLine_new product []); [|simpl; tauto].
      rewrite Hst. reflexivity. }
    split; [exact H1|].
    intros env2.
    transitivity (POS.cart (fst (POS.addToCart env product pos))); [|exact H1].
    f_equal.
    apply addToCart_unchanged. rewrite H1.
    pose proof (addLine_existing product [] [] (CartItem.mk product 1) eq_refl) as Hadd.
    simpl in Hadd. rewrite Hadd; [|tauto].
    rewrite Hst. reflexivity.
Qed.

(** ** Adjusting a quantity *)

Lemma adjust_other_lines (products : list Product) (id delta : Z) (l : list CartItem) :
  ~ In id (cartIds l) ->
  map (POS.adjustLine products id delta) l = map (fun item => (item, [])) l.
Proof.
  intros Hk. apply map_ext_in. intros x Hx.
  unfold POS.adjustLine.
  destruct (Z.eqb_spec (Product.id x) id) as [Heq|_]; [|reflexivity].
  exfalso. now apply (not_in_cartIds l id x Hk Hx).
Qed.

Lemma fst_plain_lines (l : list CartItem) :
  map fst (map (fun item : CartItem => (item, @nil UiEvent)) l) = l.
Proof. rewrite map_map. simpl. apply map_id. Qed.

Lemma snd_plain_lines (l : list CartItem) :
  List.concat (map snd (map (fun item : CartItem => (item, @nil UiEvent)) l)) = [].
Proof. induction l as [|c l IH]; simpl; auto. Qed.

Lemma filter_positive (l : list CartItem) :
  Forall (fun item => 0 < CartItem.quantity item) l ->
  filter (fun item => CartItem.quantity item >? 0) l = l.
Proof.
  induction 1 as [|c l Hc _ IH]; simpl; [reflexivity|].
  destruct (Z.gtb_spec (CartItem.quantity c) 0); [now rewrite IH|lia].
Qed.

Lemma updateQuantity_split (products : list Product) (id delta : Z) (pos : POS.State)
    (pre post : list CartItem) (line : CartItem) :
  POS.cart pos = pre ++ line :: post ->
  ~ In id (cartIds (pre ++ post)) ->
  Forall (fun item => 0 < CartItem.quantity item) (pre ++ post) ->
  POS.updateQuantity products id delta pos
  = (POS.setCart pos
       (pre ++ filter (fun item => CartItem.quantity item >? 0)
                      [fst (POS.adjustLine products id delta line)] ++ post),
     snd (POS.adjustLine products id delta line)).
Proof.
  intros Hc Hk Hpos. rewrite cartIds_app in Hk.
  assert (Hpre : ~ In id (cartIds pre)) by (intros Hin; apply Hk, in_or_app; now left).
  assert (Hpost : ~ In id (cartIds post)) by (intros Hin; apply Hk, in_or_app; now right).
  apply Forall_app in Hpos. destruct Hpos as [Ppre Ppost].
  unfold POS.updateQuantity. rewrite Hc, map_app. simpl.
  rewrite (adjust_other_lines products id delta pre Hpre).
  rewrite (adjust_other_lines products id delta post Hpost).
  rewrite !map_app. simpl. rewrite !fst_plain_lines.
  rewrite concat_app. simpl. rewrite !snd_plain_lines. simpl.
  rewrite filter_app. simpl.
  rewrite (filter_positive pre Ppre), (filter_positive post Ppost).
  rewrite app_nil_r.
  destruct (CartItem.quantity (fst (POS.adjustLine products id delta line)) >? 0);
    reflexivity.
Qed.

(** C8. [updateQuantity] on the line of a product, in a cart with one line
    per product and positive quantities. When the catalog has the product and
    the new quantity would exceed its stock, the state is left as it was and
    the notice is raised. Otherwise no notice is raised, the other lines keep
    their place, and the line takes the new quantity clamped at 0, or leaves
    the cart when that is 0. *)
Theorem updateQuantity_spec (products : list Product) (id delta : Z) (pos : POS.State)
    (pre post : list CartItem) (line : CartItem) :
  POS.cart pos = pre ++ line :: post ->
  Product.id line = id ->
  ~ In id (cartIds (pre ++ post)) ->
  Forall (fun item => 0 < CartItem.quantity item) (POS.cart pos) ->
  let pos' := fst (POS.updateQuantity products id delta pos) in
  let raised := snd (POS.updateQuantity products id delta pos) in
  let newQuantity := Z.max 0 (CartItem.quantity line + delta) in
  (forall product : Product,
     find (fun p => Product.id p =? id) products = Some product ->
     CartItem.quantity line + delta > Product.stock product ->
     pos' = pos /\ raised = [Alert "Cannot exceed available stock."])
  /\ ((forall product : Product,
         find (fun p => Product.id p =? id) products = Some product ->
         CartItem.quantity line + delta <= Product.stock product) ->
       raised = []
       /\ POS.cart pos'
          = pre ++ (if newQuantity =? 0 then []
                    else [CartItem.withQuantity line newQuantity]) ++ post).
Proof.
  intros Hc Hid Hk Hpos pos' raised newQuantity.
  unfold pos', raised, newQuantity. clear pos' raised newQuantity.
  assert (Hrest : Forall (fun item => 0 < CartItem.quantity item) (pre ++ post)).
  { rewrite Hc in Hpos. apply Forall_app in Hpos. destruct Hpos as [Ppre Ppost].
    apply Forall_app. split; [assumption|]. now inversion Ppost. }
  assert (Hline : 0 < CartItem.quantity line).
  { rewrite Hc in Hpos. apply Forall_app in Hpos. destruct Hpos as [_ Ppost].
    now inversion Ppost. }
  rewrite (updateQuantity_split products id delta pos pre post line Hc Hk Hrest).
  unfold POS.adjustLine. rewrite Hid, Z.eqb_refl. simpl fst. simpl snd. split.
  - intros product Hf Hex. rewrite Hf.
    destruct (Z.gtb_spec (CartItem.quantity line + delta) (Product.stock product));
      [|lia].
    simpl. destruct (Z.gtb_spec (CartItem.quantity line) 0); [|lia].
    simpl. rewrite <- Hc. split; [apply setCart_same|reflexivity].
  - intros Hfit.
    assert (Hno : match find (fun p => Product.id p =? id) products with
                  | Some product => CartItem.quantity line + delta >? Product.stock product
                  | None => false
                  end = false).
    { destruct (find _ products) as [product|] eqn:Hf; [|reflexivity].
      specialize (Hfit product eq_refl).
      destruct (Z.gtb_spec (CartItem.quantity line + delta) (Product.stock product));
        [lia|reflexivity]. }
    rewrite Hno. simpl. split; [reflexivity|]. f_equal.
    destruct (Z.gtb_spec (Z.max 0 (CartItem.quantity line + delta)) 0) as [Hgt|Hle];
      destruct (Z.eqb_spec (Z.max 0 (CartItem.quantity line + delta)) 0) as [Hz|Hnz];
      try reflexivity; lia.
Qed.

(** ** Totals *)

Lemma settingNumber_absent (settings : list AppSetting) (k : string) (dflt : Q) :
  (forall s, In s settings -> AppSetting.key s <> k) ->
  settingNumber settings k dflt = dflt.
Proof.
  intros Hno. unfold settingNumber.
  destruct (find _ settings) as [s|] eqn:Hf; [|reflexivity].
  apply find_some in Hf. destruct Hf as [Hin Hk].
  apply String.eqb_eq in Hk. now destruct (Hno s Hin).
Qed.

Lemma settingNumber_first (pre post : list AppSetting) (s : AppSetting) (k : string) (dflt : Q) :
  (forall x, In x pre -> AppSetting.key x <> k) ->
  AppSetting.key s = k ->
  settingNumber (pre ++ s :: post) k dflt
  = if (AppSetting.value s =? "")%string then dflt else Number (AppSetting.value s).
Proof.
  intros Hpre Hk. unfold settingNumber.
  induction pre as [|x pre IH]; simpl.
  - rewrite Hk, String.eqb_refl. reflexivity.
  - destruct (String.eqb_spec (AppSetting.key x) k) as [Heq|_].
    + exfalso. apply (Hpre x); [now left|assumption].
    + apply IH. intros y Hy. apply Hpre. now right.
Qed.

Lemma fold_left_amounts (g : CartItem -> Q) (l : list CartItem) (a : Q) :
  (fold_left (fun (sum : Q) (item : CartItem) => sum + g item) l a
   == a + fold_right Qplus 0 (map g l))%Q.
Proof.
  revert a. induction l as [|c l IH]; intros a; simpl.
  - ring.
  - rewrite IH. ring.
Qed.

(** C5. The subtotal is the sum of price times quantity over the lines, the
    tax is the subtotal times the tax rate over 100, the total is their sum;
    the tax rate is the number read from the first setting with key
    [tax_rate], and 0 when there is none or its value is empty. One line of
    price 100 and quantity 2 at a tax rate of 17 gives 200, 34 and 234. *)
Theorem cart_totals (settings : list AppSetting) (cart : list CartItem) :
  (POS.subtotal cart
   == fold_right Qplus 0
        (map (fun item : CartItem =>
                Product.price item * inject_Z (CartItem.quantity item)) cart))%Q
  /\ (POS.taxAmount settings cart == POS.subtotal cart * POS.taxRate settings / 100)%Q
  /\ (POS.total settings cart == POS.subtotal cart + POS.taxAmount settings cart)%Q
  /\ ((forall s, In s settings -> AppSetting.key s <> "tax_rate") ->
       POS.taxRate settings = 0%Q)
  /\ (forall (pre post : list AppSetting) (s : AppSetting),
        settings = pre ++ s :: post ->
        (forall x, In x pre -> AppSetting.key x <> "tax_rate") ->
        AppSetting.key s = "tax_rate" ->
        (AppSetting.value s = "" -> POS.taxRate settings = 0%Q)
        /\ (AppSetting.value s <> "" -> POS.taxRate settings = Number (AppSetting.value s)))
  /\ (forall line : CartItem,
        cart = [line] ->
        (Product.price line == 100)%Q -> CartItem.quantity line = 2 ->
        (POS.taxRate settings == 17)%Q ->
        (POS.subtotal cart == 200)%Q
        /\ (POS.taxAmount settings cart == 34)%Q
        /\ (POS.total settings cart == 234)%Q).
Proof.
  split; [|split; [|split; [|split; [|split]]]].
  - unfold POS.subtotal.
    rewrite (fold_left_amounts
               (fun item => Product.price item * inject_Z (CartItem.quantity item))%Q).
    ring.
  - unfold POS.taxAmount. reflexivity.
  - unfold POS.total. reflexivity.
  - intros Hno. unfold POS.taxRate. now apply settingNumber_absent.
  - intros pre post s Hs Hpre Hk. unfold POS.taxRate.
    rewrite Hs, (settingNumber_first pre post s "tax_rate" 0%Q Hpre Hk).
    split.
    + intros Hv. now rewrite Hv.
    + intros Hv. destruct (String.eqb_spec (AppSetting.value s) ""); [contradiction|reflexivity].
  - intros line Hc Hp Hq Ht.
    assert (Hsub : (POS.subtotal cart == 200)%Q).
    { rewrite Hc. unfold POS.subtotal. simpl. rewrite Hp, Hq. reflexivity. }
    assert (Htax : (POS.taxAmount settings cart == 34)%Q).
    { unfold POS.taxAmount. rewrite Hsub, Ht. reflexivity. }
    split; [exact Hsub|]. split; [exact Htax|].
    unfold POS.total. rewrite Hsub, Htax. reflexivity.
Qed.

(** ** Low stock *)

Lemma orNumber_set (a : Z) (b : Q) : a <> 0 -> orNumber a b = inject_Z a.
Proof. intros Ha. unfold orNumber. now destruct (Z.eqb_spec a 0). Qed.

Lemma orNumber_unset (b : Q) : orNumber 0 b = b.
Proof. reflexivity. Qed.

(** C9. A product with a reorder level other than 0 is low on stock exactly
    when its stock is at most that level; with a reorder level of 0 exactly
    when its stock is at most the default threshold of the settings. That
    threshold is 5 when the settings have no [low_stock_limit_default]; when
    they have one, it is 5 for an empty stored value and otherwise the number
    read from the value stored in the first such setting, so that a product
    with reorder level 0 is low exactly when its stock is at most that
    number. Reorder level 3 with stock 3 is low, with stock 4 it is not. The
    inventory filter and the dashboard count use the same predicate. *)
Theorem low_stock_predicate (settings : list AppSetting) (p : Product) :
  (Product.reorderLevel p <> 0 ->
     (Inventory.matchesLowStock settings p = true
      <-> Product.stock p <= Product.reorderLevel p))
  /\ (Product.reorderLevel p = 0 ->
       (Inventory.matchesLowStock settings p = true
        <-> (inject_Z (Product.stock p) <= Inventory.lowStockLimit settings)%Q))
  /\ (Product.reorderLevel p = 3 -> Product.stock p = 3 ->
       Inventory.matchesLowStock settings p = true)
  /\ (Product.reorderLevel p = 3 -> Product.stock p = 4 ->
       Inventory.matchesLowStock settings p = false)
  /\ ((forall s, In s settings -> AppSetting.key s <> "low_stock_limit_default") ->
       Inventory.lowStockLimit settings = 5%Q)
  /\ (forall (pre post : list AppSetting) (s : AppSetting),
        settings = pre ++ s :: post ->
        (forall x, In x pre -> AppSetting.key x <> "low_stock_limit_default") ->
        AppSetting.key s = "low_stock_limit_default" ->
        (AppSetting.value s = "" -> Inventory.lowStockLimit settings = 5%Q)
        /\ (AppSetting.value s <> "" ->
             Inventory.lowStockLimit settings = Number (AppSetting.value s)
             /\ (Product.reorderLevel p = 0 ->
                  (Inventory.matchesLowStock settings p = true
                   <-> (inject_Z (Product.stock p) <= Number (AppSetting.value s))%Q))))
  /\ (forall products : list Product,
        Dashboard.lowStockCount settings products
        = List.length (filter (Inventory.matchesLowStock settings) products)).
Proof.
  unfold Inventory.matchesLowStock.
  split; [|split; [|split; [|split; [|split; [|split]]]]].
  - intros Hset. rewrite (orNumber_set _ _ Hset), Qle_bool_iff.
    rewrite Zle_Qle. reflexivity.
  - intros Hunset. rewrite Hunset, orNumber_unset. apply Qle_bool_iff.
  - intros Hr Hs. now rewrite Hr, Hs.
  - intros Hr Hs. now rewrite Hr, Hs.
  - intros Hno. unfold Inventory.lowStockLimit. now apply settingNumber_absent.
  - intros pre post s Hsplit Hpre Hk. unfold Inventory.lowStockLimit.
    rewrite Hsplit, (settingNumber_first pre post s _ 5%Q Hpre Hk).
    destruct (String.eqb_spec (AppSetting.value s) "") as [Hempty|Hvalue].
    + split; [reflexivity|]. intros Hv. now destruct Hv.
    + split; [intros Hv; now destruct Hvalue|]. intros _.
      split; [reflexivity|].
      intros Hunset. rewrite Hunset, orNumber_unset. apply Qle_bool_iff.
  - intros products. reflexivity.
Qed.

(** ** Hold and resume *)

Lemma setHeldSales_same (st : App.State) : App.setHeldSales st (App.heldSales st) = st.
Proof. now destruct st. Qed.

Lemma filter_keeps_all {A : Type} (f : A -> bool) (l : list A) :
  (forall x, In x l -> f x = true) -> filter f l = l.
Proof.
  induction l as [|a l IH]; simpl; intros Hall; [reflexivity|].
  rewrite (Hall a (or_introl eq_refl)). f_equal. apply IH. intros x Hx. apply Hall. now right.
Qed.

Lemma filter_length_lt {A : Type} (f : A -> bool) (l : list A) (x : A) :
  In x l -> f x = false -> (List.length (filter f l) < List.length l)%nat.
Proof.
  intros Hin Hx. induction l as [|y l IH]; [destruct Hin|].
  simpl. destruct Hin as [->|Hin].
  - rewrite Hx. pose proof (filter_length_le f l). lia.
  - specialize (IH Hin). destruct (f y); simpl; lia.
Qed.

Lemma filter_twice {A : Type} (f : A -> bool) (l : list A) :
  filter f (filter f l) = filter f l.
Proof.
  apply filter_keeps_all. intros x Hx. apply filter_In in Hx. tauto.
Qed.

Lemma other_id (h : HeldSale) (id : string) :
  negb (HeldSale.id h =? id)%string = true <-> HeldSale.id h <> id.
Proof.
  rewrite negb_true_iff. destruct (String.eqb_spec (HeldSale.id h) id); split; congruence.
Qed.

Lemma handleResumeSale_registry (st : App.State) (id : string) :
  (forall h, In h (App.heldSales (App.handleResumeSale st id)) <->
             In h (App.heldSales st) /\ HeldSale.id h <> id).
Proof.
  intros h. unfold App.handleResumeSale. simpl. rewrite filter_In, other_id. tauto.
Qed.

Lemma handleResumeSale_unknown (st : App.State) (id : string) :
  (forall h, In h (App.heldSales st) -> HeldSale.id h <> id) ->
  App.handleResumeSale st id = st.
Proof.
  intros Hno. unfold App.handleResumeSale.
  rewrite filter_keeps_all; [apply setHeldSales_same|].
  intros h Hh. apply other_id. now apply Hno.
Qed.

(** C6. [handleHold] does nothing on an empty cart. On a non-empty cart,
    with a user logged in, it puts at the head of the registry an entry with
    the generated id and timestamp, the default note, the lines of the cart
    and its total, and empties the cart; resuming that entry gives back the
    same lines, hence the same quantities and the same computed total, and
    leaves no entry with that id in the registry: the registry is what it
    was before the hold, less the entries that had the same id. *)
Theorem hold_resume_roundtrip (env : Env) (app : App.State) (pos : POS.State) (u : User) :
  App.user app = Some u ->
  (POS.cart pos = [] -> POS.handleHold env app pos = (app, pos, []))
  /\ (POS.cart pos <> [] ->
       let '(app1, pos1, _) := POS.handleHold env app pos in
       exists held : HeldSale,
         App.heldSales app1 = held :: App.heldSales app
         /\ HeldSale.items held = POS.cart pos
         /\ HeldSale.id held = random36 env 0
         /\ HeldSale.date held = isoNow env 0
         /\ HeldSale.referenceNote held = Some ("Held at " ++ localeTime env)%string
         /\ HeldSale.total held = POS.total (App.settings app) (POS.cart pos)
         /\ POS.cart pos1 = []
         /\ let '(app2, pos2) := POS.handleResume app1 pos1 held in
            POS.cart pos2 = POS.cart pos
            /\ POS.total (App.settings app2) (POS.cart pos2)
               = POS.total (App.settings app) (POS.cart pos)
            /\ (forall h, In h (App.heldSales app2) -> HeldSale.id h <> HeldSale.id held)
            /\ App.heldSales app2
               = filter (fun h => negb (HeldSale.id h =? HeldSale.id held)%string)
                        (App.heldSales app)
            /\ ((forall h, In h (App.heldSales app) -> HeldSale.id h <> HeldSale.id held) ->
                 app2 = app)).
Proof.
  intros Hu. split.
  - intros Hc. unfold POS.handleHold. now rewrite Hc.
  - intros Hne. unfold POS.handleHold.
    destruct (POS.cart pos) as [|c cart] eqn:Hc; [contradiction|].
    unfold App.handleHoldSale. rewrite Hu.
    eexists. split; [reflexivity|]. simpl.
    repeat (split; [reflexivity|]).
    rewrite String.eqb_refl. simpl. split; [|split].
    + intros h Hh. apply filter_In in Hh. now apply other_id.
    + reflexivity.
    + intros Hfresh. unfold App.handleResumeSale. simpl.
      rewrite String.eqb_refl. simpl.
      rewrite filter_keeps_all.
      * destruct app. simpl in *. reflexivity.
      * intros h Hh. apply other_id. now apply Hfresh.
Qed.

(** C7. Resuming is at most once, and an unknown id changes nothing. For
    every id that no held sale of the registry has, [handleResumeSale] leaves
    the application state as it was: nothing is raised and nothing is
    removed. Resuming an entry of the registry replaces the cart by the lines
    of the entry and removes the entries with its id and no other, so the
    registry is shorter, the entry is no longer in it to be resumed again,
    and [handleResumeSale] with the same id a second time changes nothing. *)
Theorem resume_at_most_once (app : App.State) (pos : POS.State) :
  (forall id : string,
     (forall h, In h (App.heldSales app) -> HeldSale.id h <> id) ->
     App.handleResumeSale app id = app)
  /\ (forall held : HeldSale,
        In held (App.heldSales app) ->
        let '(app', pos') := POS.handleResume app pos held in
        POS.cart pos' = HeldSale.items held
        /\ (forall h, In h (App.heldSales app') <->
                      In h (App.heldSales app) /\ HeldSale.id h <> HeldSale.id held)
        /\ ~ In held (App.heldSales app')
        /\ (List.length (App.heldSales app') < List.length (App.heldSales app))%nat
        /\ App.handleResumeSale app' (HeldSale.id held) = app'
        /\ App.products app' = App.products app
        /\ App.sales app' = App.sales app).
Proof.
  split; [intros id; apply handleResumeSale_unknown|].
  intros held Hin. unfold POS.handleResume. cbv zeta.
  cbn [POS.cart POS.setCart POS.setShowHeldModal].
  pose proof (handleResumeSale_registry app (HeldSale.id held)) as Hreg.
  split; [reflexivity|]. split; [exact Hreg|].
  split; [|split; [|split; [|split; reflexivity]]].
  - intros Hstill. apply Hreg in Hstill. now destruct Hstill as [_ Hid].
  - unfold App.handleResumeSale. simpl.
    apply filter_length_lt with held; [exact Hin|].
    now rewrite String.eqb_refl.
  - apply handleResumeSale_unknown. intros h Hh. now apply Hreg in Hh.
Qed.


(** ** The carts of the point of sale are well formed *)

Lemma find_line_absent (cart : list CartItem) (k : Z) :
  find (fun c : CartItem => Product.id c =? k) cart = None -> ~ In k (cartIds cart).
Proof.
  intros Hf Hin. unfold cartIds in Hin. apply in_map_iff in Hin.
  destruct Hin as (x & Hx & Hin).
  apply (find_none _ _ Hf) in Hin. rewrite Hx, Z.eqb_refl in Hin. discriminate.
Qed.

Lemma cartIds_filter (g : CartItem -> bool) (l : list CartItem) :
  NoDup (cartIds l) -> NoDup (cartIds (filter g l)).
Proof.
  induction l as [|c l IH]; simpl; intros Hnd; [constructor|].
  inversion Hnd as [|? ? Hc Hnd']; subst.
  destruct (g c); simpl; [|now apply IH].
  constructor; [|now apply IH].
  intros Hin. apply Hc. unfold cartIds in *. apply in_map_iff in Hin.
  destruct Hin as (x & Hx & Hin). apply filter_In in Hin.
  apply in_map_iff. exists x. tauto.
Qed.

Lemma wellFormed_filter (g : CartItem -> bool) (l : list CartItem) :
  wellFormedCart l -> wellFormedCart (filter g l).
Proof.
  intros [Hnd Hpos]. split; [now apply cartIds_filter|].
  apply Forall_forall. intros x Hx. apply filter_In in Hx.
  rewrite Forall_forall in Hpos. now apply Hpos.
Qed.

Lemma addLine_wellFormed (product : Product) (cart : list CartItem) :
  wellFormedCart cart -> wellFormedCart (fst (POS.addLine product cart)).
Proof.
  intros [Hnd Hpos]. unfold POS.addLine.
  destruct (find _ cart) as [e|] eqn:Hf.
  - destruct (CartItem.quantity e + 1 >? Product.stock product); simpl; [now split|].
    split.
    + unfold cartIds. rewrite map_map.
      erewrite map_ext; [exact Hnd|].
      intros x. simpl. now destruct (Product.id x =? Product.id product).
    + apply Forall_forall. intros x Hx. apply in_map_iff in Hx.
      destruct Hx as (y & Hy & Hin). rewrite Forall_forall in Hpos.
      specialize (Hpos y Hin).
      destruct (Product.id y =? Product.id product); subst x; simpl; lia.
  - destruct (0 + 1 >? Product.stock product); simpl; [now split|].
    apply find_line_absent in Hf. split.
    + rewrite cartIds_app. simpl.
      apply NoDup_app; [assumption|constructor; [simpl; tauto|constructor]|].
      intros a Ha [Hb|[]]. subst a. contradiction.
    + apply Forall_app. split; [assumption|]. constructor; [simpl; lia|constructor].
Qed.

Lemma addToCart_wellFormed (env : Env) (product : Product) (app : App.State) (pos : POS.State) :
  cartsWellFormed app pos -> cartsWellFormed app (fst (POS.addToCart env product pos)).
Proof.
  intros [Hc Hh]. split; [|assumption].
  unfold POS.addToCart.
  destruct (expiredAt (now env) product); [assumption|].
  destruct (Product.requiresPrescription product && negb (confirmAnswer env));
    [assumption|].
  pose proof (addLine_wellFormed product (POS.cart pos) Hc) as Hadd.
  now destruct (POS.addLine product (POS.cart pos)).
Qed.

Lemma updateQuantity_wellFormed (products : list Product) (id delta : Z)
    (app : App.State) (pos : POS.State) :
  cartsWellFormed app pos ->
  cartsWellFormed app (fst (POS.updateQuantity products id delta pos)).
Proof.
  intros [[Hnd _] Hh]. split; [|assumption].
  unfold POS.updateQuantity. simpl. split.
  - apply cartIds_filter. unfold cartIds. rewrite !map_map.
    erewrite map_ext; [exact Hnd|].
    intros x. unfold POS.adjustLine.
    destruct (Product.id x =? id); [|reflexivity].
    now destruct (match find _ products with Some _ => _ | None => _ end).
  - apply Forall_forall. intros x Hx. apply filter_In in Hx.
    destruct Hx as [_ Hx]. now apply Z.gtb_lt in Hx.
Qed.

Lemma removeFromCart_wellFormed (id : Z) (app : App.State) (pos : POS.State) :
  cartsWellFormed app pos -> cartsWellFormed app (POS.removeFromCart id pos).
Proof.
  intros [Hc Hh]. split; [|assumption]. now apply wellFormed_filter.
Qed.

Lemma handleHold_wellFormed (env : Env) (app : App.State) (pos : POS.State) :
  cartsWellFormed app pos ->
  let '(app', pos', _) := POS.handleHold env app pos in cartsWellFormed app' pos'.
Proof.
  intros [Hc Hh]. unfold POS.handleHold.
  destruct (POS.cart pos) as [|c cart] eqn:Ec; [split; [now rewrite Ec|assumption]|].
  split; [split; constructor|].
  unfold App.handleHoldSale. destruct (App.user app); [|assumption].
  simpl. constructor; assumption.
Qed.

Lemma handleResume_wellFormed (app : App.State) (pos : POS.State) (held : HeldSale) :
  cartsWellFormed app pos -> In held (App.heldSales app) ->
  let '(app', pos') := POS.handleResume app pos held in cartsWellFormed app' pos'.
Proof.
  intros [_ Hh] Hin. unfold POS.handleResume. split; simpl.
  - rewrite Forall_forall in Hh. now apply Hh.
  - apply Forall_forall. intros h Hx. apply filter_In in Hx.
    rewrite Forall_forall in Hh. now apply Hh.
Qed.

Lemma handleCheckout_wellFormed (env : Env) (app : App.State) (pos : POS.State) :
  cartsWellFormed app pos ->
  let '(app', pos', _) := POS.handleCheckout env app pos in cartsWellFormed app' pos'.
Proof.
  intros [Hc Hh]. unfold POS.handleCheckout.
  destruct (POS.cart pos) as [|c cart] eqn:Ec; [split; [now rewrite Ec|assumption]|].
  simpl. rewrite Ec.
  destruct (App.handleCheckout env app (c :: cart) _ _) as [app' raised] eqn:E.
  split; [split; constructor|].
  replace (App.heldSales app') with (App.heldSales app); [assumption|].
  unfold App.handleCheckout in E.
  destruct (App.user app) as [u|] eqn:Hu; [|now inversion E].
  destruct (App.deductStock (c :: cart) false (App.products app)) as [e ps].
  destruct e; inversion E; subst; [reflexivity|].
  unfold App.logAction. simpl. rewrite Hu. reflexivity.
Qed.

(** ** What checkout does not do *)

(** Whatever [App.handleCheckout] answers, the point of sale announces
    success last and empties the cart. *)
Lemma pos_handleCheckout_clears (env : Env) (app : App.State) (pos : POS.State) :
  POS.cart pos <> [] ->
  let '(_, pos', raised) := POS.handleCheckout env app pos in
  POS.cart pos' = []
  /\ exists before : list UiEvent,
       raised
       = before ++ [Alert (POS.successMessage (POS.total (App.settings app) (POS.cart pos)))].
Proof.
  intros Hne. rewrite (pos_handleCheckout_eq env app pos Hne). cbv zeta.
  split; [reflexivity|]. eexists. reflexivity.
Qed.

(** Lines whose product is not in the catalog pass the stock check
    unexamined: when no product of the catalog has a line, the catalog is
    left as it was and the cart is put on the ledger all the same. *)
Lemma handleCheckout_orphan_lines (env : Env) (st : App.State) (cart : list CartItem)
    (total : Q) (method : PaymentMethod) (u : User) :
  App.user st = Some u ->
  (forall p, In p (App.products st) -> ~ In (Product.id p) (cartIds cart)) ->
  let st' := fst (App.handleCheckout env st cart total method) in
  App.products st' = App.products st
  /\ exists sale : Sale,
       App.sales st' = sale :: App.sales st /\ Sale.items sale = map App.toSaleItem cart.
Proof.
  intros Hu Hout.
  assert (Hns : ~ shortOfStock (App.products st) cart).
  { intros (line & p & Hl & Hp & Hid & _). apply (Hout p Hp).
    rewrite Hid. now apply in_cartIds. }
  assert (He : fst (App.deductStock cart false (App.products st)) = false).
  { rewrite deductStock_flag. simpl. now apply stock_pass_enough. }
  destruct (handleCheckout_commit env st cart total method u Hu He)
    as (_ & Hps & Hs & _).
  split.
  - rewrite Hps. rewrite <- (map_id (App.products st)) at 2.
    apply map_ext_in. intros p Hp. apply deductOne_other. now apply Hout.
  - eexists. split; [exact Hs|reflexivity].
Qed.

Lemma initial_wellFormed (app : App.State) :
  App.heldSales app = [] -> cartsWellFormed app POS.initial.
Proof.
  intros Hh. split; [split; constructor|]. rewrite Hh. constructor.
Qed.

End Properties.

(** ** The examples *)

(** C1. After the trace of [mixedBefore] (Panadol and Brufen held, Brufen
    deleted from the catalog, the sale resumed) no line of the cart asks for
    more than the catalog has of its product, and checkout commits in part:
    it raises no stock alert and puts on the ledger one sale with an item
    for Panadol and an item for Brufen, while the only stock that is lowered
    is that of Panadol, from 1 to 0; no stock is lowered for the line of
    Brufen. *)
Theorem checkout_partial_commit_example :
  let '(app, pos) := mixedBefore in
  let '(app', _, raised) := mixedAfter in
  App.user app = Some amna
  /\ map (fun c : CartItem => (Product.id c, CartItem.quantity c)) (POS.cart pos)
     = [(1, 1); (3, 1)]
  /\ map (fun p => (Product.id p, Product.stock p)) (App.products app) = [(1, 1)]
  /\ App.sales app = []
  /\ ~ shortOfStock (App.products app) (POS.cart pos)
  /\ raised = [Alert ("Transaction Successful!" ++ nl ++ "Amount: PKR 234")]
  /\ map (fun s => map (fun i => (SaleItem.productId i, SaleItem.quantity i)) (Sale.items s))
         (App.sales app') = [[(1, 1); (3, 1)]]
  /\ map (fun p => (Product.id p, Product.stock p)) (App.products app') = [(1, 0)].
Proof.
  assert (Hstock : ~ shortOfStock (App.products (fst mixedBefore)) (POS.cart (snd mixedBefore))).
  { intros (line & p & Hl & Hp & Hid & Hlt). vm_compute in Hl, Hp.
    destruct Hp as [<-|[]]. destruct Hl as [<-|[<-|[]]]; vm_compute in Hid, Hlt.
    - discriminate Hlt.
    - discriminate Hid. }
  revert Hstock. generalize shortOfStock. intros short Hstock.
  destruct mixedBefore as [app pos] eqn:Hbefore.
  destruct mixedAfter as [[app' pos'] raised] eqn:Hafter.
  vm_compute in Hbefore. vm_compute in Hafter.
  injection Hbefore as <- <-. injection Hafter as <- _ <-.
  repeat split; try reflexivity. exact Hstock.
Qed.

(** C2. After the trace of [orphanBefore] (a sale held, its product deleted
    from the catalog, the sale resumed), checkout puts on the ledger a sale
    with an item for product 3 although the catalog has no product 3 and no
    stock in it changes. *)
Theorem checkout_orphan_line_example :
  let '(app, pos) := orphanBefore in
  let '(app', _, raised) := orphanAfter in
  cartIds (POS.cart pos) = [3]
  /\ map Product.id (App.products app) = [1]
  /\ App.sales app = []
  /\ App.products app' = App.products app
  /\ map (fun s => map (fun i => (SaleItem.productId i, SaleItem.quantity i)) (Sale.items s))
         (App.sales app') = [[(3, 1)]]
  /\ raised = [Alert ("Transaction Successful!" ++ nl ++ "Amount: PKR 117")].
Proof. vm_compute. repeat split; reflexivity. Qed.

(** C3. After the trace of [staleBefore] (the resumed cart asks for 2 Brufen,
    the catalog holds 1), checkout raises the stock-insufficiency alert and
    changes neither catalog nor ledger, and yet the point of sale announces
    success and empties the cart. *)
Theorem checkout_failure_clears_cart_example :
  let '(app, pos) := staleBefore in
  let '(app', pos', raised) := staleAfter in
  map (fun c : CartItem => (Product.id c, CartItem.quantity c)) (POS.cart pos) = [(3, 2)]
  /\ map (fun p => (Product.id p, Product.stock p)) (App.products app) = [(3, 1)]
  /\ app' = app
  /\ raised = [Alert App.stockErrorMessage;
               Alert ("Transaction Successful!" ++ nl ++ "Amount: PKR 234")]
  /\ POS.cart pos' = [].
Proof. vm_compute. repeat split; reflexivity. Qed.

(** C4, counterexample to the claim as stated. Augmentin needs a
    prescription, is not expired and has 5 in stock; adding it to an empty
    cart with the confirmation declined neither fails for expiry or stock nor
    appends a line. *)
Lemma addToCart_declined_counterexample :
  @expiredAt examplePlatform (now decliningEnv) augmentin = false
  /\ ~ In (Product.id augmentin) (cartIds (POS.cart POS.initial))
  /\ 0 + 1 <= Product.stock augmentin
  /\ POS.cart (fst (@POS.addToCart examplePlatform decliningEnv augmentin POS.initial))
     <> POS.cart POS.initial ++ [CartItem.mk augmentin 1]
  /\ POS.cart (fst (@POS.addToCart examplePlatform decliningEnv augmentin POS.initial)) = [].
Proof.
  split; [reflexivity|]. split; [simpl; tauto|]. split; [simpl; lia|].
  split; [|reflexivity]. vm_compute. discriminate.
Qed.

(** ** The theorems at concrete inputs *)

Lemma checkout_atomic_witness :
  let st := exampleApp [panadol; brufen] in
  let enough := [CartItem.mk brufen 2; CartItem.mk panadol 1] in
  let short := [CartItem.mk brufen 2; CartItem.mk panadol 2] in
  App.user st = Some amna
  /\ NoDup (cartIds enough) /\ ~ shortOfStock (App.products st) enough
  /\ NoDup (cartIds short) /\ shortOfStock (App.products st) short
  /\ nth_error (App.products (fst (@App.handleCheckout examplePlatform exampleEnv st enough 351 Cash))) 1
     = Some (Product.withStock brufen 0)
  /\ fst (@App.handleCheckout examplePlatform exampleEnv st short 468 Cash) = st.
Proof.
  intros st enough short.
  assert (Hnd1 : NoDup (cartIds enough)).
  { repeat constructor; simpl; intuition discriminate. }
  assert (Hnd2 : NoDup (cartIds short)).
  { repeat constructor; simpl; intuition discriminate. }
  assert (Hok : ~ shortOfStock (App.products st) enough).
  { intros (line & p & Hl & Hp & Hid & Hlt). simpl in Hl, Hp.
    destruct Hl as [<-|[<-|[]]]; destruct Hp as [<-|[<-|[]]];
      simpl in Hid, Hlt; try discriminate; lia. }
  assert (Hshort : shortOfStock (App.products st) short).
  { exists (CartItem.mk panadol 2), panadol. simpl. repeat split; auto. }
  split; [reflexivity|]. split; [exact Hnd1|]. split; [exact Hok|].
  split; [exact Hnd2|]. split; [exact Hshort|]. split.
  - destruct (@checkout_atomic examplePlatform exampleEnv st enough 351 Cash amna
                eq_refl Hnd1) as [_ Hcommit].
    destruct (Hcommit Hok) as (_ & _ & Hdec & _).
    exact (Hdec 1%nat brufen (CartItem.mk brufen 2) eq_refl (or_introl eq_refl) eq_refl).
  - destruct (@checkout_atomic examplePlatform exampleEnv st short 468 Cash amna
                eq_refl Hnd2) as [Habort _].
    exact (proj1 (Habort Hshort)).
Defined.

Lemma checkout_ignores_gating_witness :
  let app := exampleApp [panadol; morphine] in
  let pos := POS.setCart POS.initial [CartItem.mk morphine 2] in
  @expiredAt examplePlatform (now exampleEnv) morphine = true
  /\ Product.requiresPrescription morphine = true
  /\ Product.isNarcotic morphine = true
  /\ let '(app', _, raised) := @POS.handleCheckout examplePlatform exampleEnv app pos in
     raised = [Alert ("Transaction Successful!" ++ nl ++ "Amount: PKR 936")]
     /\ map (fun p => (Product.id p, Product.stock p)) (App.products app) = [(1, 1); (4, 10)]
     /\ (exists p' : Product,
           nth_error (App.products app') 1 = Some p'
           /\ Product.id p' = 4 /\ Product.stock p' = 8)
     /\ exists (sale : Sale) (item : SaleItem),
          App.sales app' = [sale] /\ In item (Sale.items sale)
          /\ SaleItem.productId item = 4 /\ SaleItem.quantity item = 2
          /\ SaleItem.isNarcotic item = true.
Proof.
  intros app pos.
  assert (Hnd : NoDup (cartIds (POS.cart pos))).
  { repeat constructor; simpl; tauto. }
  assert (Hok : ~ shortOfStock (App.products app) (POS.cart pos)).
  { intros (line & p & Hl & Hp & Hid & Hlt). simpl in Hl, Hp.
    destruct Hl as [<-|[]]; destruct Hp as [<-|[<-|[]]];
      simpl in Hid, Hlt; try discriminate; lia. }
  assert (Hne : POS.cart pos <> []) by discriminate.
  split; [reflexivity|]. split; [reflexivity|]. split; [reflexivity|].
  pose proof (@checkout_ignores_gating examplePlatform exampleEnv app pos amna
                eq_refl Hne Hnd Hok) as W.
  destruct (@POS.handleCheckout examplePlatform exampleEnv app pos) as [[app' pos'] raised].
  destruct W as (Hr & sale & Hs & Hlines).
  split; [exact Hr|].
  destruct (Hlines (CartItem.mk morphine 2) (or_introl eq_refl) (or_introl eq_refl))
    as [(item & Hitem & Hid & _ & Hq & _ & Hn) Hdec].
  destruct (Hdec 1%nat morphine eq_refl eq_refl) as (p' & Hnth & Hstock & Hpid & _).
  split; [reflexivity|].
  split; [exists p'; split; [exact Hnth|]; split; [exact Hpid|exact Hstock]|].
  exists sale, item.
  split; [exact Hs|]. split; [exact Hitem|]. split; [exact Hid|].
  split; [exact Hq|exact Hn].
Defined.

Lemma addToCart_spec_witness :
  let pos1 := fst (@POS.addToCart examplePlatform exampleEnv panadol POS.initial) in
  let pos2 := fst (@POS.addToCart examplePlatform exampleEnv brufen pos1) in
  let pos3 := fst (@POS.addToCart examplePlatform laterEnv brufen pos2) in
  Product.stock panadol = 1
  /\ @expiredAt examplePlatform (now exampleEnv) panadol = false
  /\ POS.cart pos1 = [CartItem.mk panadol 1]
  /\ POS.cart (fst (@POS.addToCart examplePlatform laterEnv panadol pos1))
     = [CartItem.mk panadol 1]
  /\ Product.stock brufen = 2
  /\ POS.cart pos2 = [CartItem.mk panadol 1; CartItem.mk brufen 1]
  /\ POS.cart pos3 = [CartItem.mk panadol 1; CartItem.mk brufen 2]
  /\ map (fun line : CartItem => (Product.id line, CartItem.quantity line)) (POS.cart pos3)
     = [(1, 1); (3, 2)].
Proof.
  intros pos1 pos2 pos3.
  destruct (@addToCart_spec examplePlatform exampleEnv panadol POS.initial)
    as (_ & _ & _ & _ & _ & _ & Hscenario).
  destruct (Hscenario (conj eq_refl (or_introl eq_refl)) eq_refl eq_refl) as [Hfirst Hsecond].
  destruct (@addToCart_spec examplePlatform laterEnv brufen pos2)
    as (_ & _ & _ & _ & _ & Hincrement & _).
  assert (Hthird : POS.cart pos3 = [CartItem.mk panadol 1; CartItem.mk brufen 2]).
  { refine (Hincrement (conj eq_refl (or_introl eq_refl))
              [CartItem.mk panadol 1] [] (CartItem.mk brufen 1) eq_refl eq_refl _ _).
    - simpl. intros [Hk|[]]. discriminate Hk.
    - simpl. lia. }
  split; [reflexivity|]. split; [reflexivity|]. split; [exact Hfirst|].
  split; [exact (Hsecond laterEnv)|].
  split; [reflexivity|]. split; [reflexivity|]. split; [exact Hthird|].
  unfold pos3 in Hthird |- *. rewrite Hthird. reflexivity.
Defined.

Lemma updateQuantity_spec_witness :
  let products := [panadol; brufen] in
  let pos := POS.setCart POS.initial [CartItem.mk panadol 1; CartItem.mk brufen 1] in
  Forall (fun item => 0 < CartItem.quantity item) (POS.cart pos)
  /\ fst (POS.updateQuantity products 1 1 pos) = pos
  /\ POS.cart (fst (POS.updateQuantity products 3 1 pos))
     = [CartItem.mk panadol 1; CartItem.mk brufen 2]
  /\ POS.cart (fst (POS.updateQuantity products 3 (-1) pos)) = [CartItem.mk panadol 1].
Proof.
  intros products pos.
  assert (Hpos : Forall (fun item => 0 < CartItem.quantity item) (POS.cart pos)).
  { repeat constructor. }
  assert (Hk1 : ~ In 1 (cartIds ([] ++ [CartItem.mk brufen 1]))).
  { simpl. intuition discriminate. }
  assert (Hk3 : ~ In 3 (cartIds ([CartItem.mk panadol 1] ++ []))).
  { simpl. intuition discriminate. }
  split; [exact Hpos|]. split; [|split].
  - destruct (updateQuantity_spec products 1 1 pos [] [CartItem.mk brufen 1]
                (CartItem.mk panadol 1) eq_refl eq_refl Hk1 Hpos) as [Hblock _].
    apply (Hblock panadol eq_refl). simpl. lia.
  - destruct (updateQuantity_spec products 3 1 pos [CartItem.mk panadol 1] []
                (CartItem.mk brufen 1) eq_refl eq_refl Hk3 Hpos) as [_ Hfit].
    apply Hfit. intros product Hf. inversion Hf. simpl. lia.
  - destruct (updateQuantity_spec products 3 (-1) pos [CartItem.mk panadol 1] []
                (CartItem.mk brufen 1) eq_refl eq_refl Hk3 Hpos) as [_ Hfit].
    apply Hfit. intros product Hf. inversion Hf. simpl. lia.
Defined.

Lemma cart_totals_witness :
  let cart := [CartItem.mk brufen 2] in
  (@POS.taxRate examplePlatform exampleSettings == 17)%Q
  /\ (POS.subtotal cart == 200)%Q
  /\ (@POS.taxAmount examplePlatform exampleSettings cart == 34)%Q
  /\ (@POS.total examplePlatform exampleSettings cart == 234)%Q.
Proof.
  intros cart.
  destruct (@cart_totals examplePlatform exampleSettings cart)
    as (_ & _ & _ & _ & _ & Hscenario).
  split; [reflexivity|].
  apply (Hscenario (CartItem.mk brufen 2)); reflexivity.
Defined.

Lemma low_stock_predicate_witness :
  Product.reorderLevel panadol = 3 /\ Product.stock panadol = 1
  /\ @Inventory.matchesLowStock examplePlatform exampleSettings panadol = true
  /\ Product.reorderLevel augmentin = 0 /\ Product.stock augmentin = 5
  /\ @Inventory.lowStockLimit examplePlatform exampleSettings = 5%Q
  /\ @Inventory.matchesLowStock examplePlatform exampleSettings augmentin = true
  /\ Product.reorderLevel zinc = 0 /\ Product.stock zinc = 8
  /\ @Inventory.lowStockLimit examplePlatform wideSettings = 10%Q
  /\ @Inventory.matchesLowStock examplePlatform wideSettings zinc = true
  /\ @Inventory.matchesLowStock examplePlatform exampleSettings zinc = false
  /\ @Dashboard.lowStockCount examplePlatform wideSettings [panadol; augmentin; zinc] = 3%nat
  /\ @Dashboard.lowStockCount examplePlatform exampleSettings [panadol; augmentin; zinc] = 2%nat.
Proof.
  destruct (@low_stock_predicate examplePlatform exampleSettings panadol)
    as (Hset & _).
  destruct (@low_stock_predicate examplePlatform exampleSettings augmentin)
    as (_ & Hunset & _).
  destruct (@low_stock_predicate examplePlatform wideSettings zinc)
    as (_ & _ & _ & _ & _ & Hstored & _).
  destruct (Hstored
              [AppSetting.mk 1 "tax_rate" "17" "Sales tax in percent" billing] []
              (AppSetting.mk 3 "low_stock_limit_default" "10" "Default reorder level"
                             inventory)
              eq_refl) as [_ Hvalue].
  { simpl. intros x [Hx|[]]. rewrite <- Hx. discriminate. }
  { reflexivity. }
  destruct Hvalue as [Hlimit Hlow]; [discriminate|].
  split; [reflexivity|]. split; [reflexivity|]. split.
  - apply Hset; [discriminate|]. simpl. lia.
  - split; [reflexivity|]. split; [reflexivity|]. split; [reflexivity|].
    split; [apply (Hunset eq_refl); vm_compute; discriminate|].
    split; [reflexivity|]. split; [reflexivity|].
    split; [rewrite Hlimit; reflexivity|].
    split; [apply (Hlow eq_refl); vm_compute; discriminate|].
    split; [reflexivity|]. split; reflexivity.
Defined.

Lemma hold_resume_roundtrip_witness :
  let app := exampleApp [panadol; brufen] in
  let pos := POS.setCart POS.initial [CartItem.mk brufen 2] in
  let '(app1, pos1, _) := @POS.handleHold examplePlatform exampleEnv app pos in
  POS.cart pos1 = []
  /\ exists held : HeldSale,
       App.heldSales app1 = [held]
       /\ let '(app2, pos2) := POS.handleResume app1 pos1 held in
          POS.cart pos2 = [CartItem.mk brufen 2] /\ app2 = app.
Proof.
  intros app pos.
  assert (Hne : POS.cart pos <> []) by discriminate.
  destruct (@hold_resume_roundtrip examplePlatform exampleEnv app pos amna eq_refl)
    as [_ Hround].
  specialize (Hround Hne).
  destruct (@POS.handleHold examplePlatform exampleEnv app pos) as [[app1 pos1] raised].
  destruct Hround as (held & Hreg & _ & _ & _ & _ & _ & Hempty & Hresume).
  split; [exact Hempty|].
  exists held. split; [exact Hreg|].
  destruct (POS.handleResume app1 pos1 held) as [app2 pos2].
  destruct Hresume as (Hcart & _ & _ & _ & Hfresh).
  split; [exact Hcart|]. apply Hfresh. intros h [].
Defined.

Lemma resume_at_most_once_witness :
  let app := fst heldBrufen in
  let pos := snd heldBrufen in
  exists held : HeldSale,
    App.heldSales app = [held]
    /\ HeldSale.id held = "k3j9x2m10"
    /\ POS.cart pos = []
    /\ @App.handleResumeSale app "q7w4e8r20" = app
    /\ let '(app', pos') := POS.handleResume app pos held in
       POS.cart pos' = [CartItem.mk brufen 2]
       /\ App.heldSales app' = []
       /\ App.handleResumeSale app' "k3j9x2m10" = app'.
Proof.
  intros app pos.
  destruct (resume_at_most_once app pos) as [Hunknown Hknown].
  eexists. split; [reflexivity|]. split; [reflexivity|]. split; [reflexivity|].
  split.
  - apply Hunknown. intros h [<-|[]]. discriminate.
  - pose proof (Hknown _ (or_introl eq_refl)) as W.
    match type of W with
    | context [POS.handleResume ?a ?p ?h] =>
        destruct (POS.handleResume a p h) as [app' pos'] eqn:E
    end.
    destruct W as (Hcart & _ & _ & _ & Hagain & _).
    split; [exact Hcart|]. split; [|exact Hagain].
    injection E as <- _. reflexivity.
Defined.

(** * More of the code *)

Section Coverage.

Context `{Platform} `{Casing}.

(** ** Checkout and the catalog *)

Lemma deductOne_cases (cart : list CartItem) (p : Product) :
  snd (App.deductOne cart false p) = p
  \/ exists line : CartItem,
       In line cart /\ Product.id line = Product.id p
       /\ CartItem.quantity line <= Product.stock p
       /\ snd (App.deductOne cart false p)
          = Product.withStock p (Product.stock p - CartItem.quantity line).
Proof.
  unfold App.deductOne.
  destruct (find _ cart) as [c|] eqn:Hf; [|now left].
  apply find_line_in in Hf. destruct Hf as [Hin Hid].
  destruct (Z.ltb_spec (Product.stock p) (CartItem.quantity c)); [now left|].
  right. exists c. auto.
Qed.

(** Whatever is asked of it, [App.handleCheckout] either returns the state it
    was given or commits the stock pass and one sale. *)
Lemma handleCheckout_cases (env : Env) (st : App.State) (cart : list CartItem)
    (total : Q) (method : PaymentMethod) :
  let st' := fst (App.handleCheckout env st cart total method) in
  st' = st
  \/ (exists u : User,
        App.user st = Some u
        /\ snd (App.handleCheckout env st cart total method) = []
        /\ App.products st'
           = map (fun p => snd (App.deductOne cart false p)) (App.products st)
        /\ App.sales st'
           = Sale.mk (random36 env 0) (isoNow env 0) total method (map App.toSaleItem cart)
                     (User.id u) (User.name u) :: App.sales st
        /\ App.auditLogs st'
           = AuditLog.mk (random36 env 1) (isoNow env 1) (User.id u) (User.name u)
               "SALE_COMPLETED"
               ("Sale ID: " ++ random36 env 0 ++ ", Total: " ++ numberToString total)
             :: App.auditLogs st
        /\ App.heldSales st' = App.heldSales st
        /\ App.settings st' = App.settings st
        /\ App.users st' = App.users st
        /\ App.user st' = App.user st).
Proof.
  destruct st as [us ps urs se sa he au]. unfold App.handleCheckout. simpl.
  destruct us as [u|]; [|now left].
  pose proof (deductStock_products cart ps false) as Hps.
  destruct (App.deductStock cart false ps) as [e ps']. simpl in Hps. subst ps'.
  destruct e; [now left|].
  right. exists u. simpl. repeat split; reflexivity.
Qed.

Lemma not_cons_self {A : Type} (x : A) (l : list A) : l <> x :: l.
Proof.
  intros Heq. apply (f_equal (@List.length A)) in Heq. simpl in Heq. lia.
Qed.

(** X1. Checkout never takes a stock below zero: when no stock of the
    catalog is negative before [App.handleCheckout], none is after it,
    whatever the cart. *)
Theorem checkout_keeps_stock_nonnegative (env : Env) (st : App.State)
    (cart : list CartItem) (total : Q) (method : PaymentMethod) :
  Forall (fun p => 0 <= Product.stock p) (App.products st) ->
  Forall (fun p => 0 <= Product.stock p)
         (App.products (fst (App.handleCheckout env st cart total method))).
Proof.
  intros Hpos.
  destruct (handleCheckout_cases env st cart total method) as [Hsame|Hcommit].
  - now rewrite Hsame.
  - destruct Hcommit as (u & _ & _ & Hps & _). rewrite Hps.
    apply Forall_forall. intros p' Hp'. apply in_map_iff in Hp'.
    destruct Hp' as (p & Hp' & Hp). subst p'.
    rewrite Forall_forall in Hpos. specialize (Hpos p Hp).
    destruct (deductOne_cases cart p) as [Hsame|(line & _ & _ & Hle & Hnew)].
    + now rewrite Hsame.
    + rewrite Hnew. simpl. lia.
Qed.

(** X2. Checkout changes nothing of the catalog but stock: the products keep
    their number, order and every other field; held sales, settings, users
    and the session are untouched; and with a cart of non-negative quantities
    no stock goes up. *)
Theorem checkout_changes_stock_only (env : Env) (st : App.State)
    (cart : list CartItem) (total : Q) (method : PaymentMethod) :
  let st' := fst (App.handleCheckout env st cart total method) in
  map (fun p => Product.withStock p 0) (App.products st')
  = map (fun p => Product.withStock p 0) (App.products st)
  /\ App.heldSales st' = App.heldSales st
  /\ App.settings st' = App.settings st
  /\ App.users st' = App.users st
  /\ App.user st' = App.user st
  /\ (Forall (fun line => 0 <= CartItem.quantity line) cart ->
      Forall2 (fun p p' => Product.stock p' <= Product.stock p)
              (App.products st) (App.products st')).
Proof.
  intros st'. unfold st'. clear st'.
  destruct (handleCheckout_cases env st cart total method) as [Hsame|Hcommit].
  - rewrite Hsame. split; [reflexivity|]. do 4 (split; [reflexivity|]).
    intros _. induction (App.products st); constructor; auto; lia.
  - destruct Hcommit as (u & _ & _ & Hps & _ & _ & Hh & Hse & Hus & Hu).
    rewrite Hps. split; [|split; [exact Hh|split; [exact Hse|split; [exact Hus|split; [exact Hu|]]]]].
    + rewrite map_map. apply map_ext. intros p.
      destruct (deductOne_cases cart p) as [Hp|(line & _ & _ & _ & Hp)];
        rewrite Hp; reflexivity.
    + intros Hq. rewrite Forall_forall in Hq.
      clear Hps Hh Hse Hus Hu.
      induction (App.products st) as [|p ps IH]; simpl; [constructor|].
      constructor; [|exact IH].
      destruct (deductOne_cases cart p) as [Hp|(line & Hl & _ & _ & Hp)];
        rewrite Hp; simpl; [lia|].
      specialize (Hq line Hl). simpl in Hq. lia.
Qed.

(** X3. Ledger and audit log only grow, and together: [App.handleCheckout]
    puts at most one sale in front of the ledger and as many
    [SALE_COMPLETED] entries in front of the audit log, keeping what was
    there; when it records no sale it returns the state it was given. *)
Theorem checkout_appends_to_ledger_and_log (env : Env) (st : App.State)
    (cart : list CartItem) (total : Q) (method : PaymentMethod) :
  let st' := fst (App.handleCheckout env st cart total method) in
  exists (newSales : list Sale) (newLogs : list AuditLog),
    App.sales st' = newSales ++ App.sales st
    /\ App.auditLogs st' = newLogs ++ App.auditLogs st
    /\ List.length newSales = List.length newLogs
    /\ (List.length newSales <= 1)%nat
    /\ Forall (fun l => AuditLog.action l = "SALE_COMPLETED") newLogs
    /\ Forall (fun s => Sale.items s = map App.toSaleItem cart) newSales
    /\ (newSales = [] -> st' = st).
Proof.
  intros st'. unfold st'. clear st'.
  destruct (handleCheckout_cases env st cart total method) as [Hsame|Hcommit].
  - exists [], []. rewrite Hsame. simpl. repeat split; auto.
  - destruct Hcommit as (u & _ & _ & _ & Hs & Hl & _).
    eexists [_], [_]. rewrite Hs, Hl. simpl.
    repeat split; auto; try discriminate.
Qed.

(** The sale that a checkout at the point of sale put on the ledger. *)
Lemma pos_checkout_sale (env : Env) (app : App.State) (pos : POS.State) (sale : Sale) :
  App.sales (fst (fst (POS.handleCheckout env app pos))) = sale :: App.sales app ->
  exists u : User,
    App.user app = Some u
    /\ sale = Sale.mk (random36 env 0) (isoNow env 0)
                      (POS.total (App.settings app) (POS.cart pos)) (POS.paymentMethod pos)
                      (map App.toSaleItem (POS.cart pos)) (User.id u) (User.name u).
Proof.
  intros Hs.
  destruct (POS.cart pos) as [|c cart] eqn:Hc.
  { unfold POS.handleCheckout in Hs. rewrite Hc in Hs. simpl in Hs.
    now destruct (not_cons_self sale (App.sales app)). }
  assert (Hne : POS.cart pos <> []) by (rewrite Hc; discriminate).
  rewrite (pos_handleCheckout_eq env app pos Hne) in Hs. cbv zeta in Hs. simpl fst in Hs.
  rewrite <- Hc.
  destruct (handleCheckout_cases env app (POS.cart pos)
              (POS.total (App.settings app) (POS.cart pos)) (POS.paymentMethod pos))
    as [Hsame|Hcommit].
  - rewrite Hsame in Hs. now destruct (not_cons_self sale (App.sales app)).
  - destruct Hcommit as (u & Hu & _ & _ & Hsales & _).
    rewrite Hsales in Hs. injection Hs as Hs. exists u. split; [exact Hu|now symmetry].
Qed.

(** X4. The sale that [POS.handleCheckout] records is the cart it was given:
    its total is the displayed total, its payment method the selected one,
    its date the time of the checkout, it has one item per line, and the
    amounts of its items add up to the subtotal of the cart. *)
Theorem recorded_sale_matches_cart (env : Env) (app : App.State) (pos : POS.State)
    (sale : Sale) :
  App.sales (fst (fst (POS.handleCheckout env app pos))) = sale :: App.sales app ->
  Sale.totalAmount sale = POS.total (App.settings app) (POS.cart pos)
  /\ Sale.paymentMethod sale = POS.paymentMethod pos
  /\ Sale.date sale = isoNow env 0
  /\ Some (Sale.userId sale) = option_map User.id (App.user app)
  /\ List.length (Sale.items sale) = List.length (POS.cart pos)
  /\ (fold_right Qplus 0
        (map (fun i => SaleItem.price i * inject_Z (SaleItem.quantity i)) (Sale.items sale))
      == POS.subtotal (POS.cart pos))%Q.
Proof.
  intros Hs. destruct (pos_checkout_sale env app pos sale Hs) as (u & Hu & ->).
  simpl. rewrite Hu. repeat split; try reflexivity.
  - apply length_map.
  - rewrite map_map. simpl. unfold POS.subtotal.
    rewrite (fold_left_amounts
               (fun item => Product.price item * inject_Z (CartItem.quantity item))%Q).
    ring.
Qed.

(** ** Deleting and adding products *)

Lemma isUsedInSales_true (sales : list Sale) (productId : Z) :
  existsb (fun s => existsb (fun i => SaleItem.productId i =? productId) (Sale.items s)) sales
  = true <-> soldBefore sales productId.
Proof.
  unfold soldBefore. rewrite existsb_exists. split.
  - intros (s & Hs & Hi). apply existsb_exists in Hi. destruct Hi as (i & Hi & Hid).
    exists s, i. repeat split; auto. now apply Z.eqb_eq.
  - intros (s & i & Hs & Hi & Hid). exists s. split; [assumption|].
    apply existsb_exists. exists i. split; [assumption|]. now apply Z.eqb_eq.
Qed.

Lemma handleDeleteProduct_refused (env : Env) (st : App.State) (productId : Z) :
  soldBefore (App.sales st) productId ->
  fst (App.handleDeleteProduct env st productId) = st.
Proof.
  intros Hsold. unfold App.handleDeleteProduct.
  destruct (find _ (App.products st)); [|reflexivity].
  apply isUsedInSales_true in Hsold. now rewrite Hsold.
Qed.

Lemma find_product_none (products : list Product) (productId : Z) :
  (forall p, In p products -> Product.id p <> productId) ->
  find (fun p => Product.id p =? productId) products = None.
Proof.
  intros Hno. destruct (find _ products) as [p|] eqn:Hf; [|reflexivity].
  apply find_some in Hf. destruct Hf as [Hin Hid]. apply Z.eqb_eq in Hid.
  now destruct (Hno p Hin).
Qed.

Lemma find_product_some (products : list Product) (productId : Z) :
  (exists p, In p products /\ Product.id p = productId) ->
  exists p, find (fun p => Product.id p =? productId) products = Some p.
Proof.
  intros (p & Hin & Hid).
  destruct (find _ products) as [q|] eqn:Hf; [now exists q|].
  apply (find_none _ _ Hf) in Hin. rewrite Hid, Z.eqb_refl in Hin. discriminate.
Qed.

Lemma other_product (p : Product) (productId : Z) :
  negb (Product.id p =? productId) = true <-> Product.id p <> productId.
Proof.
  rewrite negb_true_iff. destruct (Z.eqb_spec (Product.id p) productId); split; congruence.
Qed.

(** X5. [App.handleDeleteProduct] has three outcomes. For an id that no
    product has it does nothing and opens no dialog. For a product that some
    sale of the ledger mentions it refuses with an alert and changes nothing.
    Otherwise it removes every product with that id and no other, keeps the
    order of the rest, and leaves ledger and held sales alone. *)
Theorem handleDeleteProduct_spec (env : Env) (st : App.State) (productId : Z) :
  let st' := fst (App.handleDeleteProduct env st productId) in
  let raised := snd (App.handleDeleteProduct env st productId) in
  let present := exists p, In p (App.products st) /\ Product.id p = productId in
  ((forall p, In p (App.products st) -> Product.id p <> productId) ->
     st' = st /\ raised = [])
  /\ (present -> soldBefore (App.sales st) productId ->
      st' = st /\ exists message, raised = [Alert message])
  /\ (present -> ~ soldBefore (App.sales st) productId ->
      raised = []
      /\ App.products st'
         = filter (fun p => negb (Product.id p =? productId)) (App.products st)
      /\ (forall p, In p (App.products st') <->
                    In p (App.products st) /\ Product.id p <> productId)
      /\ App.sales st' = App.sales st
      /\ App.heldSales st' = App.heldSales st).
Proof.
  intros st' raised present. unfold st', raised, present. clear st' raised present.
  unfold App.handleDeleteProduct. split; [|split].
  - intros Hno. now rewrite (find_product_none _ _ Hno).
  - intros Hp Hsold. destruct (find_product_some _ _ Hp) as [p Hf]. rewrite Hf.
    apply isUsedInSales_true in Hsold. rewrite Hsold. simpl. split; [reflexivity|].
    eexists. reflexivity.
  - intros Hp Hfree. destruct (find_product_some _ _ Hp) as [p Hf]. rewrite Hf.
    destruct (existsb _ (App.sales st)) eqn:Hused.
    { apply isUsedInSales_true in Hused. contradiction. }
    unfold App.logAction. simpl.
    destruct (App.user st); simpl; (split; [reflexivity|]); (split; [reflexivity|]);
      (split; [|split; reflexivity]); intros q; rewrite filter_In, other_product; tauto.
Qed.

(** X6. What was sold cannot be deleted: after a checkout that recorded a
    sale, [App.handleDeleteProduct] on the product of any line of that cart
    returns the state unchanged. *)
Theorem sold_product_cannot_be_deleted (env env2 : Env) (st : App.State)
    (cart : list CartItem) (total : Q) (method : PaymentMethod) (line : CartItem) :
  App.sales (fst (App.handleCheckout env st cart total method)) <> App.sales st ->
  In line cart ->
  fst (App.handleDeleteProduct env2 (fst (App.handleCheckout env st cart total method))
         (Product.id line))
  = fst (App.handleCheckout env st cart total method).
Proof.
  intros Hsold Hline. apply handleDeleteProduct_refused.
  destruct (handleCheckout_cases env st cart total method) as [Hsame|Hcommit].
  - rewrite Hsame in Hsold. contradiction.
  - destruct Hcommit as (u & _ & _ & _ & Hs & _). rewrite Hs.
    eexists _, (App.toSaleItem line). split; [now left|]. simpl.
    split; [now apply in_map|reflexivity].
Qed.

(** X7. Adding a product and deleting it again gives the catalog back, when
    its id is new to the catalog and to the ledger. *)
Theorem add_then_delete_restores_catalog (env1 env2 : Env) (st : App.State)
    (newProduct : Product) :
  (forall p, In p (App.products st) -> Product.id p <> Product.id newProduct) ->
  ~ soldBefore (App.sales st) (Product.id newProduct) ->
  App.products (App.handleAddProduct env1 st newProduct) = App.products st ++ [newProduct]
  /\ App.products
       (fst (App.handleDeleteProduct env2 (App.handleAddProduct env1 st newProduct)
               (Product.id newProduct)))
     = App.products st.
Proof.
  intros Hnew Hfree.
  assert (Hadd : App.products (App.handleAddProduct env1 st newProduct)
                 = App.products st ++ [newProduct]).
  { unfold App.handleAddProduct, App.logAction. simpl. now destruct (App.user st). }
  assert (Hsales : App.sales (App.handleAddProduct env1 st newProduct) = App.sales st).
  { unfold App.handleAddProduct, App.logAction. simpl. now destruct (App.user st). }
  split; [exact Hadd|].
  unfold App.handleDeleteProduct.
  assert (Hp : exists p, In p (App.products (App.handleAddProduct env1 st newProduct))
                         /\ Product.id p = Product.id newProduct).
  { exists newProduct. rewrite Hadd. split; [|reflexivity]. apply in_or_app. right. now left. }
  destruct (find_product_some _ _ Hp) as [p Hf]. rewrite Hf, Hsales.
  destruct (existsb _ (App.sales st)) eqn:Hused.
  { apply isUsedInSales_true in Hused. contradiction. }
  unfold App.logAction. simpl.
  assert (Hfilter : filter (fun p => negb (Product.id p =? Product.id newProduct))
                           (App.products (App.handleAddProduct env1 st newProduct))
                    = App.products st).
  { rewrite Hadd, filter_app. simpl. rewrite Z.eqb_refl. simpl. rewrite app_nil_r.
    apply filter_keeps_all. intros q Hq. apply other_product. now apply Hnew. }
  destruct (App.user (App.handleAddProduct env1 st newProduct)); simpl; exact Hfilter.
Qed.

(** X8. The inventory page deletes only for an administrator who confirms:
    whenever [Inventory.handleDelete] changes the state, the user is an
    administrator, the confirmation was accepted, the catalog had a product
    with that id and no sale mentions it. For any other role nothing is even
    asked. *)
Theorem inventory_delete_is_gated (env : Env) (user : User) (app : App.State)
    (id : Z) (name : string) :
  (User.role user <> admin -> Inventory.handleDelete env user app id name = (app, []))
  /\ (fst (Inventory.handleDelete env user app id name) <> app ->
      User.role user = admin
      /\ confirmAnswer env = true
      /\ (exists p, In p (App.products app) /\ Product.id p = id)
      /\ ~ soldBefore (App.sales app) id).
Proof.
  unfold Inventory.handleDelete. split.
  - intros Hrole. destruct (User.role user); try reflexivity. contradiction.
  - intros Hchanged.
    destruct (User.role user); simpl in Hchanged; try contradiction.
    destruct (confirmAnswer env); simpl in Hchanged; [|contradiction].
    split; [reflexivity|]. split; [reflexivity|].
    unfold App.handleDeleteProduct in Hchanged.
    destruct (find _ (App.products app)) as [p|] eqn:Hf; [|contradiction].
    apply find_some in Hf. destruct Hf as [Hin Hid]. apply Z.eqb_eq in Hid.
    split; [now exists p|].
    intros Hsold. apply isUsedInSales_true in Hsold. rewrite Hsold in Hchanged.
    contradiction.
Qed.

(** X9. Sales history is cleared only by the exact answer [DELETE]; any
    other answer, or none, leaves the state alone. Once it is cleared, every
    product of the catalog can be deleted again. *)
Theorem clear_data_unlocks_deletion (env env2 : Env) (app : App.State)
    (confirmation : option string) :
  let app' := fst (Settings.handleClearData env app confirmation) in
  (confirmation <> Some "DELETE" ->
     Settings.handleClearData env app confirmation = (app, []))
  /\ (confirmation = Some "DELETE" ->
      App.sales app' = []
      /\ App.products app' = App.products app
      /\ forall p, In p (App.products app) ->
           forall q, In q (App.products (fst (App.handleDeleteProduct env2 app' (Product.id p)))) ->
                     Product.id q <> Product.id p).
Proof.
  intros app'. unfold app'. clear app'. unfold Settings.handleClearData. split.
  - intros Hother. destruct confirmation as [answer|]; [|reflexivity].
    destruct (String.eqb_spec answer "DELETE"); [subst; contradiction|reflexivity].
  - intros ->. simpl.
    assert (Hs : App.sales (App.logAction env 0 (App.onClearData app) "CLEAR_DATA"
                              "All sales history cleared by Admin") = []).
    { unfold App.logAction. simpl. now destruct (App.user app). }
    assert (Hps : App.products (App.logAction env 0 (App.onClearData app) "CLEAR_DATA"
                                  "All sales history cleared by Admin") = App.products app).
    { unfold App.logAction. simpl. now destruct (App.user app). }
    split; [exact Hs|]. split; [exact Hps|].
    intros p Hp q Hq.
    set (cleared := App.logAction env 0 (App.onClearData app) "CLEAR_DATA"
                      "All sales history cleared by Admin") in *.
    unfold App.handleDeleteProduct in Hq.
    assert (Hpresent : exists x, In x (App.products cleared) /\ Product.id x = Product.id p).
    { exists p. rewrite Hps. auto. }
    destruct (find_product_some _ _ Hpresent) as [x Hf]. rewrite Hf, Hs in Hq.
    simpl in Hq. unfold App.logAction in Hq. simpl in Hq.
    destruct (App.user cleared); simpl in Hq; apply filter_In in Hq;
      destruct Hq as [_ Hq]; now apply other_product.
Qed.

(** ** The cart *)

Lemma subtotal_from (l : list CartItem) (a : Q) :
  (fold_left (fun (sum : Q) (item : CartItem) =>
                sum + Product.price item * inject_Z (CartItem.quantity item)) l a
   == a + POS.subtotal l)%Q.
Proof.
  unfold POS.subtotal.
  rewrite !(fold_left_amounts
              (fun item => Product.price item * inject_Z (CartItem.quantity item))%Q).
  ring.
Qed.

Lemma subtotal_app (a b : list CartItem) :
  (POS.subtotal (a ++ b) == POS.subtotal a + POS.subtotal b)%Q.
Proof.
  unfold POS.subtotal at 1. rewrite fold_left_app. rewrite subtotal_from.
  reflexivity.
Qed.

Lemma subtotal_cons (c : CartItem) (l : list CartItem) :
  (POS.subtotal (c :: l)
   == Product.price c * inject_Z (CartItem.quantity c) + POS.subtotal l)%Q.
Proof.
  unfold POS.subtotal at 1. simpl. rewrite subtotal_from. ring.
Qed.

Lemma itemCount_from (l : list CartItem) (a : Z) :
  fold_left (fun (acc : Z) (item : CartItem) => acc + CartItem.quantity item) l a
  = a + POS.itemCount l.
Proof.
  unfold POS.itemCount. revert a.
  induction l as [|c l IH]; intros a; simpl; [lia|].
  rewrite (IH (a + CartItem.quantity c)), (IH (CartItem.quantity c)). lia.
Qed.

Lemma itemCount_app (a b : list CartItem) :
  POS.itemCount (a ++ b) = POS.itemCount a + POS.itemCount b.
Proof.
  unfold POS.itemCount at 1. rewrite fold_left_app, itemCount_from.
  reflexivity.
Qed.

Lemma itemCount_cons (c : CartItem) (l : list CartItem) :
  POS.itemCount (c :: l) = CartItem.quantity c + POS.itemCount l.
Proof. unfold POS.itemCount at 1. simpl. now rewrite itemCount_from. Qed.

Lemma line_split (cart : list CartItem) (e : CartItem) :
  NoDup (cartIds cart) -> In e cart ->
  exists pre post : list CartItem,
    cart = pre ++ e :: post /\ ~ In (Product.id e) (cartIds (pre ++ post)).
Proof.
  intros Hnd Hin. apply in_split in Hin. destruct Hin as (pre & post & ->).
  exists pre, post. split; [reflexivity|].
  rewrite cartIds_app in *. simpl in Hnd. now apply NoDup_remove_2 in Hnd.
Qed.

(** How [addLine] changes a cart with one line per product. *)
Lemma addLine_cases (product : Product) (cart : list CartItem) :
  NoDup (cartIds cart) ->
  fst (POS.addLine product cart) = cart
  \/ (~ In (Product.id product) (cartIds cart)
      /\ 1 <= Product.stock product
      /\ find (fun c : CartItem => Product.id c =? Product.id product) cart = None
      /\ fst (POS.addLine product cart) = cart ++ [CartItem.mk product 1])
  \/ (exists (pre post : list CartItem) (e : CartItem),
        cart = pre ++ e :: post
        /\ Product.id e = Product.id product
        /\ ~ In (Product.id product) (cartIds (pre ++ post))
        /\ CartItem.quantity e + 1 <= Product.stock product
        /\ find (fun c : CartItem => Product.id c =? Product.id product) cart = Some e
        /\ fst (POS.addLine product cart)
           = pre ++ CartItem.withQuantity e (CartItem.quantity e + 1) :: post).
Proof.
  intros Hnd.
  destruct (find (fun c : CartItem => Product.id c =? Product.id product) cart)
    as [e|] eqn:Hf.
  - destruct (find_line_in _ _ _ Hf) as [Hin Hid].
    destruct (line_split cart e Hnd Hin) as (pre & post & Hc & Hk).
    rewrite Hid in Hk.
    pose proof (addLine_existing product pre post e Hid Hk) as Hadd.
    rewrite <- Hc in Hadd.
    destruct (Z.gtb_spec (CartItem.quantity e + 1) (Product.stock product)).
    + left. now rewrite Hadd.
    + right. right. exists pre, post, e. rewrite Hadd. repeat split; auto.
  - pose proof (find_line_absent _ _ Hf) as Hk.
    pose proof (addLine_new product cart Hk) as Hadd.
    destruct (Z.gtb_spec 1 (Product.stock product)).
    + left. now rewrite Hadd.
    + right. left. rewrite Hadd. repeat split; auto.
Qed.

Lemma addToCart_cases (env : Env) (product : Product) (pos : POS.State) :
  fst (POS.addToCart env product pos) = pos
  \/ fst (POS.addToCart env product pos)
     = POS.setCart pos (fst (POS.addLine product (POS.cart pos))).
Proof.
  unfold POS.addToCart.
  destruct (expiredAt (now env) product); [now left|].
  destruct (Product.requiresPrescription product && negb (confirmAnswer env)); [now left|].
  right. now destruct (POS.addLine product (POS.cart pos)).
Qed.

(** X10. [removeFromCart] removes the lines of the product and nothing else,
    does nothing for a product that has no line, and does nothing more when
    repeated; removing the one line of a product takes its quantity off the
    item count and its amount off the subtotal. *)
Theorem removeFromCart_spec (id : Z) (pos : POS.State) :
  let pos' := POS.removeFromCart id pos in
  (forall line : CartItem,
     In line (POS.cart pos') <-> In line (POS.cart pos) /\ Product.id line <> id)
  /\ (~ In id (cartIds (POS.cart pos)) -> pos' = pos)
  /\ POS.removeFromCart id pos' = pos'
  /\ (forall (pre post : list CartItem) (line : CartItem),
        POS.cart pos = pre ++ line :: post ->
        Product.id line = id ->
        ~ In id (cartIds (pre ++ post)) ->
        POS.cart pos' = pre ++ post
        /\ POS.itemCount (POS.cart pos')
           = POS.itemCount (POS.cart pos) - CartItem.quantity line
        /\ (POS.subtotal (POS.cart pos')
            == POS.subtotal (POS.cart pos)
               - Product.price line * inject_Z (CartItem.quantity line))%Q).
Proof.
  intros pos'. unfold pos'. clear pos'. unfold POS.removeFromCart.
  split; [|split; [|split]].
  - intros line. simpl. rewrite filter_In.
    destruct (Z.eqb_spec (Product.id line) id); simpl; intuition congruence.
  - intros Hk. rewrite filter_keeps_all; [apply setCart_same|].
    intros x Hx. pose proof (not_in_cartIds _ _ _ Hk Hx) as Hne.
    now destruct (Z.eqb_spec (Product.id x) id).
  - simpl. now rewrite filter_twice.
  - intros pre post line Hc Hid Hk. simpl. rewrite Hc.
    assert (Hcart : filter (fun item : CartItem => negb (Product.id item =? id))
                           (pre ++ line :: post) = pre ++ post).
    { rewrite filter_app. simpl. rewrite Hid, Z.eqb_refl. simpl.
      rewrite <- filter_app. apply filter_keeps_all.
      intros x Hx. pose proof (not_in_cartIds _ _ _ Hk Hx) as Hne.
      now destruct (Z.eqb_spec (Product.id x) id). }
    rewrite Hcart. split; [reflexivity|]. split.
    + rewrite !itemCount_app, itemCount_cons. lia.
    + rewrite !subtotal_app, subtotal_cons. ring.
Qed.

(** X11. An add that changes a cart with one line per product adds exactly
    one unit: the item count goes up by 1 and the subtotal by one unit price,
    which is the price recorded on the existing line when the product has
    one, and the price of the product otherwise. *)
Theorem addToCart_adds_one_unit (env : Env) (product : Product) (pos : POS.State) :
  NoDup (cartIds (POS.cart pos)) ->
  fst (POS.addToCart env product pos) <> pos ->
  POS.itemCount (POS.cart (fst (POS.addToCart env product pos)))
  = POS.itemCount (POS.cart pos) + 1
  /\ (POS.subtotal (POS.cart (fst (POS.addToCart env product pos)))
      == POS.subtotal (POS.cart pos)
         + match find (fun c : CartItem => Product.id c =? Product.id product)
                      (POS.cart pos) with
           | Some e => Product.price e
           | None => Product.price product
           end)%Q.
Proof.
  intros Hnd Hchanged.
  destruct (addToCart_cases env product pos) as [Hsame|Hadd]; [contradiction|].
  rewrite Hadd in *. simpl.
  destruct (addLine_cases product (POS.cart pos) Hnd)
    as [Hkeep|[(_ & _ & Hf & Hnew)|(pre & post & e & Hc & _ & _ & _ & Hf & Hnew)]].
  - rewrite Hkeep, setCart_same in Hchanged. contradiction.
  - rewrite Hnew, Hf. split.
    + rewrite itemCount_app. unfold POS.itemCount at 2. simpl. lia.
    + rewrite subtotal_app. unfold POS.subtotal at 2. simpl. ring.
  - rewrite Hnew, Hf. rewrite Hc. split.
    + rewrite !itemCount_app, !itemCount_cons. simpl. lia.
    + rewrite !subtotal_app, !subtotal_cons. simpl. rewrite inject_Z_plus. ring.
Qed.

(** X12. An add never takes a line above the stock of the product it was
    given: after an add that changed a cart with one line per product, the
    line of that product holds at most [product.stock] units. *)
Theorem addToCart_within_stock (env : Env) (product : Product) (pos : POS.State)
    (line : CartItem) :
  NoDup (cartIds (POS.cart pos)) ->
  fst (POS.addToCart env product pos) <> pos ->
  In line (POS.cart (fst (POS.addToCart env product pos))) ->
  Product.id line = Product.id product ->
  CartItem.quantity line <= Product.stock product.
Proof.
  intros Hnd Hchanged Hline Hid.
  destruct (addToCart_cases env product pos) as [Hsame|Hadd]; [contradiction|].
  rewrite Hadd in *. simpl in Hline.
  destruct (addLine_cases product (POS.cart pos) Hnd)
    as [Hkeep|[(Hk & Hst & _ & Hnew)|(pre & post & e & Hc & _ & Hk & Hst & _ & Hnew)]].
  - rewrite Hkeep, setCart_same in Hchanged. contradiction.
  - rewrite Hnew in Hline. apply in_app_or in Hline. destruct Hline as [Hold|[<-|[]]].
    + now destruct (not_in_cartIds _ _ _ Hk Hold).
    + exact Hst.
  - rewrite Hnew in Hline. apply in_app_or in Hline.
    destruct Hline as [Hpre|[<-|Hpost]].
    + exfalso. apply (not_in_cartIds _ _ line Hk); [apply in_or_app; now left|exact Hid].
    + exact Hst.
    + exfalso. apply (not_in_cartIds _ _ line Hk); [apply in_or_app; now right|exact Hid].
Qed.

(** X13. What the grid disables the handler rejects: for a cart without
    negative quantities, a product whose tile is disabled (out of stock or
    expired) is not added by [addToCart] at the same time. *)
Theorem disabled_tile_is_rejected (env : Env) (product : Product) (pos : POS.State) :
  Forall (fun item => 0 <= CartItem.quantity item) (POS.cart pos) ->
  POS.tileDisabled (now env) product = true ->
  fst (POS.addToCart env product pos) = pos.
Proof.
  intros Hq Hdis. unfold POS.tileDisabled, POS.isExpired in Hdis.
  apply orb_true_iff in Hdis. destruct Hdis as [Hzero|Hexp].
  - apply Z.eqb_eq in Hzero. apply addToCart_unchanged. unfold POS.addLine.
    destruct (find _ (POS.cart pos)) as [e|] eqn:Hf.
    + apply find_some in Hf. destruct Hf as [Hin _].
      rewrite Forall_forall in Hq. specialize (Hq e Hin). simpl in Hq.
      destruct (Z.gtb_spec (CartItem.quantity e + 1) (Product.stock product));
        [reflexivity|lia].
    + destruct (Z.gtb_spec (0 + 1) (Product.stock product)); [reflexivity|lia].
  - now rewrite (addToCart_expired env product pos Hexp).
Qed.

(** X14. Every handler of the point of sale keeps the carts well formed: if
    the cart and the held carts have one line per product and positive
    quantities, they still have after [addToCart], [updateQuantity],
    [removeFromCart], [handleHold], [handleResume] of a registered entry and
    [handleCheckout]. *)
Theorem pos_handlers_keep_carts_wellFormed (env : Env) (app : App.State) (pos : POS.State) :
  cartsWellFormed app pos ->
  (forall product, cartsWellFormed app (fst (POS.addToCart env product pos)))
  /\ (forall products id delta,
        cartsWellFormed app (fst (POS.updateQuantity products id delta pos)))
  /\ (forall id, cartsWellFormed app (POS.removeFromCart id pos))
  /\ (let '(app', pos', _) := POS.handleHold env app pos in cartsWellFormed app' pos')
  /\ (forall held, In held (App.heldSales app) ->
        let '(app', pos') := POS.handleResume app pos held in cartsWellFormed app' pos')
  /\ (let '(app', pos', _) := POS.handleCheckout env app pos in cartsWellFormed app' pos').
Proof.
  intros Hwf. split; [|split; [|split; [|split; [|split]]]].
  - intros product. now apply addToCart_wellFormed.
  - intros products id delta. now apply updateQuantity_wellFormed.
  - intros id. now apply removeFromCart_wellFormed.
  - now apply handleHold_wellFormed.
  - intros held Hin. now apply handleResume_wellFormed.
  - now apply handleCheckout_wellFormed.
Qed.

(** X15. [updateQuantity] leaves no line at or below zero, and never moves a
    line of the product above the catalog stock: a line of that product in
    the new cart either was in the old cart unchanged or holds at most the
    stock of the catalog product. *)
Theorem updateQuantity_within_stock (products : list Product) (id delta : Z)
    (pos : POS.State) (line : CartItem) :
  In line (POS.cart (fst (POS.updateQuantity products id delta pos))) ->
  0 < CartItem.quantity line
  /\ (Product.id line <> id -> In line (POS.cart pos))
  /\ (forall product,
        Product.id line = id ->
        find (fun p => Product.id p =? id) products = Some product ->
        In line (POS.cart pos) \/ CartItem.quantity line <= Product.stock product).
Proof.
  unfold POS.updateQuantity. simpl. intros Hin.
  apply filter_In in Hin. destruct Hin as [Hin Hq]. apply Z.gtb_lt in Hq.
  rewrite map_map in Hin. apply in_map_iff in Hin. destruct Hin as (x & Hx & Hin).
  split; [exact Hq|].
  unfold POS.adjustLine in Hx.
  destruct (Z.eqb_spec (Product.id x) id) as [Hid|Hid].
  - split.
    + intros Hne. exfalso. apply Hne. rewrite <- Hx.
      destruct (match find _ products with Some _ => _ | None => _ end); simpl; exact Hid.
    + intros product _ Hf. rewrite Hf in Hx.
      destruct (Z.gtb_spec (CartItem.quantity x + delta) (Product.stock product)).
      * left. simpl in Hx. now subst line.
      * right. simpl in Hx. subst line. simpl in *. lia.
  - simpl in Hx. subst line. split; [intros _; exact Hin|]. intros product Hl. contradiction.
Qed.

(** ** Expiry views *)

Lemma msPerDay_pos : 0 < msPerDay.
Proof. reflexivity. Qed.

Lemma ceilDays_bounds (diff : Z) :
  (ceilDays diff - 1) * msPerDay < diff <= ceilDays diff * msPerDay.
Proof.
  unfold ceilDays. pose proof msPerDay_pos as Hpos.
  pose proof (Z.div_mod (- diff) msPerDay) as Hdm.
  pose proof (Z.mod_pos_bound (- diff) msPerDay Hpos) as Hm.
  nia.
Qed.

Lemma ceilDays_le (diff d : Z) : ceilDays diff <= d <-> diff <= d * msPerDay.
Proof.
  pose proof (ceilDays_bounds diff) as Hb. pose proof msPerDay_pos as Hpos.
  split; intros Hle; nia.
Qed.

Lemma ceilDays_nonneg (diff : Z) : 0 <= ceilDays diff <-> - msPerDay < diff.
Proof.
  pose proof (ceilDays_bounds diff) as Hb. pose proof msPerDay_pos as Hpos.
  split; intros Hle; nia.
Qed.

(** X16. The window of the inventory's [expiring] filter. A product with a
    valid expiry date matches exactly when its expiry lies less than one day
    in the past or later, and its days to expiry, rounded up, are within the
    alert setting; for a whole number [a] of alert days that is
    [-1 day < expiry - now <= a days]. A product with an invalid date never
    matches. *)
Theorem expiring_filter_window (settings : list AppSetting) (now : Z) (p : Product) :
  (forall expiry : Z,
     dateValue (Product.expiryDate p) = Some expiry ->
     (Inventory.matchesExpiring settings now p = true
      <-> - msPerDay < expiry - now
          /\ (inject_Z (ceilDays (expiry - now)) <= Inventory.expiryAlertDays settings)%Q)
     /\ (forall a : Z,
           Inventory.expiryAlertDays settings = inject_Z a ->
           (Inventory.matchesExpiring settings now p = true
            <-> - msPerDay < expiry - now <= a * msPerDay)))
  /\ (dateValue (Product.expiryDate p) = None ->
      Inventory.matchesExpiring settings now p = false).
Proof.
  unfold Inventory.matchesExpiring. split.
  - intros expiry Hd. rewrite Hd.
    assert (Hiff : Qle_bool (inject_Z (ceilDays (expiry - now)))
                            (Inventory.expiryAlertDays settings)
                   && (ceilDays (expiry - now) >=? 0) = true
                   <-> - msPerDay < expiry - now
                       /\ (inject_Z (ceilDays (expiry - now))
                           <= Inventory.expiryAlertDays settings)%Q).
    { rewrite andb_true_iff, Qle_bool_iff, Z.geb_le, ceilDays_nonneg. tauto. }
    split; [exact Hiff|].
    intros a Ha. rewrite Hiff, Ha, <- Zle_Qle, ceilDays_le. tauto.
  - intros Hd. now rewrite Hd.
Qed.

(** X17. The point of sale and the inventory agree on products that are not
    expired: a tile marked near expiry matches the inventory's [expiring]
    filter at the same time and settings, and a match that is not expired is
    marked near expiry. They differ on a product that expired less than a day
    ago: the filter can still match it, the tile marks it expired and never
    near expiry. *)
Theorem near_expiry_views_agree (settings : list AppSetting) (now : Z) (p : Product) :
  (POS.isNearExpiry settings now now p = true ->
   Inventory.matchesExpiring settings now p = true)
  /\ (Inventory.matchesExpiring settings now p = true ->
      POS.isExpired now p = false ->
      POS.isNearExpiry settings now now p = true)
  /\ (POS.isExpired now p = true -> POS.isNearExpiry settings now now p = false)
  /\ (forall expiry : Z,
        dateValue (Product.expiryDate p) = Some expiry ->
        - msPerDay < expiry - now < 0 ->
        (0 <= Inventory.expiryAlertDays settings)%Q ->
        Inventory.matchesExpiring settings now p = true /\ POS.isExpired now p = true).
Proof.
  unfold POS.isNearExpiry, POS.daysToExpiry, POS.isExpired, expiredAt,
    Inventory.matchesExpiring, Inventory.expiryAlertDays, POS.expiryAlertDays.
  destruct (dateValue (Product.expiryDate p)) as [expiry|]; simpl.
  - split; [|split; [|split]].
    + intros Hnear. apply andb_true_iff in Hnear. destruct Hnear as [Hle Hne].
      rewrite Hle. simpl. apply negb_true_iff, Z.ltb_ge in Hne.
      apply Z.geb_le, ceilDays_nonneg. pose proof msPerDay_pos. lia.
    + intros Hm Hne. apply andb_true_iff in Hm. destruct Hm as [Hle _].
      now rewrite Hle, Hne.
    + intros He. rewrite He. apply andb_false_r.
    + intros e He Hwin Ha. injection He as <-. split.
      * apply andb_true_iff. split.
        -- apply Qle_bool_iff.
           assert (Hz : ceilDays (expiry - now) = 0).
           { apply Z.le_antisymm; [apply ceilDays_le|apply ceilDays_nonneg];
               unfold msPerDay in *; lia. }
           rewrite Hz. exact Ha.
        -- apply Z.geb_le, ceilDays_nonneg. unfold msPerDay in *. lia.
      * apply Z.ltb_lt. lia.
  - split; [discriminate|]. split; [discriminate|]. split; [discriminate|].
    intros e He. discriminate.
Qed.

(** ** The inventory form *)

Lemma setError_not_nil (errors : list (string * string)) (k message : string) :
  Inventory.setError errors k message <> [].
Proof.
  unfold Inventory.setError.
  destruct (existsb _ errors) eqn:He.
  - destruct errors; [discriminate|]. simpl. discriminate.
  - destruct errors; discriminate.
Qed.

Lemma error_step_nil (c : bool) (errors : list (string * string)) (k message : string) :
  (if c then Inventory.setError errors k message else errors) = [] ->
  c = false /\ errors = [].
Proof.
  destruct c; [|auto]. intros He. now destruct (setError_not_nil errors k message).
Qed.

Lemma falsy_false (s : option string) :
  falsy s = false <-> exists v, s = Some v /\ v <> "".
Proof.
  unfold falsy. destruct s as [v|].
  - destruct (String.eqb_spec v ""); split.
    + discriminate.
    + intros (w & Hw & Hne). injection Hw as <-. contradiction.
    + intros _. now exists v.
    + reflexivity.
  - split; [discriminate|]. intros (v & Hv & _). discriminate.
Qed.

Lemma Qle_bool_false (x y : Q) : Qle_bool x y = false <-> (y < x)%Q.
Proof.
  rewrite <- not_true_iff_false, Qle_bool_iff. split.
  - apply Qnot_le_lt.
  - apply Qlt_not_le.
Qed.

(** The errors of [validateForm], one assignment at a time. *)
Lemma validateForm_steps (now : Z) (formData : PartialProduct) :
  exists e1 e2 e3 e4 e5 e6 e7 e8 : list (string * string),
    e1 = (if falsy (PartialProduct.name formData)
          then Inventory.setError [] "name" "Product name is required" else [])
    /\ e2 = (if falsy (PartialProduct.genericName formData)
             then Inventory.setError e1 "genericName" "Generic name/formula is required"
             else e1)
    /\ e3 = (if falsy (PartialProduct.barcode formData)
             then Inventory.setError e2 "barcode" "Barcode is required" else e2)
    /\ e4 = (if falsy (PartialProduct.batchNumber formData)
             then Inventory.setError e3 "batchNumber" "Batch number is required" else e3)
    /\ e5 = match PartialProduct.expiryDate formData with
            | None => Inventory.setError e4 "expiryDate" "Expiry date is required"
            | Some d =>
                if (d =? "")%string
                then Inventory.setError e4 "expiryDate" "Expiry date is required"
                else
                  match dateValue d with
                  | Some expiry =>
                      if expiry <? now
                      then Inventory.setError e4 "expiryDate"
                             "Expiry date cannot be in the past"
                      else e4
                  | None => e4
                  end
            end
    /\ e6 = (if match PartialProduct.costPrice formData with
                | Some v => Qle_bool v 0
                | None => true
                end
             then Inventory.setError e5 "costPrice" "Invalid cost price" else e5)
    /\ e7 = (if match PartialProduct.price formData with
                | Some v => Qle_bool v 0
                | None => true
                end
             then Inventory.setError e6 "price" "Invalid sales price" else e6)
    /\ e8 = match PartialProduct.costPrice formData, PartialProduct.price formData with
            | Some c, Some p =>
                if negb (Qle_bool c p)
                then Inventory.setError e7 "price" "Sales price cannot be lower than cost"
                else e7
            | _, _ => e7
            end
    /\ Inventory.validateForm now formData
       = (e8, match e8 with [] => true | _ => false end).
Proof.
  do 8 eexists. repeat (split; [reflexivity|]). reflexivity.
Qed.

Lemma validateForm_sound (now : Z) (formData : PartialProduct) :
  snd (Inventory.validateForm now formData) = true -> acceptable now formData.
Proof.
  destruct (validateForm_steps now formData)
    as (e1 & e2 & e3 & e4 & e5 & e6 & e7 & e8 & H1 & H2 & H3 & H4 & H5 & H6 & H7 & H8 & Hv).
  rewrite Hv. clear Hv. simpl. destruct e8; [|discriminate]. intros _.
  assert (Hprice : e7 = []
                   /\ forall c p, PartialProduct.costPrice formData = Some c ->
                                  PartialProduct.price formData = Some p ->
                                  Qle_bool c p = true).
  { destruct (PartialProduct.costPrice formData) as [c|];
      destruct (PartialProduct.price formData) as [p|];
      try (split; [now symmetry|discriminate]).
    symmetry in H8. apply error_step_nil in H8. destruct H8 as [Hc He7].
    split; [exact He7|]. intros c' p' Hc' Hp'. injection Hc' as <-. injection Hp' as <-.
    now apply negb_false_iff in Hc. }
  destruct Hprice as [He7 Hcp]. rewrite He7 in H7. clear H8.
  symmetry in H7. apply error_step_nil in H7. destruct H7 as [Hp He6]. rewrite He6 in H6.
  symmetry in H6. apply error_step_nil in H6. destruct H6 as [Hc He5]. rewrite He5 in H5.
  assert (Hdate : e4 = []
                  /\ exists d, PartialProduct.expiryDate formData = Some d /\ d <> ""
                               /\ forall expiry, dateValue d = Some expiry -> now <= expiry).
  { destruct (PartialProduct.expiryDate formData) as [d|];
      [|symmetry in H5;
        now destruct (setError_not_nil e4 "expiryDate" "Expiry date is required")].
    destruct (String.eqb_spec d "") as [Hd|Hd];
      [symmetry in H5;
       now destruct (setError_not_nil e4 "expiryDate" "Expiry date is required")|].
    destruct (dateValue d) as [expiry|] eqn:Ed.
    - symmetry in H5. apply error_step_nil in H5. destruct H5 as [Hlt He4].
      split; [exact He4|]. exists d. repeat split; auto.
      intros e He. rewrite Ed in He. injection He as <-. now apply Z.ltb_ge.
    - split; [now symmetry|]. exists d. repeat split; auto.
      intros e He. rewrite Ed in He. discriminate. }
  destruct Hdate as [He4 Hd]. rewrite He4 in H4. clear H5.
  symmetry in H4. apply error_step_nil in H4. destruct H4 as [Hf4 He3]. rewrite He3 in H3.
  symmetry in H3. apply error_step_nil in H3. destruct H3 as [Hf3 He2]. rewrite He2 in H2.
  symmetry in H2. apply error_step_nil in H2. destruct H2 as [Hf2 He1]. rewrite He1 in H1.
  symmetry in H1. apply error_step_nil in H1. destruct H1 as [Hf1 _].
  unfold acceptable. repeat (split; [assumption|]).
  destruct (PartialProduct.costPrice formData) as [c|]; [|discriminate].
  destruct (PartialProduct.price formData) as [p|]; [|discriminate].
  exists c, p. repeat split; auto.
  - now apply Qle_bool_false.
  - apply Qle_bool_iff. now apply Hcp.
Qed.

Lemma validateForm_complete (now : Z) (formData : PartialProduct) :
  acceptable now formData -> Inventory.validateForm now formData = ([], true).
Proof.
  intros (H1 & H2 & H3 & H4 & (d & Hd & Hne & Hfuture) & (c & p & Hc & Hp & Hpos & Hle)).
  unfold Inventory.validateForm. cbv zeta.
  rewrite H1, H2, H3, H4, Hd, Hc, Hp.
  destruct (String.eqb_spec d ""); [contradiction|].
  assert (Ec : Qle_bool c 0 = false) by now apply Qle_bool_false.
  assert (Ep : Qle_bool p 0 = false).
  { apply Qle_bool_false. now apply Qlt_le_trans with c. }
  assert (Ecp : Qle_bool c p = true) by now apply Qle_bool_iff.
  rewrite Ec, Ep, Ecp. simpl.
  destruct (dateValue d) as [expiry|] eqn:Ed; [|reflexivity].
  specialize (Hfuture expiry eq_refl).
  destruct (Z.ltb_spec expiry now); [lia|reflexivity].
Qed.

(** X18. What the inventory form accepts. [validateForm] answers yes exactly
    when name, generic name, barcode and batch number are filled, the expiry
    date is filled and, if it is a valid date, not before now, and the cost
    price is positive and at most the sales price; it then sets no error. A
    product with the accepted expiry date is not blocked as expired by the
    point of sale at that time. *)
Theorem validateForm_accepts (now : Z) (formData : PartialProduct) :
  (snd (Inventory.validateForm now formData) = true <-> acceptable now formData)
  /\ (snd (Inventory.validateForm now formData) = true ->
      fst (Inventory.validateForm now formData) = []
      /\ forall product : Product,
           PartialProduct.expiryDate formData = Some (Product.expiryDate product) ->
           expiredAt now product = false).
Proof.
  split.
  - split; [apply validateForm_sound|].
    intros Hok. now rewrite (validateForm_complete now formData Hok).
  - intros Hyes. apply validateForm_sound in Hyes.
    rewrite (validateForm_complete now formData Hyes). split; [reflexivity|].
    destruct Hyes as (_ & _ & _ & _ & (d & Hd & _ & Hfuture) & _).
    intros product Hp. rewrite Hd in Hp. injection Hp as Hp. subst d.
    unfold expiredAt. destruct (dateValue (Product.expiryDate product)) as [expiry|];
      [|reflexivity].
    apply Z.ltb_ge. now apply Hfuture.
Qed.

Lemma Qfloor_bounds (x : Q) (lo hi : Z) :
  (inject_Z lo <= x)%Q -> (x < inject_Z hi)%Q -> lo <= Qfloor x < hi.
Proof.
  intros Hlo Hhi. split.
  - rewrite <- (Qfloor_Z lo). now apply Qfloor_resp_le.
  - rewrite Zlt_Qlt. apply Qle_lt_trans with x; [apply Qfloor_le|exact Hhi].
Qed.

(** X19. What the inventory form submits. [handleSubmit] hands over a
    product exactly when [validateForm] accepts the form. For a random
    number in [0, 1) the product gets an id between 0 and 99999, and its SKU
    is the SKU of the form when that is filled and the barcode otherwise: the
    fallback ["N/A"] is never used. *)
Theorem handleSubmit_product (now : Z) (random : Q) (formData : PartialProduct) :
  (0 <= random)%Q -> (random < 1)%Q ->
  (fst (fst (Inventory.handleSubmit now random formData)) = None
   <-> snd (Inventory.validateForm now formData) = false)
  /\ forall newProduct : PartialProduct,
       fst (fst (Inventory.handleSubmit now random formData)) = Some newProduct ->
       (exists i : Z, PartialProduct.id newProduct = Some i /\ 0 <= i <= 99999)
       /\ (exists s : string,
             PartialProduct.sku newProduct = Some s /\ s <> ""
             /\ (falsy (PartialProduct.sku formData) = false ->
                 PartialProduct.sku formData = Some s)
             /\ (falsy (PartialProduct.sku formData) = true ->
                 PartialProduct.barcode formData = Some s))
       /\ PartialProduct.name newProduct = PartialProduct.name formData
       /\ PartialProduct.barcode newProduct = PartialProduct.barcode formData
       /\ PartialProduct.price newProduct = PartialProduct.price formData
       /\ PartialProduct.stock newProduct = PartialProduct.stock formData
       /\ PartialProduct.expiryDate newProduct = PartialProduct.expiryDate formData.
Proof.
  intros Hlo Hhi. unfold Inventory.handleSubmit.
  destruct (Inventory.validateForm now formData) as [errors ok] eqn:Ev.
  assert (Hok : snd (Inventory.validateForm now formData) = ok) by now rewrite Ev.
  simpl snd. destruct ok; simpl.
  - split; [split; discriminate|].
    intros newProduct Hnew. injection Hnew as <-.
    cbn [PartialProduct.id PartialProduct.sku PartialProduct.name PartialProduct.barcode
         PartialProduct.price PartialProduct.stock PartialProduct.expiryDate
         PartialProduct.withIdSku].
    clear Ev. apply validateForm_sound in Hok.
    destruct Hok as (_ & _ & Hbar & _).
    split.
    + exists (Qfloor (random * 100000)). split; [reflexivity|].
      assert (Hb : 0 <= Qfloor (random * 100000) < 100000).
      { apply Qfloor_bounds.
        - change (inject_Z 0) with (0 * 100000)%Q. apply Qmult_le_compat_r; [exact Hlo|discriminate].
        - change (inject_Z 100000) with (1 * 100000)%Q.
          apply Qmult_lt_compat_r; [reflexivity|exact Hhi]. }
      lia.
    + split; [|repeat split; reflexivity].
      unfold Inventory.submittedSku.
      apply falsy_false in Hbar. destruct Hbar as (b & Hb & Hbne).
      destruct (falsy (PartialProduct.sku formData)) eqn:Hsku; simpl.
      * assert (Hfb : falsy (PartialProduct.barcode formData) = false).
        { apply falsy_false. now exists b. }
        rewrite Hfb, Hb. simpl. exists b. repeat split; auto. discriminate.
      * apply falsy_false in Hsku. destruct Hsku as (v & Hv & Hvne).
        rewrite Hv. exists v. repeat split; auto. discriminate.
  - split; [split; reflexivity|]. intros newProduct Hnew. discriminate.
Qed.

(** X20. A generated barcode number has six digits: for a random number in
    [0, 1), [generateBarcode] writes [MED] followed by the rendering of a
    whole number between 100000 and 999999, and touches no other field of
    the form. *)
Theorem generateBarcode_six_digits (random : Q) (formData : PartialProduct) :
  (0 <= random)%Q -> (random < 1)%Q ->
  100000 <= Inventory.barcodeNumber random <= 999999
  /\ PartialProduct.barcode (Inventory.generateBarcode random formData)
     = Some ("MED" ++ numberToString (inject_Z (Inventory.barcodeNumber random)))%string
  /\ PartialProduct.withBarcode (Inventory.generateBarcode random formData) ""
     = PartialProduct.withBarcode formData "".
Proof.
  intros Hlo Hhi. split; [|split; reflexivity].
  assert (Hb : 100000 <= Qfloor (100000 + random * 900000) < 1000000).
  { apply Qfloor_bounds.
    - rewrite <- (Qplus_0_r (inject_Z 100000)) at 1.
      apply Qplus_le_compat; [apply Qle_refl|].
      change 0%Q with (0 * 900000)%Q. apply Qmult_le_compat_r; [exact Hlo|discriminate].
    - change (inject_Z 1000000) with (100000 + 1 * 900000)%Q.
      apply Qplus_lt_r. apply Qmult_lt_compat_r; [reflexivity|exact Hhi]. }
  unfold Inventory.barcodeNumber. lia.
Qed.

(** ** Search and categories *)

Lemma prefix_nil (s : string) : prefix "" s = true.
Proof. now destruct s. Qed.

Lemma prefix_app (t post : string) : prefix t (t ++ post)%string = true.
Proof.
  induction t as [|c t IH]; simpl; [apply prefix_nil|].
  destruct (ascii_dec c c); [exact IH|contradiction].
Qed.

Lemma includes_prefix (s t : string) : prefix t s = true -> includes s t = true.
Proof. intros Hp. destruct s; cbn [includes]; now rewrite Hp. Qed.

Lemma includes_nil (s : string) : includes s "" = true.
Proof. apply includes_prefix, prefix_nil. Qed.

Lemma includes_app (pre t post : string) :
  includes (pre ++ t ++ post)%string t = true.
Proof.
  induction pre as [|c pre IH].
  - change (includes (t ++ post)%string t = true). apply includes_prefix, prefix_app.
  - change (includes (String c (pre ++ t ++ post)%string) t = true).
    cbn [includes]. rewrite IH.
    now destruct (prefix t (String c (pre ++ t ++ post)%string)).
Qed.

Lemma prefix_split (t s : string) :
  prefix t s = true -> exists post, s = (t ++ post)%string.
Proof.
  revert s. induction t as [|c t IH]; intros s Hp.
  - now exists s.
  - destruct s as [|d s]; simpl in Hp; [discriminate|].
    destruct (ascii_dec c d) as [<-|]; [|discriminate].
    destruct (IH s Hp) as [post ->]. now exists post.
Qed.

Lemma includes_split (s t : string) :
  includes s t = true -> exists pre post, s = (pre ++ t ++ post)%string.
Proof.
  induction s as [|c s IH]; cbn [includes].
  - destruct (prefix t "") eqn:Hp; [|discriminate]. intros _.
    destruct (prefix_split _ _ Hp) as [post Hs]. now exists "", post.
  - destruct (prefix t (String c s)) eqn:Hp.
    + intros _. destruct (prefix_split _ _ Hp) as [post Hs]. now exists "", post.
    + intros Hi. destruct (IH Hi) as (pre & post & ->). now exists (String c pre), post.
Qed.

(** X21. The search of the point of sale. A product is listed exactly when
    it is in the catalog, the lower-cased term occurs in its lower-cased
    name, generic name, barcode or SKU, and the category is [All] or its own.
    With an empty term and [All] the whole catalog is listed, given that the
    lower case of the empty string is empty. Whatever the inventory search
    finds by text, the point of sale finds too. *)
Theorem pos_search_spec (searchTerm selectedCategory : string) (products : list Product) :
  let occurs (field : string) :=
    exists pre post : string,
      toLowerCase field = (pre ++ toLowerCase searchTerm ++ post)%string in
  (forall p : Product,
     In p (POS.filteredProducts searchTerm selectedCategory products)
     <-> In p products
         /\ (occurs (Product.name p) \/ occurs (Product.genericName p)
             \/ occurs (Product.barcode p) \/ occurs (Product.sku p))
         /\ (selectedCategory = "All" \/ Product.category p = selectedCategory))
  /\ (toLowerCase "" = "" -> POS.filteredProducts "" "All" products = products)
  /\ (forall (settings : list AppSetting) (now : Z) (activeFilter : option string) (p : Product),
        In p (Inventory.filteredProducts settings now searchTerm activeFilter products) ->
        In p (POS.filteredProducts searchTerm "All" products)).
Proof.
  intros occurs.
  assert (Hocc : forall field,
            includes (toLowerCase field) (toLowerCase searchTerm) = true <-> occurs field).
  { intros field. split.
    - apply includes_split.
    - intros (pre & post & ->). apply includes_app. }
  split; [|split].
  - intros p. unfold POS.filteredProducts. rewrite filter_In. cbv zeta.
    rewrite andb_true_iff, !orb_true_iff, !Hocc, !String.eqb_eq. tauto.
  - intros Hlow. unfold POS.filteredProducts. apply filter_keeps_all.
    intros p _. cbv zeta. now rewrite Hlow, includes_nil.
  - intros settings now activeFilter p. unfold Inventory.filteredProducts, POS.filteredProducts.
    rewrite !filter_In. cbv zeta. intros [Hin Hm]. split; [exact Hin|].
    apply andb_true_iff in Hm. destruct Hm as [Hs _].
    rewrite !orb_true_iff in Hs. rewrite andb_true_iff, !orb_true_iff.
    split; [tauto|left; reflexivity].
Qed.

Lemma uniqueStrings_in (l seen : list string) (x : string) :
  In x (uniqueStrings seen l) <-> In x l /\ ~ In x seen.
Proof.
  revert seen. induction l as [|y l IH]; intros seen; simpl; [tauto|].
  destruct (existsb (String.eqb y) seen) eqn:He.
  - rewrite IH. apply existsb_exists in He. destruct He as (z & Hz & Hyz).
    apply String.eqb_eq in Hyz. subst z. split; [tauto|].
    intros [[<-|Hx] Hn]; [contradiction|tauto].
  - assert (Hy : ~ In y seen).
    { intros Hin. rewrite <- not_true_iff_false in He. apply He.
      apply existsb_exists. exists y. split; [exact Hin|apply String.eqb_refl]. }
    simpl. rewrite IH. simpl. split.
    + intros [<-|[Hx Hn]]; [tauto|]. split; [tauto|]. intros Hs. apply Hn. now right.
    + intros [[<-|Hx] Hn]; [now left|].
      destruct (string_dec y x) as [->|Hne]; [now left|].
      right. split; [exact Hx|]. intros [Heq|Hs]; [contradiction|contradiction].
Qed.

Lemma uniqueStrings_NoDup (l seen : list string) : NoDup (uniqueStrings seen l).
Proof.
  revert seen. induction l as [|y l IH]; intros seen; simpl; [constructor|].
  destruct (existsb (String.eqb y) seen); [apply IH|].
  constructor; [|apply IH].
  rewrite uniqueStrings_in. intros [_ Hn]. apply Hn. now left.
Qed.

(** X22. The category buttons of the point of sale: after [All] every
    category of the catalog appears exactly once and nothing else does, and,
    given that the lower case of the empty string is empty, every button
    lists at least one product when the search box is empty and the catalog
    is not. *)
Theorem categories_spec (products : list Product) :
  (exists rest : list string,
     POS.categories products = "All" :: rest
     /\ NoDup rest
     /\ forall cat, In cat rest <-> exists p, In p products /\ Product.category p = cat)
  /\ (toLowerCase "" = "" -> products <> [] ->
      forall cat, In cat (POS.categories products) ->
                  POS.filteredProducts "" cat products <> []).
Proof.
  split.
  - eexists. split; [reflexivity|]. split; [apply uniqueStrings_NoDup|].
    intros cat. rewrite uniqueStrings_in, in_map_iff. simpl.
    split; [intros [(p & Hc & Hp) _]|intros (p & Hp & Hc); split; [|tauto]];
      exists p; auto.
  - intros Hlow Hne cat Hcat.
    assert (Hsome : exists p, In p products
                              /\ (cat = "All" \/ Product.category p = cat)).
    { destruct Hcat as [<-|Hcat].
      - destruct products as [|p ps]; [contradiction|]. exists p. split; [now left|now left].
      - apply uniqueStrings_in in Hcat. destruct Hcat as [Hcat _].
        apply in_map_iff in Hcat. destruct Hcat as (p & Hp & Hin). exists p. auto. }
    destruct Hsome as (p & Hin & Hc).
    assert (Hp : In p (POS.filteredProducts "" cat products)).
    { unfold POS.filteredProducts. apply filter_In. split; [exact Hin|]. cbv zeta.
      rewrite Hlow, includes_nil. simpl.
      apply orb_true_iff. rewrite !String.eqb_eq. tauto. }
    intros Hnil. rewrite Hnil in Hp. contradiction.
Qed.

(** ** What a sale shows in dashboard and reports *)

Lemma prefix_beforeT (s : string) : prefix (beforeT s) s = true.
Proof.
  induction s as [|c s IH]; simpl; [reflexivity|].
  destruct (Ascii.eqb c "T"); simpl; [reflexivity|].
  destruct (ascii_dec c c); [exact IH|contradiction].
Qed.

(** X23. A recorded sale shows among the dashboard's transactions of its
    day: a sale that a checkout put on the ledger carries the time of the
    checkout as its date; when [today] is the day of that time the sale is
    the first of today's sales and their number has grown by one, and for a
    day that the time of the checkout does not start with today's sales are
    unchanged. *)
Theorem checkout_shows_in_todays_sales (env : Env) (app : App.State) (pos : POS.State)
    (sale : Sale) (today : string) :
  App.sales (fst (fst (POS.handleCheckout env app pos))) = sale :: App.sales app ->
  let sales' := App.sales (fst (fst (POS.handleCheckout env app pos))) in
  Sale.date sale = isoNow env 0
  /\ (today = Dashboard.today (isoNow env 0) ->
       Dashboard.todaysSales today sales'
       = sale :: Dashboard.todaysSales today (App.sales app)
       /\ List.length (Dashboard.todaysSales today sales')
          = S (List.length (Dashboard.todaysSales today (App.sales app))))
  /\ (prefix today (isoNow env 0) = false ->
      Dashboard.todaysSales today sales' = Dashboard.todaysSales today (App.sales app)).
Proof.
  intros Hs sales'. unfold sales'. clear sales'. rewrite Hs.
  destruct (pos_checkout_sale env app pos sale Hs) as (u & _ & Hsale).
  assert (Hdate : Sale.date sale = isoNow env 0) by now rewrite Hsale.
  split; [exact Hdate|]. split.
  - intros ->. unfold Dashboard.today, Dashboard.todaysSales. simpl.
    rewrite Hdate, prefix_beforeT. split; reflexivity.
  - intros Hother. unfold Dashboard.todaysSales. simpl. now rewrite Hdate, Hother.
Qed.

Lemma narcotic_items (l : list CartItem) :
  existsb SaleItem.isNarcotic (map App.toSaleItem l)
  = existsb (fun line : CartItem => Product.isNarcotic line) l.
Proof.
  induction l as [|c l IH]; simpl; [reflexivity|]. now rewrite IH.
Qed.

(** X24. A recorded sale shows in the controlled-drugs report exactly when
    its cart had a narcotic line: after a checkout that put a sale on the
    ledger, the report is the old report with that sale in front if some
    line is a narcotic, and the old report otherwise. *)
Theorem checkout_shows_in_controlled_report (env : Env) (app : App.State)
    (pos : POS.State) (sale : Sale) :
  App.sales (fst (fst (POS.handleCheckout env app pos))) = sale :: App.sales app ->
  Reports.controlledSales (App.sales (fst (fst (POS.handleCheckout env app pos))))
  = (if existsb (fun line : CartItem => Product.isNarcotic line) (POS.cart pos)
     then [sale] else [])
    ++ Reports.controlledSales (App.sales app).
Proof.
  intros Hs. rewrite Hs.
  destruct (pos_checkout_sale env app pos sale Hs) as (u & _ & Hsale).
  unfold Reports.controlledSales. simpl.
  assert (Hn : existsb SaleItem.isNarcotic (Sale.items sale)
               = existsb (fun line : CartItem => Product.isNarcotic line) (POS.cart pos)).
  { rewrite Hsale. simpl. apply narcotic_items. }
  rewrite Hn. now destruct (existsb _ (POS.cart pos)).
Qed.

(** ** Settings *)

Lemma find_updated (key value : string) (settings : list AppSetting) (k : string) :
  find (fun s => (AppSetting.key s =? k)%string) (Settings.updateVal key value settings)
  = option_map (fun s => if (AppSetting.key s =? key)%string then withValue s value else s)
               (find (fun s => (AppSetting.key s =? k)%string) settings).
Proof.
  unfold Settings.updateVal. induction settings as [|s l IH]; simpl; [reflexivity|].
  assert (Hkey : AppSetting.key (if (AppSetting.key s =? key)%string
                                 then withValue s value else s) = AppSetting.key s).
  { now destruct (AppSetting.key s =? key)%string. }
  rewrite Hkey. destruct (AppSetting.key s =? k)%string; [reflexivity|exact IH].
Qed.

(** X25. Writing a setting and reading it back. After [updateVal key value],
    [getVal key] is [value] when the settings have the key and the empty
    string when they do not, in which case nothing changed: [updateVal] never
    adds, removes or reorders a setting. Other keys read as before, and the
    numbers that pages derive from the key (tax rate, thresholds) become
    [Number(value)] for a non-empty value. *)
Theorem updateVal_getVal (key value : string) (settings : list AppSetting) :
  map AppSetting.key (Settings.updateVal key value settings) = map AppSetting.key settings
  /\ ((exists s, In s settings /\ AppSetting.key s = key) ->
      Settings.getVal (Settings.updateVal key value settings) key = value
      /\ forall dflt : Q,
           settingNumber (Settings.updateVal key value settings) key dflt
           = if (value =? "")%string then dflt else Number value)
  /\ ((forall s, In s settings -> AppSetting.key s <> key) ->
      Settings.updateVal key value settings = settings
      /\ Settings.getVal (Settings.updateVal key value settings) key = "")
  /\ (forall other : string,
        other <> key ->
        Settings.getVal (Settings.updateVal key value settings) other
        = Settings.getVal settings other
        /\ forall dflt : Q,
             settingNumber (Settings.updateVal key value settings) other dflt
             = settingNumber settings other dflt).
Proof.
  split; [|split; [|split]].
  - unfold Settings.updateVal. rewrite map_map. apply map_ext. intros s.
    now destruct (AppSetting.key s =? key)%string.
  - intros (s & Hin & Hk).
    assert (Hf : exists s0, find (fun s => (AppSetting.key s =? key)%string) settings = Some s0
                            /\ AppSetting.key s0 = key).
    { destruct (find (fun s => (AppSetting.key s =? key)%string) settings) as [s0|] eqn:Hf.
      - exists s0. split; [reflexivity|]. apply find_some in Hf. now apply String.eqb_eq.
      - apply (find_none _ _ Hf) in Hin. rewrite Hk, String.eqb_refl in Hin. discriminate. }
    destruct Hf as (s0 & Hf & Hk0).
    unfold Settings.getVal, settingNumber. rewrite find_updated, Hf. simpl.
    rewrite Hk0, String.eqb_refl. simpl.
    split; [now destruct (value =? "")%string eqn:E; [apply String.eqb_eq in E|]|reflexivity].
  - intros Hno.
    assert (Hsame : Settings.updateVal key value settings = settings).
    { unfold Settings.updateVal. rewrite <- (map_id settings) at 2. apply map_ext_in.
      intros s Hs. destruct (String.eqb_spec (AppSetting.key s) key); [|reflexivity].
      now destruct (Hno s Hs). }
    split; [exact Hsame|]. rewrite Hsame. unfold Settings.getVal.
    destruct (find _ settings) as [s|] eqn:Hf; [|reflexivity].
    apply find_some in Hf. destruct Hf as [Hin Hk]. apply String.eqb_eq in Hk.
    now destruct (Hno s Hin).
  - intros other Hother.
    assert (Hf : forall s, find (fun s => (AppSetting.key s =? other)%string) settings = Some s ->
                           (AppSetting.key s =? key)%string = false).
    { intros s Hs. apply find_some in Hs. destruct Hs as [_ Hk]. apply String.eqb_eq in Hk.
      apply String.eqb_neq. congruence. }
    unfold Settings.getVal, settingNumber. rewrite find_updated.
    destruct (find (fun s => (AppSetting.key s =? other)%string) settings) as [s|] eqn:Hs;
      simpl; [|split; reflexivity].
    rewrite (Hf s eq_refl). split; reflexivity.
Qed.

(** ** Pages and roles *)

(** X26. Pages are gated by role: the route table shows the settings page
    only to an administrator and the inventory and reports pages only to an
    administrator or a pharmacist; every other pattern but the dashboard and
    the point of sale leads home. *)
Theorem routes_are_role_gated (user : User) (pattern : string) (page : App.Page) :
  In (pattern, page) (App.routes user) ->
  (page = App.SettingsPage -> User.role user = admin)
  /\ (page = App.InventoryPage \/ page = App.ReportsPage -> User.role user <> cashier)
  /\ (User.role user = cashier ->
      page = App.DashboardPage \/ page = App.POSPage \/ page = App.NavigateHome).
Proof.
  unfold App.routes. destruct (User.role user); simpl;
    intros [Hr|[Hr|[Hr|[Hr|[Hr|[Hr|[]]]]]]]; injection Hr as _ <-;
    repeat split; intros; try discriminate; try reflexivity; auto;
    repeat match goal with Hd : _ \/ _ |- _ => destruct Hd end; try discriminate.
Qed.

(** X27. The menu never leads to a redirect: every item that [Layout] shows
    to a user has a route of the same path that shows a page to that user;
    nobody logged out sees an item. *)
Theorem menu_items_are_routable (user : User) (item : Layout.MenuItem) :
  Layout.filteredMenuItems None = []
  /\ (In item (Layout.filteredMenuItems (Some user)) ->
      exists page : App.Page,
        In (Layout.path item, page) (App.routes user) /\ page <> App.NavigateHome).
Proof.
  split; [reflexivity|].
  unfold Layout.filteredMenuItems, App.routes. destruct (User.role user); simpl;
    intros Hin;
    repeat match goal with
           | Hd : _ \/ _ |- _ => destruct Hd as [<-|Hd]
           | Hf : False |- _ => destruct Hf
           end;
    simpl; eexists; (split; [|shelve]); simpl; tauto.
  Unshelve. all: discriminate.
Qed.

End Coverage.

(** ** The further theorems at concrete inputs *)

#[global] Existing Instance examplePlatform.
#[global] Existing Instance exampleCasing.

Lemma checkout_keeps_stock_nonnegative_witness :
  Forall (fun p => 0 <= Product.stock p)
         (App.products
            (fst (App.handleCheckout exampleEnv (exampleApp [panadol; brufen])
                    [CartItem.mk brufen 2] 234 Cash))).
Proof.
  apply checkout_keeps_stock_nonnegative.
  repeat constructor; simpl; lia.
Defined.

Lemma checkout_changes_stock_only_witness :
  let st := exampleApp [panadol; brufen] in
  Forall2 (fun p p' => Product.stock p' <= Product.stock p)
          (App.products st)
          (App.products (fst (App.handleCheckout exampleEnv st [CartItem.mk brufen 2] 234 Cash))).
Proof.
  intros st.
  destruct (checkout_changes_stock_only exampleEnv st [CartItem.mk brufen 2] 234 Cash)
    as (_ & _ & _ & _ & _ & Hdown).
  apply Hdown. repeat constructor; simpl; lia.
Defined.

Lemma checkout_appends_to_ledger_and_log_witness :
  let st := exampleApp [panadol; brufen] in
  let st' := fst (App.handleCheckout exampleEnv st [CartItem.mk brufen 2] 234 Cash) in
  exists (newSales : list Sale) (newLogs : list AuditLog),
    App.sales st' = newSales ++ App.sales st
    /\ App.auditLogs st' = newLogs ++ App.auditLogs st
    /\ List.length newSales = List.length newLogs.
Proof.
  intros st st'.
  destruct (checkout_appends_to_ledger_and_log exampleEnv st [CartItem.mk brufen 2] 234 Cash)
    as (newSales & newLogs & Hs & Hl & Hlen & _).
  exists newSales, newLogs. repeat split; assumption.
Defined.

Lemma recorded_sale_matches_cart_witness :
  let app := exampleApp [panadol; brufen] in
  let pos := POS.setCart POS.initial [CartItem.mk brufen 2] in
  let sale := exampleSaleOf exampleEnv [CartItem.mk brufen 2] in
  App.sales (fst (fst (POS.handleCheckout exampleEnv app pos))) = [sale]
  /\ (fold_right Qplus 0
        (map (fun i => SaleItem.price i * inject_Z (SaleItem.quantity i)) (Sale.items sale))
      == POS.subtotal (POS.cart pos))%Q.
Proof.
  intros app pos sale.
  assert (Hs : App.sales (fst (fst (POS.handleCheckout exampleEnv app pos)))
               = sale :: App.sales app) by reflexivity.
  split; [exact Hs|].
  destruct (recorded_sale_matches_cart exampleEnv app pos sale Hs) as (_ & _ & _ & _ & _ & Hsum).
  exact Hsum.
Defined.

Lemma handleDeleteProduct_spec_witness :
  App.products (fst (App.handleDeleteProduct exampleEnv (exampleApp [panadol; brufen]) 3))
  = [panadol].
Proof.
  destruct (handleDeleteProduct_spec exampleEnv (exampleApp [panadol; brufen]) 3)
    as (_ & _ & Hdel).
  destruct Hdel as (_ & Hps & _).
  - exists brufen. split; [right; now left|reflexivity].
  - intros (s & i & Hs & _). destruct Hs.
  - rewrite Hps. reflexivity.
Defined.

Lemma sold_product_cannot_be_deleted_witness :
  let st' := fst (App.handleCheckout exampleEnv (exampleApp [panadol; brufen])
                    [CartItem.mk brufen 2] 234 Cash) in
  App.sales st' <> []
  /\ fst (App.handleDeleteProduct laterEnv st' 3) = st'.
Proof.
  intros st'.
  assert (Hsold : App.sales st' <> App.sales (exampleApp [panadol; brufen])).
  { intros Heq. vm_compute in Heq. discriminate. }
  split; [exact Hsold|].
  exact (sold_product_cannot_be_deleted exampleEnv laterEnv (exampleApp [panadol; brufen])
           [CartItem.mk brufen 2] 234 Cash (CartItem.mk brufen 2) Hsold (or_introl eq_refl)).
Defined.

Lemma add_then_delete_restores_catalog_witness :
  App.products
    (fst (App.handleDeleteProduct laterEnv
            (App.handleAddProduct exampleEnv (exampleApp [panadol]) brufen) 3))
  = [panadol].
Proof.
  assert (Hnew : forall p, In p (App.products (exampleApp [panadol])) ->
                           Product.id p <> Product.id brufen).
  { intros p [<-|[]]. discriminate. }
  assert (Hfree : ~ soldBefore (App.sales (exampleApp [panadol])) (Product.id brufen)).
  { intros (s & i & Hs & _). destruct Hs. }
  exact (proj2 (add_then_delete_restores_catalog exampleEnv laterEnv (exampleApp [panadol])
                  brufen Hnew Hfree)).
Defined.

Lemma inventory_delete_is_gated_witness :
  Inventory.handleDelete exampleEnv sara (exampleApp [panadol]) 1 "Panadol"
  = (exampleApp [panadol], [])
  /\ fst (Inventory.handleDelete exampleEnv amna (exampleApp [panadol]) 1 "Panadol")
     <> exampleApp [panadol]
  /\ confirmAnswer exampleEnv = true.
Proof.
  assert (Hchanged : fst (Inventory.handleDelete exampleEnv amna (exampleApp [panadol]) 1
                            "Panadol") <> exampleApp [panadol]).
  { intros Heq. vm_compute in Heq. discriminate. }
  split; [|split; [exact Hchanged|]].
  - apply (inventory_delete_is_gated exampleEnv sara (exampleApp [panadol]) 1 "Panadol").
    discriminate.
  - destruct (inventory_delete_is_gated exampleEnv amna (exampleApp [panadol]) 1 "Panadol")
      as [_ Hgate].
    destruct (Hgate Hchanged) as (_ & Hc & _). exact Hc.
Defined.

Lemma clear_data_unlocks_deletion_witness :
  App.sales (fst staleBefore) <> []
  /\ App.sales (fst (Settings.handleClearData exampleEnv (fst staleBefore) (Some "DELETE"))) = []
  /\ Settings.handleClearData exampleEnv (fst staleBefore) (Some "delete")
     = (fst staleBefore, []).
Proof.
  split; [vm_compute; discriminate|]. split.
  - destruct (clear_data_unlocks_deletion exampleEnv laterEnv (fst staleBefore) (Some "DELETE"))
      as [_ Hyes].
    exact (proj1 (Hyes eq_refl)).
  - destruct (clear_data_unlocks_deletion exampleEnv laterEnv (fst staleBefore) (Some "delete"))
      as [Hno _].
    apply Hno. discriminate.
Defined.

Lemma removeFromCart_spec_witness :
  let pos := POS.setCart POS.initial [CartItem.mk panadol 1; CartItem.mk brufen 2] in
  POS.cart (POS.removeFromCart 3 pos) = [CartItem.mk panadol 1]
  /\ POS.itemCount (POS.cart (POS.removeFromCart 3 pos)) = 1.
Proof.
  intros pos.
  destruct (removeFromCart_spec 3 pos) as (_ & _ & _ & Hsplit).
  assert (Hk : ~ In 3 (cartIds ([CartItem.mk panadol 1] ++ []))).
  { simpl. intuition discriminate. }
  destruct (Hsplit [CartItem.mk panadol 1] [] (CartItem.mk brufen 2) eq_refl eq_refl Hk)
    as (Hc & Hn & _).
  split; [exact Hc|]. rewrite Hn. reflexivity.
Defined.

Lemma addToCart_adds_one_unit_witness :
  let pos := POS.setCart POS.initial [CartItem.mk brufen 1] in
  NoDup (cartIds (POS.cart pos))
  /\ POS.itemCount (POS.cart (fst (POS.addToCart exampleEnv brufen pos))) = 2.
Proof.
  intros pos.
  assert (Hnd : NoDup (cartIds (POS.cart pos))).
  { repeat constructor. simpl. tauto. }
  assert (Hchanged : fst (POS.addToCart exampleEnv brufen pos) <> pos).
  { intros Heq. vm_compute in Heq. discriminate. }
  split; [exact Hnd|].
  destruct (addToCart_adds_one_unit exampleEnv brufen pos Hnd Hchanged) as [Hn _].
  rewrite Hn. reflexivity.
Defined.

Lemma addToCart_within_stock_witness :
  let pos := POS.setCart POS.initial [CartItem.mk brufen 1] in
  In (CartItem.mk brufen 2) (POS.cart (fst (POS.addToCart exampleEnv brufen pos)))
  /\ CartItem.quantity (CartItem.mk brufen 2) <= Product.stock brufen.
Proof.
  intros pos.
  assert (Hnd : NoDup (cartIds (POS.cart pos))).
  { repeat constructor. simpl. tauto. }
  assert (Hchanged : fst (POS.addToCart exampleEnv brufen pos) <> pos).
  { intros Heq. vm_compute in Heq. discriminate. }
  assert (Hin : In (CartItem.mk brufen 2)
                   (POS.cart (fst (POS.addToCart exampleEnv brufen pos)))).
  { vm_compute. left. reflexivity. }
  split; [exact Hin|].
  exact (addToCart_within_stock exampleEnv brufen pos (CartItem.mk brufen 2)
           Hnd Hchanged Hin eq_refl).
Defined.

Lemma disabled_tile_is_rejected_witness :
  let pos := POS.setCart POS.initial [CartItem.mk panadol 1] in
  POS.tileDisabled (now exampleEnv) morphine = true
  /\ fst (POS.addToCart exampleEnv morphine pos) = pos.
Proof.
  intros pos. split; [reflexivity|].
  apply disabled_tile_is_rejected; [|reflexivity].
  repeat constructor; simpl; lia.
Defined.

Lemma pos_handlers_keep_carts_wellFormed_witness :
  cartsWellFormed (exampleApp [panadol; brufen])
                  (fst (POS.addToCart exampleEnv brufen POS.initial)).
Proof.
  destruct (pos_handlers_keep_carts_wellFormed exampleEnv (exampleApp [panadol; brufen])
              POS.initial (initial_wellFormed (exampleApp [panadol; brufen]) eq_refl))
    as [Hadd _].
  apply Hadd.
Defined.

Lemma updateQuantity_within_stock_witness :
  let pos := POS.setCart POS.initial [CartItem.mk brufen 1] in
  In (CartItem.mk brufen 2) (POS.cart (fst (POS.updateQuantity [brufen] 3 1 pos)))
  /\ (In (CartItem.mk brufen 2) (POS.cart pos)
      \/ CartItem.quantity (CartItem.mk brufen 2) <= Product.stock brufen).
Proof.
  intros pos.
  assert (Hin : In (CartItem.mk brufen 2)
                   (POS.cart (fst (POS.updateQuantity [brufen] 3 1 pos)))).
  { vm_compute. left. reflexivity. }
  split; [exact Hin|].
  destruct (updateQuantity_within_stock [brufen] 3 1 pos (CartItem.mk brufen 2) Hin)
    as (_ & _ & Hstock).
  exact (Hstock brufen eq_refl eq_refl).
Defined.

Lemma expiring_filter_window_witness :
  dateValue (Product.expiryDate lapsed) = Some 1767225600000
  /\ Inventory.matchesExpiring exampleSettings (now exampleEnv) lapsed = true.
Proof.
  split; [reflexivity|].
  destruct (expiring_filter_window exampleSettings (now exampleEnv) lapsed) as [Hvalid _].
  destruct (Hvalid 1767225600000 eq_refl) as [_ Hwhole].
  apply (Hwhole 90 eq_refl). unfold msPerDay. simpl. lia.
Defined.

Lemma near_expiry_views_agree_witness :
  Inventory.matchesExpiring exampleSettings (now exampleEnv) lapsed = true
  /\ POS.isExpired (now exampleEnv) lapsed = true.
Proof.
  destruct (near_expiry_views_agree exampleSettings (now exampleEnv) lapsed)
    as (_ & _ & _ & Hgap).
  apply (Hgap 1767225600000 eq_refl).
  - unfold msPerDay. simpl. lia.
  - vm_compute. discriminate.
Defined.

Lemma validateForm_accepts_witness :
  snd (Inventory.validateForm (now exampleEnv) exampleForm) = true
  /\ fst (Inventory.validateForm (now exampleEnv) exampleForm) = [].
Proof.
  assert (Hyes : snd (Inventory.validateForm (now exampleEnv) exampleForm) = true)
    by reflexivity.
  split; [exact Hyes|].
  destruct (validateForm_accepts (now exampleEnv) exampleForm) as [_ Hclean].
  exact (proj1 (Hclean Hyes)).
Defined.

Lemma handleSubmit_product_witness :
  exists newProduct : PartialProduct,
    fst (fst (Inventory.handleSubmit (now exampleEnv) (1 # 2) exampleForm)) = Some newProduct
    /\ PartialProduct.sku newProduct = Some "MED123456".
Proof.
  eexists. split; [reflexivity|].
  assert (Hlo : (0 <= 1 # 2)%Q) by discriminate.
  assert (Hhi : (1 # 2 < 1)%Q) by reflexivity.
  destruct (handleSubmit_product (now exampleEnv) (1 # 2) exampleForm Hlo Hhi) as [_ Hp].
  destruct (Hp _ eq_refl) as (_ & (s & Hs & _ & _ & Hbar) & _).
  rewrite Hs. symmetry. exact (Hbar eq_refl).
Defined.

Lemma generateBarcode_six_digits_witness :
  100000 <= Inventory.barcodeNumber (1 # 2) <= 999999.
Proof.
  assert (Hlo : (0 <= 1 # 2)%Q) by discriminate.
  assert (Hhi : (1 # 2 < 1)%Q) by reflexivity.
  exact (proj1 (generateBarcode_six_digits (1 # 2) exampleForm Hlo Hhi)).
Defined.

Lemma pos_search_spec_witness :
  toLowerCase "" = ""
  /\ POS.filteredProducts "" "All" [panadol; brufen] = [panadol; brufen].
Proof.
  split; [reflexivity|].
  destruct (pos_search_spec "" "All" [panadol; brufen]) as (_ & Hall & _).
  apply Hall. reflexivity.
Defined.

Lemma categories_spec_witness :
  In "General" (POS.categories [panadol; brufen])
  /\ POS.filteredProducts "" "General" [panadol; brufen] <> [].
Proof.
  assert (Hin : In "General" (POS.categories [panadol; brufen])).
  { simpl. tauto. }
  split; [exact Hin|].
  destruct (categories_spec [panadol; brufen]) as [_ Hlisted].
  apply Hlisted; [reflexivity|discriminate|exact Hin].
Defined.

Lemma checkout_shows_in_todays_sales_witness :
  let app := exampleApp [panadol; brufen] in
  let pos := POS.setCart POS.initial [CartItem.mk brufen 2] in
  let sale := exampleSaleOf exampleEnv [CartItem.mk brufen 2] in
  Dashboard.today (isoNow exampleEnv 0) = "2026-01-01"
  /\ Sale.date sale = "2026-01-01T09:00:00.000Z"
  /\ Dashboard.todaysSales "2026-01-01"
       (App.sales (fst (fst (POS.handleCheckout exampleEnv app pos)))) = [sale]
  /\ Dashboard.todaysSales "2025-12-31"
       (App.sales (fst (fst (POS.handleCheckout exampleEnv app pos)))) = [].
Proof.
  intros app pos sale.
  assert (Hs : App.sales (fst (fst (POS.handleCheckout exampleEnv app pos)))
               = sale :: App.sales app) by reflexivity.
  split; [reflexivity|].
  destruct (checkout_shows_in_todays_sales exampleEnv app pos sale "2026-01-01" Hs)
    as (Hdate & Hday & _).
  destruct (checkout_shows_in_todays_sales exampleEnv app pos sale "2025-12-31" Hs)
    as (_ & _ & Hother).
  split; [exact Hdate|]. split; [exact (proj1 (Hday eq_refl))|].
  exact (Hother eq_refl).
Defined.

Lemma checkout_shows_in_controlled_report_witness :
  let app := exampleApp [panadol; morphine] in
  let pos := POS.setCart POS.initial [CartItem.mk morphine 2] in
  let sale := exampleSaleOf exampleEnv [CartItem.mk morphine 2] in
  Reports.controlledSales (App.sales (fst (fst (POS.handleCheckout exampleEnv app pos))))
  = [sale].
Proof.
  intros app pos sale.
  assert (Hs : App.sales (fst (fst (POS.handleCheckout exampleEnv app pos)))
               = sale :: App.sales app) by reflexivity.
  rewrite (checkout_shows_in_controlled_report exampleEnv app pos sale Hs).
  reflexivity.
Defined.

Lemma updateVal_getVal_witness :
  let settings := Settings.updateVal "tax_rate" "18" exampleSettings in
  Settings.getVal settings "tax_rate" = "18" /\ POS.taxRate settings = 18%Q.
Proof.
  intros settings.
  destruct (updateVal_getVal "tax_rate" "18" exampleSettings) as (_ & Hhas & _).
  destruct Hhas as [Hget Hnumber].
  - eexists. split; [left; reflexivity|reflexivity].
  - split; [exact Hget|]. unfold POS.taxRate, settings. rewrite Hnumber. reflexivity.
Defined.

Lemma routes_are_role_gated_witness :
  In ("/inventory", App.InventoryPage) (App.routes sara)
  /\ User.role sara <> cashier.
Proof.
  assert (Hin : In ("/inventory", App.InventoryPage) (App.routes sara)).
  { simpl. tauto. }
  split; [exact Hin|].
  destruct (routes_are_role_gated sara "/inventory" App.InventoryPage Hin) as (_ & Hnc & _).
  apply Hnc. now left.
Defined.

Lemma menu_items_are_routable_witness :
  exists page : App.Page,
    In ("/inventory", page) (App.routes sara) /\ page <> App.NavigateHome.
Proof.
  destruct (menu_items_are_routable sara
              (Layout.mkItem "Inventory" "/inventory" [admin; pharmacist])) as [_ Hroute].
  apply Hroute. simpl. tauto.
Defined.
